(** * TFRC packet history (net/dccp/ccids/lib/packet_history.c)

    A shallow embedding of the transmitter history, the receiver history
    with its loss-detection transitions, and the CCVal-based RTT sampler,
    together with the sequence-number arithmetic of net/dccp/dccp.h they
    rely on.  Machine integers are [Z] with the C conversions written out. *)

From stdpp Require Import base option list gmap.
From Stdlib Require Import ZArith Lia Bool.

Local Open Scope Z_scope.

Set Warnings "-clear-no-such-hyp".

(** ** C integer conversions *)

Module CInt.

(** Value conversion to an unsigned type of [w] bits, also the store
    into a [w]-bit unsigned bit-field. *)
Definition to_unsigned (w : Z) (x : Z) : Z := x mod 2 ^ w.

Definition to_u64 (x : Z) : Z := to_unsigned 64 x.
Definition to_u32 (x : Z) : Z := to_unsigned 32 x.

(** Stores into the 48-bit and 4-bit fields of a packed [u64]. *)
Definition to_u48 (x : Z) : Z := to_unsigned 48 x.
Definition to_u4 (x : Z) : Z := to_unsigned 4 x.

(** Conversion to the 32-bit [int] (two's complement wrap-around, as gcc
    defines the narrowing the kernel relies on). *)
Definition to_int (x : Z) : Z := (x + 2 ^ 31) mod 2 ^ 32 - 2 ^ 31.

(** Conversion to [s64]. *)
Definition to_s64 (x : Z) : Z := (x + 2 ^ 63) mod 2 ^ 64 - 2 ^ 63.

End CInt.

Import CInt.

(** ** net/dccp/dccp.h : sequence-number arithmetic *)

Module Dccp.

(** [static inline u64 dccp_delta_seqno(u64 seqno1, u64 seqno2)]
    [return ((seqno2 << 16) - (seqno1 << 16)) >> 16;]
    All three operations are on [u64]; the right shift is logical. *)
Definition dccp_delta_seqno (seqno1 seqno2 : Z) : Z :=
  Z.shiftr
    (to_u64 (to_u64 (Z.shiftl seqno2 16) - to_u64 (Z.shiftl seqno1 16)))
    16.

(** [return (const s64)((seq1 << 16) - (seq2 << 16)) < 0;] *)
Definition before48 (seq1 seq2 : Z) : bool :=
  to_s64 (to_u64 (to_u64 (Z.shiftl seq1 16) - to_u64 (Z.shiftl seq2 16))) <? 0.

(** [return (const s64)((seq2 << 16) - (seq1 << 16)) < 0;] *)
Definition after48 (seq1 seq2 : Z) : bool :=
  to_s64 (to_u64 (to_u64 (Z.shiftl seq2 16) - to_u64 (Z.shiftl seq1 16))) <? 0.

End Dccp.

Import Dccp.

(** ** Time stamps *)

Module Ktime.

(** [ktime_t] is a signed count of nanoseconds; [ktime_sub] subtracts. *)
Definition ktime_sub (lhs rhs : Z) : Z := lhs - rhs.

(** [net_timedelta(t)] is [ktime_sub(ktime_get_real(), t)]; [now] is the
    clock value read at the call. *)
Definition net_timedelta (now : Z) (timeval : Z) : Z := ktime_sub now timeval.

Section Conversion.

(** The kernel's conversion of a [ktime_t] to whole microseconds
    ([s64]); not defined in these sources. *)
Variable ktime_to_us : Z -> Z.

Definition ktime_us_delta (later earlier : Z) : Z :=
  ktime_to_us (ktime_sub later earlier).

End Conversion.

End Ktime.

Import Ktime.

(** ** Transmitter history *)

Module TxHist.

(** Addresses of slab objects; a C pointer is [None] for [NULL]. *)
Definition loc : Type := positive.

(** [struct tfrc_tx_hist_entry] *)
Record tfrc_tx_hist_entry : Type := mk_tx {
  next  : option loc;
  seqno : Z;
  stamp : Z
}.

(** The live objects of [tfrc_tx_hist_slab]. *)
Abbreviation heap := (gmap loc tfrc_tx_hist_entry).

(** A pointer cell a [struct tfrc_tx_hist_entry **] can designate: the
    connection's head variable or the [next] field of an entry. *)
Inductive cell : Type :=
| HeadVar
| NextField (l : loc).

Record mem : Type := mk_mem {
  tx_head : option loc;
  tx_heap : heap
}.

Definition load (m : mem) (c : cell) : option (option loc) :=
  match c with
  | HeadVar => Some (tx_head m)
  | NextField l => next <$> tx_heap m !! l
  end.

Definition store (m : mem) (c : cell) (p : option loc) : option mem :=
  match c with
  | HeadVar => Some (mk_mem p (tx_heap m))
  | NextField l =>
      e ← tx_heap m !! l;
      Some (mk_mem (tx_head m) (<[l := mk_tx p (seqno e) (stamp e)]> (tx_heap m)))
  end.

(** [tfrc_tx_hist_find_entry]: the [while] loop, one iteration per unit
    of [fuel].  [None] when the fuel runs out or a pointer dangles;
    otherwise the pointer the function returns. *)
Fixpoint tfrc_tx_hist_find_entry (fuel : nat) (σ : heap) (head : option loc)
         (seq : Z) : option (option loc) :=
  match head with
  | None => Some None
  | Some l =>
      e ← σ !! l;
      if negb (seqno e =? seq) then
        match fuel with
        | O => None
        | S fuel' => tfrc_tx_hist_find_entry fuel' σ (next e) seq
        end
      else Some (Some l)
  end.

(** [tfrc_tx_hist_add]: [fresh_ok] tells whether [kmem_cache_alloc]
    succeeded, [now] is [ktime_get_real()].  Returns 0 or [-ENOBUFS]. *)
Definition ENOBUFS : Z := 105.

Definition tfrc_tx_hist_add (m : mem) (headp : cell) (seq : Z)
           (fresh_ok : bool) (now : Z) : option (Z * mem) :=
  if fresh_ok then
    let entry := fresh (dom (tx_heap m)) in
    old ← load m headp;
    let m1 := mk_mem (tx_head m) (<[entry := mk_tx old (to_u64 seq) now]> (tx_heap m)) in
    m2 ← store m1 headp (Some entry);
    Some (0, m2)
  else Some (- ENOBUFS, m).

(** The loop of [tfrc_tx_hist_purge]: free [head], go on with its
    successor. *)
Fixpoint purge_loop (fuel : nat) (σ : heap) (head : option loc) : option heap :=
  match head with
  | None => Some σ
  | Some l =>
      match fuel with
      | O => None
      | S fuel' =>
          e ← σ !! l;
          purge_loop fuel' (delete l σ) (next e)
      end
  end.

Definition tfrc_tx_hist_purge (fuel : nat) (m : mem) (headp : cell) : option mem :=
  head ← load m headp;
  σ ← purge_loop fuel (tx_heap m) head;
  store (mk_mem (tx_head m) σ) headp None.

Section Conversion.

Variable ktime_to_us : Z -> Z.

(** [tfrc_tx_hist_rtt]: [head] is passed by value; the result is the
    [u32] sample and the memory after the call. *)
Definition tfrc_tx_hist_rtt (fuel : nat) (m : mem) (head : option loc)
           (seq : Z) (now : Z) : option (Z * mem) :=
  packet ← tfrc_tx_hist_find_entry fuel (tx_heap m) head (to_u64 seq);
  match packet with
  | Some p =>
      e ← tx_heap m !! p;
      let rtt := to_u32 (ktime_us_delta ktime_to_us now (stamp e)) in
      m1 ← tfrc_tx_hist_purge fuel m (NextField p);
      Some (rtt, m1)
  | None => Some (0, m)
  end.

End Conversion.

(** A stretch of chain: following [next] from [p] visits the objects of
    [c] (address, sequence number, send time), newest first, and ends
    with the pointer [q]. *)
Fixpoint is_seg (σ : heap) (p : option loc)
         (c : list (loc * (Z * Z))) (q : option loc) : Prop :=
  match c with
  | [] => p = q
  | (l, (s, t)) :: c' =>
      p = Some l ∧ ∃ n, σ !! l = Some (mk_tx n s t) ∧ is_seg σ n c' q
  end.

(** A whole chain ends with [NULL]. *)
Definition is_chain (σ : heap) (p : option loc)
           (c : list (loc * (Z * Z))) : Prop :=
  is_seg σ p c None.

(** No object of [c] carries the sequence number [seq]. *)
Definition no_match (seq : Z) (c : list (loc * (Z * Z))) : Prop :=
  ∀ x, x ∈ c → x.2.1 ≠ seq.

End TxHist.

(** ** Receiver history: data *)

Module RxHist.

(** [SUB16(a, b) = (((a) + 16 - (b)) & 0xF)] *)
Definition SUB16 (a b : Z) : Z := Z.land (a + 16 - b) 15.

Definition TFRC_NDUPACK : Z := 3.

(** [struct tfrc_rx_hist_entry] (the function of the same name
    is [tfrc_rx_hist_entry] below): a 48-bit sequence number and two 4-bit
    fields packed in a [u64], a [u32] NDP count and a [ktime_t] stamp. *)
Record rx_entry : Type := mk_entry {
  tfrchrx_seqno  : Z;
  tfrchrx_ccval  : Z;
  tfrchrx_type   : Z;
  tfrchrx_ndp    : Z;
  tfrchrx_tstamp : Z
}.

(** [ring[TFRC_NDUPACK + 1]]: four slots, each owning one entry. *)
Record ring_t : Type := mk_ring {
  slot0 : rx_entry;
  slot1 : rx_entry;
  slot2 : rx_entry;
  slot3 : rx_entry
}.

(** [r[i]] and [*r[i] = e] for an index already reduced to 0..3. *)
Definition ring_get (r : ring_t) (i : Z) : rx_entry :=
  match i with
  | 0 => slot0 r
  | 1 => slot1 r
  | 2 => slot2 r
  | _ => slot3 r
  end.

Definition ring_set (r : ring_t) (i : Z) (e : rx_entry) : ring_t :=
  match i with
  | 0 => mk_ring e (slot1 r) (slot2 r) (slot3 r)
  | 1 => mk_ring (slot0 r) e (slot2 r) (slot3 r)
  | 2 => mk_ring (slot0 r) (slot1 r) e (slot3 r)
  | _ => mk_ring (slot0 r) (slot1 r) (slot2 r) e
  end.

(** [struct tfrc_rx_hist].  [loss_count] and [loss_start] are 2-bit
    fields; [rtt_sample_prev] is a preprocessor alias of [loss_start],
    so the model has no separate field for it. *)
Record tfrc_rx_hist : Type := mk_hist {
  ring       : ring_t;
  loss_count : Z;
  loss_start : Z
}.

Definition rtt_sample_prev (h : tfrc_rx_hist) : Z := loss_start h.

Definition set_loss_count (h : tfrc_rx_hist) (v : Z) : tfrc_rx_hist :=
  mk_hist (ring h) (to_unsigned 2 v) (loss_start h).

Definition set_loss_start (h : tfrc_rx_hist) (v : Z) : tfrc_rx_hist :=
  mk_hist (ring h) (loss_count h) (to_unsigned 2 v).

Definition set_rtt_sample_prev (h : tfrc_rx_hist) (v : Z) : tfrc_rx_hist :=
  set_loss_start h v.

(** The part of a received [sk_buff] the history reads:
    [DCCP_SKB_CB(skb)->dccpd_seq], [dccp_hdr(skb)->dccph_ccval] and
    [dccp_hdr(skb)->dccph_type]. *)
Record sk_buff : Type := mk_skb {
  dccpd_seq   : Z;
  dccph_ccval : Z;
  dccph_type  : Z
}.

(** Modelled from the spec: the inline accessors of packet_history.h are
    not part of the sources at hand.  The spec gives
    [entry(i) = ring[(loss_start + i) mod 4]]. *)
Definition tfrc_rx_hist_index (h : tfrc_rx_hist) (n : Z) : Z :=
  (loss_start h + n) mod 4.

Definition tfrc_rx_hist_entry (h : tfrc_rx_hist) (n : Z) : rx_entry :=
  ring_get (ring h) (tfrc_rx_hist_index h n).

(** Modelled from the spec: [entry(0)] is the anchor (the entry before
    the loss). *)
Definition tfrc_rx_hist_loss_prev (h : tfrc_rx_hist) : rx_entry :=
  ring_get (ring h) (tfrc_rx_hist_index h 0).

(** Modelled from the spec: the last-received slot is "slot 0 relative to
    current anchor".  Every statement below that depends on which slot
    this is concerns a history with [loss_count = 0]. *)
Definition last_rcv_index (h : tfrc_rx_hist) : Z := tfrc_rx_hist_index h 0.

Definition tfrc_rx_hist_last_rcv (h : tfrc_rx_hist) : rx_entry :=
  ring_get (ring h) (last_rcv_index h).

(** [tfrc_rx_hist_entry_from_skb]; [now] is the value [ktime_get_real()]
    returns at the call. *)
Definition tfrc_rx_hist_entry_from_skb (skb : sk_buff) (ndp : Z) (now : Z)
  : rx_entry :=
  {| tfrchrx_seqno  := to_u48 (dccpd_seq skb);
     tfrchrx_ccval  := to_u4 (dccph_ccval skb);
     tfrchrx_type   := to_u4 (dccph_type skb);
     tfrchrx_ndp    := to_u32 ndp;
     tfrchrx_tstamp := now |}.

(** Writing through the entry pointer held in slot [i]. *)
Definition write_entry (h : tfrc_rx_hist) (i : Z) (e : rx_entry)
  : tfrc_rx_hist :=
  mk_hist (ring_set (ring h) i e) (loss_count h) (loss_start h).

Definition tfrc_rx_hist_add_packet (h : tfrc_rx_hist) (skb : sk_buff)
           (ndp : Z) (now : Z) : tfrc_rx_hist :=
  write_entry h (last_rcv_index h) (tfrc_rx_hist_entry_from_skb skb ndp now).

(** The loop [for (i = 1; i <= h->loss_count; i++)] of
    [tfrc_rx_hist_duplicate], from index [i] with [n] iterations left. *)
Fixpoint duplicate_loop (h : tfrc_rx_hist) (seq : Z) (i : Z) (n : nat) : Z :=
  match n with
  | O => 0
  | S n' =>
      if tfrchrx_seqno (tfrc_rx_hist_entry h i) =? seq then 1
      else duplicate_loop h seq (i + 1) n'
  end.

(** [tfrc_rx_hist_duplicate].  [dccp_delta_seqno] returns [u64], so the
    test [<= 0] is an unsigned comparison. *)
Definition tfrc_rx_hist_duplicate (h : tfrc_rx_hist) (skb : sk_buff) : Z :=
  let seq := to_u64 (dccpd_seq skb) in
  if dccp_delta_seqno (tfrchrx_seqno (tfrc_rx_hist_loss_prev h)) seq <=? 0
  then 1
  else duplicate_loop h seq 1 (Z.to_nat (loss_count h)).

Definition tfrc_rx_hist_loss_indicated (h : tfrc_rx_hist) : tfrc_rx_hist :=
  set_loss_count h 1.

Definition tfrc_rx_hist_loss_pending (h : tfrc_rx_hist) : Z := loss_count h.

(** [tfrc_rx_hist_new_loss_indicated]: [int delta] receives the [u64]
    distance; [ndp < delta] compares a [u32] with an [int], hence as
    unsigned. *)
Definition tfrc_rx_hist_new_loss_indicated (h : tfrc_rx_hist) (skb : sk_buff)
           (ndp : Z) : Z * tfrc_rx_hist :=
  let delta := to_int (dccp_delta_seqno (tfrchrx_seqno (tfrc_rx_hist_last_rcv h))
                                        (to_u64 (dccpd_seq skb))) in
  let h1 := if (1 <? delta) && (to_u32 ndp <? to_u32 delta)
            then tfrc_rx_hist_loss_indicated h else h in
  (tfrc_rx_hist_loss_pending h1, h1).

Definition tfrc_rx_hist_swap (h : tfrc_rx_hist) (a b : Z) : tfrc_rx_hist :=
  let idx_a := tfrc_rx_hist_index h a in
  let idx_b := tfrc_rx_hist_index h b in
  let tmp := ring_get (ring h) idx_a in
  let r1 := ring_set (ring h) idx_a (ring_get (ring h) idx_b) in
  let r2 := ring_set r1 idx_b tmp in
  mk_hist r2 (loss_count h) (loss_start h).

(** *** Loss detection: the [__*_after_loss] helpers

    [u64] sequence numbers, [int] distances and [int] copies of stored
    NDP counts; the NDP argument of the new packet stays [u32], so the
    comparisons [n2 >= d2] and [n3 >= d3] are unsigned. *)

Definition __one_after_loss (h : tfrc_rx_hist) (skb : sk_buff) (n2 : Z)
           (now : Z) : tfrc_rx_hist :=
  let s0 := tfrchrx_seqno (tfrc_rx_hist_loss_prev h) in
  let s1 := tfrchrx_seqno (tfrc_rx_hist_entry h 1) in
  let s2 := to_u64 (dccpd_seq skb) in
  let n1 := to_int (tfrchrx_ndp (tfrc_rx_hist_entry h 1)) in
  let d12 := to_int (dccp_delta_seqno s1 s2) in
  if 0 <? d12 then
    let h1 := set_loss_count h 2 in
    write_entry h1 (tfrc_rx_hist_index h1 2)
                (tfrc_rx_hist_entry_from_skb skb n2 now)
  else
    let d2 := to_int (dccp_delta_seqno s0 s2) in
    if (d2 =? 1) || (to_u32 d2 <=? to_u32 n2) then
      let d21 := to_int (- d12) in
      if (d21 =? 1) || (d21 <=? n1) then
        let h1 := set_loss_count h 0 in
        set_loss_start h1 (tfrc_rx_hist_index h1 1)
      else
        write_entry h (tfrc_rx_hist_index h 0)
                    (tfrc_rx_hist_entry_from_skb skb n2 now)
    else
      let h1 := tfrc_rx_hist_swap h 0 3 in
      let h2 := set_loss_start h1 (tfrc_rx_hist_index h1 3) in
      let h3 := write_entry h2 (tfrc_rx_hist_index h2 1)
                            (tfrc_rx_hist_entry_from_skb skb n2 now) in
      set_loss_count h3 2.

Definition __two_after_loss (h : tfrc_rx_hist) (skb : sk_buff) (n3 : Z)
           (now : Z) : Z * tfrc_rx_hist :=
  let s0 := tfrchrx_seqno (tfrc_rx_hist_loss_prev h) in
  let s1 := tfrchrx_seqno (tfrc_rx_hist_entry h 1) in
  let s2 := tfrchrx_seqno (tfrc_rx_hist_entry h 2) in
  let s3 := to_u64 (dccpd_seq skb) in
  let n1 := to_int (tfrchrx_ndp (tfrc_rx_hist_entry h 1)) in
  let d23 := to_int (dccp_delta_seqno s2 s3) in
  if 0 <? d23 then
    let h1 := set_loss_count h 3 in
    (1, write_entry h1 (tfrc_rx_hist_index h1 3)
                    (tfrc_rx_hist_entry_from_skb skb n3 now))
  else
    let d13 := to_int (dccp_delta_seqno s1 s3) in
    if 0 <? d13 then
      let h1 := tfrc_rx_hist_swap h 2 3 in
      let h2 := write_entry h1 (tfrc_rx_hist_index h1 2)
                            (tfrc_rx_hist_entry_from_skb skb n3 now) in
      (1, set_loss_count h2 3)
    else
      let d31 := to_int (- d13) in
      let d3 := to_int (dccp_delta_seqno s0 s3) in
      if (d3 =? 1) || (to_u32 d3 <=? to_u32 n3) then
        if (d31 =? 1) || (d31 <=? n1) then
          let d2 := to_int (dccp_delta_seqno s1 s2) in
          let n2 := to_int (tfrchrx_ndp (tfrc_rx_hist_entry h 2)) in
          if (d2 =? 1) || (d2 <=? n2) then
            let h1 := set_loss_start h (tfrc_rx_hist_index h 2) in
            (0, set_loss_count h1 0)
          else
            let h1 := set_loss_start h (tfrc_rx_hist_index h 1) in
            (0, set_loss_count h1 1)
        else
          (0, write_entry h (tfrc_rx_hist_index h 0)
                          (tfrc_rx_hist_entry_from_skb skb n3 now))
      else
        let h1 := tfrc_rx_hist_swap h 0 3 in
        let h2 := set_loss_start h1 (tfrc_rx_hist_index h1 3) in
        let h3 := write_entry h2 (tfrc_rx_hist_index h2 1)
                              (tfrc_rx_hist_entry_from_skb skb n3 now) in
        (1, set_loss_count h3 3).

(** [tfrc_rx_hist_delta_seqno]: the [u64] distance returned as [s64]
    (the [DCCP_BUG_ON] check only reports). *)
Definition tfrc_rx_hist_delta_seqno (h : tfrc_rx_hist) (e1 e2 : Z) : Z :=
  to_s64 (dccp_delta_seqno (tfrchrx_seqno (tfrc_rx_hist_entry h e1))
                           (tfrchrx_seqno (tfrc_rx_hist_entry h e2))).

Definition __three_after_loss (h : tfrc_rx_hist) : tfrc_rx_hist :=
  let d2 := to_int (tfrc_rx_hist_delta_seqno h 1 2) in
  let d3 := to_int (tfrc_rx_hist_delta_seqno h 2 3) in
  let n2 := to_int (tfrchrx_ndp (tfrc_rx_hist_entry h 2)) in
  let n3 := to_int (tfrchrx_ndp (tfrc_rx_hist_entry h 3)) in
  if (d2 =? 1) || (d2 <=? n2) then
    if (d3 =? 1) || (d3 <=? n3) then
      let h1 := set_loss_start h (tfrc_rx_hist_index h 3) in
      set_loss_count h1 0
    else
      let h1 := set_loss_start h (tfrc_rx_hist_index h 2) in
      set_loss_count h1 1
  else
    let h1 := set_loss_start h (tfrc_rx_hist_index h 1) in
    set_loss_count h1 2.

(** What the routines report or hand to their collaborators, in program
    order.  [DCCP_BUG] and [DCCP_WARN] print and let the caller go on. *)
Inductive event : Type :=
| EvBugInvalidLossCount (lc : Z)
| EvBugRttSample (prev last : Z)
| EvWarnRttTooLarge (sample : Z)
| EvIntervalAdd (h : tfrc_rx_hist).

Definition is_interval_add (e : event) : bool :=
  match e with EvIntervalAdd _ => true | _ => false end.

Definition is_bug (e : event) : bool :=
  match e with
  | EvBugInvalidLossCount _ | EvBugRttSample _ _ => true
  | _ => false
  end.

(** [tfrc_rx_hist_alloc] on success: four fresh entries whose content
    [mem] is whatever the allocator returned, and both indices zero. *)
Definition tfrc_rx_hist_alloc (mem : ring_t) : tfrc_rx_hist :=
  mk_hist mem 0 0.

Definition tfrc_rx_hist_rtt_last_s (h : tfrc_rx_hist) : rx_entry :=
  ring_get (ring h) 0.

Definition tfrc_rx_hist_rtt_prev_s (h : tfrc_rx_hist) : rx_entry :=
  ring_get (ring h) (rtt_sample_prev h).

(** Unsigned division as the machine performs it: no result for a zero
    divisor. *)
Definition c_div (a b : Z) : option Z :=
  if b =? 0 then None else Some (a / b).

Section Collaborators.

(** Kernel facilities the file calls but does not define: the
    nanosecond-to-microsecond conversion [ktime_to_us], the bound
    [DCCP_SANE_RTT_MAX], and the loss-interval database with its
    update [tfrc_lh_interval_add], which reads the history it is
    handed and returns whether a new loss event was recorded. *)
Variable ktime_to_us : Z -> Z.
Variable DCCP_SANE_RTT_MAX : Z.
Variable tfrc_loss_hist : Type.
Variable sock : Type.
Variable tfrc_lh_interval_add :
  tfrc_loss_hist -> tfrc_rx_hist -> (sock -> Z) -> sock -> Z * tfrc_loss_hist.

(** [tfrc_rx_handle_loss]: the result [is_new_loss], the history, the
    loss-interval database and the reports made on the way. *)
Definition tfrc_rx_handle_loss (h : tfrc_rx_hist) (lh : tfrc_loss_hist)
           (skb : sk_buff) (ndp : Z) (calc_first_li : sock -> Z) (sk : sock)
           (now : Z) : Z * tfrc_rx_hist * tfrc_loss_hist * list event :=
  if loss_count h =? 1 then
    (0, __one_after_loss h skb ndp now, lh, [])
  else if negb (loss_count h =? 2) then
    (0, h, lh, [EvBugInvalidLossCount (loss_count h)])
  else
    let '(r, h1) := __two_after_loss h skb ndp now in
    if negb (r =? 0) then
      let '(is_new_loss, lh1) := tfrc_lh_interval_add lh h1 calc_first_li sk in
      (to_int is_new_loss, __three_after_loss h1, lh1, [EvIntervalAdd h1])
    else
      (0, h1, lh, []).

(** First part of [tfrc_rx_hist_sample_rtt], up to the sanity check:
    the sample so far, the history, the reports, and whether control
    jumps to [keep_ref_for_next_time]. *)
Definition sample_rtt_select (h : tfrc_rx_hist) (skb : sk_buff) (now : Z)
  : option (Z * tfrc_rx_hist * list event * bool) :=
  let last := tfrc_rx_hist_rtt_last_s h in
  let delta_v := to_u32 (SUB16 (dccph_ccval skb) (tfrchrx_ccval last)) in
  if (delta_v <? 1) || (4 <? delta_v) then
    if rtt_sample_prev h =? 2 then
      let prev := tfrc_rx_hist_rtt_prev_s h in
      let sample := to_u32 (SUB16 (tfrchrx_ccval prev) (tfrchrx_ccval last)) in
      if negb (sample =? 0) then
        q ← c_div 4 sample;
        Some (to_u32 (q * ktime_us_delta ktime_to_us (tfrchrx_tstamp prev)
                                           (tfrchrx_tstamp last)),
              h, [], false)
      else
        Some (sample, h,
              [EvBugRttSample (tfrchrx_ccval prev) (tfrchrx_ccval last)],
              false)
    else if delta_v <? 1 then
      Some (0, set_rtt_sample_prev h 1, [], true)
    else
      Some (0, h, [], false)
  else if delta_v =? 4 then
    Some (to_u32 (ktime_to_us (net_timedelta now (tfrchrx_tstamp last))),
          h, [], false)
  else
    Some (0, set_rtt_sample_prev h 2, [], true).

(** [tfrc_rx_hist_sample_rtt]; [None] stands for a division fault. *)
Definition tfrc_rx_hist_sample_rtt (h : tfrc_rx_hist) (skb : sk_buff)
           (now : Z) : option (Z * tfrc_rx_hist * list event) :=
  '(sample, h1, log, keep_ref) ← sample_rtt_select h skb now;
  if keep_ref : bool then
    Some (sample, h1, log)
  else
    let '(sample1, log1) :=
      if DCCP_SANE_RTT_MAX <? sample
      then (to_u32 DCCP_SANE_RTT_MAX, log ++ [EvWarnRttTooLarge sample])
      else (sample, log) in
    Some (sample1, set_rtt_sample_prev h1 0, log1).

(** Whether [tfrc_rx_hist_sample_rtt] leaves through
    [keep_ref_for_next_time]. *)
Definition defers (h : tfrc_rx_hist) (skb : sk_buff) (now : Z) : bool :=
  match sample_rtt_select h skb now with
  | Some (_, _, _, keep_ref) => keep_ref
  | None => false
  end.

(** The operations a connection performs on its receiver history. *)
Inductive rx_op : Type :=
| OpAddPacket (skb : sk_buff) (ndp now : Z)
| OpDuplicate (skb : sk_buff)
| OpNewLossIndicated (skb : sk_buff) (ndp : Z)
| OpHandleLoss (skb : sk_buff) (ndp : Z) (calc_first_li : sock -> Z)
               (sk : sock) (now : Z)
| OpSampleRtt (skb : sk_buff) (now : Z).

Definition rx_step (st : tfrc_rx_hist * tfrc_loss_hist) (op : rx_op)
  : option (tfrc_rx_hist * tfrc_loss_hist) :=
  let '(h, lh) := st in
  match op with
  | OpAddPacket skb ndp now =>
      Some (tfrc_rx_hist_add_packet h skb ndp now, lh)
  | OpDuplicate skb =>
      let _ := tfrc_rx_hist_duplicate h skb in Some (h, lh)
  | OpNewLossIndicated skb ndp =>
      Some ((tfrc_rx_hist_new_loss_indicated h skb ndp).2, lh)
  | OpHandleLoss skb ndp calc_first_li sk now =>
      let '(_, h1, lh1, _) :=
        tfrc_rx_handle_loss h lh skb ndp calc_first_li sk now in
      Some (h1, lh1)
  | OpSampleRtt skb now =>
      '(_, h1, _) ← tfrc_rx_hist_sample_rtt h skb now;
      Some (h1, lh)
  end.

Fixpoint rx_run (ops : list rx_op) (st : tfrc_rx_hist * tfrc_loss_hist)
  : option (tfrc_rx_hist * tfrc_loss_hist) :=
  match ops with
  | [] => Some st
  | op :: ops' => st1 ← rx_step st op; rx_run ops' st1
  end.

End Collaborators.

Arguments OpAddPacket {sock} skb ndp now.
Arguments OpDuplicate {sock} skb.
Arguments OpNewLossIndicated {sock} skb ndp.
Arguments OpHandleLoss {sock} skb ndp calc_first_li sk now.
Arguments OpSampleRtt {sock} skb now.

(** *** Properties of a history state *)

(** The 2-bit fields hold 0..3. *)
Definition wf (h : tfrc_rx_hist) : Prop :=
  0 <= loss_count h <= 3 /\ 0 <= loss_start h <= 3.

(** The anchor [entry(0)] is not circularly after [entry(i)]. *)
Definition anchor_not_after_entry (h : tfrc_rx_hist) (i : Z) : bool :=
  negb (after48 (tfrchrx_seqno (tfrc_rx_hist_loss_prev h))
                (tfrchrx_seqno (tfrc_rx_hist_entry h i))).

(** ... for every tracked entry [entry(1)] .. [entry(loss_count)]. *)
Definition anchor_not_after (h : tfrc_rx_hist) : bool :=
  forallb (anchor_not_after_entry h)
          (map Z.of_nat (seq 1 (Z.to_nat (loss_count h)))).

(** Distance of a sequence number from the anchor. *)
Definition off (h : tfrc_rx_hist) (x : Z) : Z :=
  dccp_delta_seqno (tfrchrx_seqno (tfrc_rx_hist_loss_prev h)) x.

Definition entry_off (h : tfrc_rx_hist) (i : Z) : Z :=
  off h (tfrchrx_seqno (tfrc_rx_hist_entry h i)).

(** The tracked entries lie strictly after the anchor, in increasing
    order, less than 2^31 away. *)
Definition ordered (h : tfrc_rx_hist) : Prop :=
  (1 <= loss_count h -> 0 < entry_off h 1 < 2 ^ 31) /\
  (2 <= loss_count h -> entry_off h 1 < entry_off h 2 < 2 ^ 31) /\
  (3 <= loss_count h -> entry_off h 2 < entry_off h 3 < 2 ^ 31).

(** What the [__*_after_loss] helpers expect of the packet (the comment
    above them): it is after the anchor, here by less than 2^31, and its
    sequence number is not that of a tracked entry. *)
Definition fresh_packet (h : tfrc_rx_hist) (skb : sk_buff) : Prop :=
  0 < off h (dccpd_seq skb) < 2 ^ 31 /\
  (1 <= loss_count h -> entry_off h 1 <> off h (dccpd_seq skb)) /\
  (2 <= loss_count h -> entry_off h 2 <> off h (dccpd_seq skb)) /\
  (3 <= loss_count h -> entry_off h 3 <> off h (dccpd_seq skb)).

(** The [int] the new-loss test works with: the difference of the two
    sequence numbers, narrowed. *)
Definition int_distance (h : tfrc_rx_hist) (skb : sk_buff) : Z :=
  to_int (dccpd_seq skb - tfrchrx_seqno (tfrc_rx_hist_last_rcv h)).

(** Number of loss-interval database updates among the reports. *)
Definition sink_calls (log : list event) : nat :=
  length (List.filter is_interval_add log).

End RxHist.

(** ** Concrete states and collaborators used in examples *)

Module Examples.

Import RxHist TxHist.

(** Microseconds of a nanosecond count. *)
Definition ktime_to_us (kt : Z) : Z := kt ÷ 1000.

(** Three seconds, in microseconds. *)
Definition DCCP_SANE_RTT_MAX : Z := 3000000.

(** A loss-interval database that only counts its updates and reports
    each one as a new loss event. *)
Definition lh_count_add (lh : nat) (h : tfrc_rx_hist) (calc : unit -> Z)
           (sk : unit) : Z * nat := (1, S lh).

Definition calc0 (sk : unit) : Z := 0.

Definition entry0 : rx_entry := mk_entry 0 0 0 0 0.

Definition entry_seq (s : Z) : rx_entry := mk_entry s 0 0 0 0.

Definition mem0 : ring_t := mk_ring entry0 entry0 entry0 entry0.

Definition skb_seq (s : Z) : sk_buff := mk_skb s 0 0.

Definition skb_ccval (s v : Z) : sk_buff := mk_skb s v 0.

(** Anchor 100, nothing pending. *)
Definition h_anchor100 : tfrc_rx_hist :=
  mk_hist (mk_ring (entry_seq 100) entry0 entry0 entry0) 0 0.

(** Anchor 100, one pending entry 103. *)
Definition h_100_103 : tfrc_rx_hist :=
  mk_hist (mk_ring (entry_seq 100) (entry_seq 103) entry0 entry0) 1 0.

Definition h_three_pending : tfrc_rx_hist :=
  mk_hist (mk_ring (entry_seq 100) (entry_seq 103) (entry_seq 105)
                   (entry_seq 107)) 3 0.

(** Reference entry received at time 0 with window counter 0. *)
Definition h_ref0 : tfrc_rx_hist := mk_hist mem0 0 0.

(** A candidate is stored ([rtt_sample_prev = 2]) whose window counter
    equals that of the reference entry. *)
Definition h_candidate_same_ccval : tfrc_rx_hist := mk_hist mem0 0 2.

(** A run in which every call is made on a history with nothing pending,
    and which ends with a stale slot exposed as [entry(1)]. *)
Definition ops_stale_slot : list (rx_op unit) :=
  [ OpAddPacket (skb_ccval 100 0) 0 1000;
    OpSampleRtt (skb_ccval 100 0) 2000;
    OpAddPacket (skb_ccval 50 0) 0 3000;
    OpSampleRtt (skb_ccval 50 5) 4000;
    OpNewLossIndicated (skb_seq 103) 0 ].

(** A transmit chain 3 -> 2 -> 1 (newest first), sent at 1, 2 and 3 ms. *)
Definition tx_heap3 : gmap loc tfrc_tx_hist_entry :=
  <[3%positive := mk_tx (Some 2%positive) 30 3000000]>
    (<[2%positive := mk_tx (Some 1%positive) 20 2000000]>
       (<[1%positive := mk_tx None 10 1000000]> ∅)).

Definition tx_mem3 : mem := mk_mem (Some 3%positive) tx_heap3.

Definition tx_chain3 : list (loc * (Z * Z)) :=
  [ (3%positive, (30, 3000000));
    (2%positive, (20, 2000000));
    (1%positive, (10, 1000000)) ].

End Examples.

(** ** Readings of the specification that the code does not meet

    Each definition states a rule in the specification's own terms, to be
    compared with what the functions above compute. *)

Module AsStated.

Import RxHist TxHist.

(** "computes d = delta(last, record) mod 2^48; if d > 1 and ndp < d sets
    loss_count to 1 and returns true; otherwise returns false and leaves
    the state unchanged". *)
Definition new_loss_rule (h : tfrc_rx_hist) (skb : sk_buff) (ndp : Z) : Prop :=
  let d := dccp_delta_seqno (tfrchrx_seqno (tfrc_rx_hist_last_rcv h))
                            (dccpd_seq skb) in
  (1 < d ∧ ndp < d →
   tfrc_rx_hist_new_loss_indicated h skb ndp
   = (1, mk_hist (ring h) 1 (loss_start h))) ∧
  (¬ (1 < d ∧ ndp < d) →
   tfrc_rx_hist_new_loss_indicated h skb ndp = (0, h)).

(** "after any sequence of operations, loss_count is in 0..3 and the
    anchor is never after a tracked entry". *)
Definition rx_invariant (ktime_to_us : Z → Z) (DCCP_SANE_RTT_MAX : Z)
           (tfrc_loss_hist sock : Type)
           (tfrc_lh_interval_add :
              tfrc_loss_hist → tfrc_rx_hist → (sock → Z) → sock
              → Z * tfrc_loss_hist)
           (mem : ring_t) (lh : tfrc_loss_hist) (ops : list (rx_op sock))
  : Prop :=
  ∀ h lh',
    rx_run ktime_to_us DCCP_SANE_RTT_MAX tfrc_loss_hist sock
           tfrc_lh_interval_add ops (tfrc_rx_hist_alloc mem, lh)
    = Some (h, lh') →
    0 <= loss_count h <= 3 ∧ anchor_not_after h = true.

(** "on a delta of 4 the sample is the elapsed time since the reference
    entry, replaced by the maximum when above it". *)
Definition exact_window_sample (ktime_to_us : Z → Z) (DCCP_SANE_RTT_MAX : Z)
           (h : tfrc_rx_hist) (skb : sk_buff) (now : Z) : Prop :=
  let last := tfrc_rx_hist_rtt_last_s h in
  let elapsed := ktime_to_us (net_timedelta now (tfrchrx_tstamp last)) in
  SUB16 (dccph_ccval skb) (tfrchrx_ccval last) = 4 →
  ∃ h' log,
    tfrc_rx_hist_sample_rtt ktime_to_us DCCP_SANE_RTT_MAX h skb now
    = Some (if DCCP_SANE_RTT_MAX <? elapsed then DCCP_SANE_RTT_MAX
            else elapsed, h', log).

(** "removes from the chain the matched entry and every entry strictly
    older than it; newer entries are left unchanged": the chain that is
    left is [c1], the entries before the match. *)
Definition rtt_removes_match (ktime_to_us : Z → Z) (fuel : nat) (m : mem)
           (head : option loc) (seq now : Z)
           (c1 : list (loc * (Z * Z))) (l : loc) : Prop :=
  ∃ r m',
    tfrc_tx_hist_rtt ktime_to_us fuel m head seq now = Some (r, m') ∧
    is_chain (tx_heap m') head c1 ∧
    tx_heap m' !! l = None.

End AsStated.

(** ** net/dccp/dccp.h : comparing and stepping sequence numbers *)

Module DccpSeq.

(** [#define DCCP_MAX_SEQNO ((((u64)1) << 48) - 1)] *)
Definition DCCP_MAX_SEQNO : Z := to_u64 (to_u64 (Z.shiftl 1 48) - 1).


(** [between48]: "is seq2 <= seq1 <= seq3 ?", an unsigned comparison of
    two [u64] differences. *)
Definition between48 (seq1 seq2 seq3 : Z) : bool :=
  to_u64 (to_u64 (Z.shiftl seq1 16) - to_u64 (Z.shiftl seq2 16))
  <=? to_u64 (to_u64 (Z.shiftl seq3 16) - to_u64 (Z.shiftl seq2 16)).

(** [return after48(seq1, seq2) ? seq1 : seq2;] *)
Definition max48 (seq1 seq2 : Z) : Z :=
  if after48 seq1 seq2 then seq1 else seq2.

(** [dccp_set_seqno]: the value stored through [seqno]. *)
Definition dccp_set_seqno (value : Z) : Z :=
  if DCCP_MAX_SEQNO <? value
  then to_u64 (value - to_u64 (DCCP_MAX_SEQNO + 1))
  else value.

(** [dccp_inc_seqno]: the value left in [*seqno]. *)
Definition dccp_inc_seqno (seqno : Z) : Z :=
  let s := to_u64 (seqno + 1) in
  if DCCP_MAX_SEQNO <? s then 0 else s.

End DccpSeq.

(** ** net/dccp/dccp.h and net/dccp/input.c : the sequence-number windows *)

Module SeqWindow.

Import DccpSeq.

(** The packet types [dccp_check_seqno] tells apart; [DCCP_PKT_INVALID]
    stands for every other value of the 4-bit type field. *)
Inductive dccp_pkt_type : Type :=
| DCCP_PKT_REQUEST
| DCCP_PKT_RESPONSE
| DCCP_PKT_DATA
| DCCP_PKT_ACK
| DCCP_PKT_DATAACK
| DCCP_PKT_CLOSEREQ
| DCCP_PKT_CLOSE
| DCCP_PKT_RESET
| DCCP_PKT_SYNC
| DCCP_PKT_SYNCACK
| DCCP_PKT_INVALID.














(** What [dccp_check_seqno] reads of the packet: [dccp_hdr(skb)->dccph_type]
    and the sequence and acknowledgement numbers of [DCCP_SKB_CB(skb)]. *)
Record sk_buff : Type := mk_skb {
  dccph_type    : dccp_pkt_type;
  dccpd_seq     : Z;
  dccpd_ack_seq : Z
}.









End SeqWindow.

(** ** Further concrete receiver histories *)

Module RxExamples.

Import RxHist Examples.

(** Anchor 100, two pending entries 103 and 106. *)
Definition h_100_103_106 : tfrc_rx_hist :=
  mk_hist (mk_ring (entry_seq 100) (entry_seq 103) (entry_seq 106) entry0) 2 0.

(** Anchor 100 in slot 2, three pending entries 102, 103 and 105, the
    first hole (101) still open. *)
Definition h_three_from_slot2 : tfrc_rx_hist :=
  mk_hist (mk_ring (entry_seq 103) (entry_seq 105) (entry_seq 100)
                   (entry_seq 102)) 3 2.

End RxExamples.

(** ** Receiver history: allocating and freeing the ring *)

Module RxAlloc.

(** Addresses of the objects of [tfrc_rx_hist_slab]; [None] is [NULL]. *)
Definition loc : Type := positive.

Definition ENOBUFS : Z := 105.

(** [struct tfrc_rx_hist] as the allocator sees it: the four pointers of
    [ring], the two index fields, and beside it the set of live slab
    objects. *)
Record rx_mem : Type := mk_rx_mem {
  ring_ptr   : list (option loc);
  loss_count : Z;
  loss_start : Z;
  slab       : gset loc
}.

Definition set_ring (m : rx_mem) (i : nat) (p : option loc) : rx_mem :=
  mk_rx_mem (<[i := p]> (ring_ptr m)) (loss_count m) (loss_start m) (slab m).

Definition set_slab (m : rx_mem) (s : gset loc) : rx_mem :=
  mk_rx_mem (ring_ptr m) (loss_count m) (loss_start m) s.

(** [kmem_cache_alloc]: [ok] tells whether the call succeeds; a
    successful call returns an object that was not live. *)
Definition kmem_cache_alloc (ok : bool) (s : gset loc)
  : option loc * gset loc :=
  if ok then (Some (fresh s), {[fresh s]} ∪ s) else (None, s).

(** [kmem_cache_free]: no result for an object that is not live. *)
Definition kmem_cache_free (s : gset loc) (l : loc) : option (gset loc) :=
  if bool_decide (l ∈ s) then Some (s ∖ {[l]}) else None.

(** The loop [for (i = 0; i <= TFRC_NDUPACK; i++)] of
    [tfrc_rx_hist_alloc], from index [i] with [n] iterations left;
    [ok j] is the outcome of the allocation for slot [j].  The result
    is the index at which the loop was left by [goto out_free], if it
    was. *)
Fixpoint alloc_loop (n : nat) (i : nat) (ok : nat -> bool) (m : rx_mem)
  : option nat * rx_mem :=
  match n with
  | O => (None, m)
  | S n' =>
      let '(p, s) := kmem_cache_alloc (ok i) (slab m) in
      let m1 := set_slab (set_ring m i p) s in
      match p with
      | None => (Some i, m1)
      | Some _ => alloc_loop n' (S i) ok m1
      end
  end.

(** The loop [while (i-- != 0)] after [out_free]. *)
Fixpoint free_below (i : nat) (m : rx_mem) : option rx_mem :=
  match i with
  | O => Some m
  | S j =>
      p ← ring_ptr m !! j;
      l ← p;
      s ← kmem_cache_free (slab m) l;
      free_below j (set_ring (set_slab m s) j None)
  end.

(** [tfrc_rx_hist_alloc]: the result and the memory; no result when a
    free faults. *)
Definition tfrc_rx_hist_alloc (ok : nat -> bool) (m : rx_mem)
  : option (Z * rx_mem) :=
  match alloc_loop 4 0 ok m with
  | (None, m1) =>
      Some (0, mk_rx_mem (ring_ptr m1) 0 0 (slab m1))
  | (Some i, m1) =>
      m2 ← free_below i m1;
      Some (- ENOBUFS, m2)
  end.

(** The loop of [tfrc_rx_hist_purge], from index [i] with [n] iterations
    left. *)
Fixpoint purge_loop (n : nat) (i : nat) (m : rx_mem) : option rx_mem :=
  match n with
  | O => Some m
  | S n' =>
      p ← ring_ptr m !! i;
      m1 ← match p with
           | Some l =>
               s ← kmem_cache_free (slab m) l;
               Some (set_ring (set_slab m s) i None)
           | None => Some m
           end;
      purge_loop n' (S i) m1
  end.

Definition tfrc_rx_hist_purge (m : rx_mem) : option rx_mem :=
  purge_loop 4 0 m.

(** The objects the ring points to. *)
Definition ring_objects (m : rx_mem) : list loc :=
  omap id (ring_ptr m).

(** A ring of [NULL] pointers with indices 2 and 1, and two other objects
    live. *)
Definition rx_mem_example : rx_mem :=
  mk_rx_mem [None; None; None; None] 2 1 {[ 1%positive; 2%positive ]}.

Definition ok_all (i : nat) : bool := true.

(** The third allocation fails. *)
Definition ok_two (i : nat) : bool := (i <? 2)%nat.

End RxAlloc.

(** ** net/dccp/options.c : variable-length option values *)

Module Options.

Definition to_u8 (x : Z) : Z := to_unsigned 8 x.

(** [*bf++]: the [unsigned char] at the pointer and the pointer behind
    it; no result past the end of the buffer. *)
Definition read_byte (bf : list Z) : option (Z * list Z) :=
  match bf with
  | b :: bf' => Some (to_u8 b, bf')
  | [] => None
  end.

(** [dccp_decode_value_var(const unsigned char *bf, const u8 len)]:
    [bf] holds the bytes from the pointer on; the length arrives
    converted to [u8].  A byte is promoted to [int] before it is
    shifted, and the sum is kept in a [u32]. *)
Definition dccp_decode_value_var (bf : list Z) (len : Z) : option Z :=
  let len := to_u8 len in
  let value := 0 in
  '(value, bf) ←
    (if 3 <? len then
       '(b, bf') ← read_byte bf;
       Some (to_u32 (value + to_int (Z.shiftl b 24)), bf')
     else Some (value, bf));
  '(value, bf) ←
    (if 2 <? len then
       '(b, bf') ← read_byte bf;
       Some (to_u32 (value + to_int (Z.shiftl b 16)), bf')
     else Some (value, bf));
  '(value, bf) ←
    (if 1 <? len then
       '(b, bf') ← read_byte bf;
       Some (to_u32 (value + to_int (Z.shiftl b 8)), bf')
     else Some (value, bf));
  if 0 <? len then
    '(b, _) ← read_byte bf;
    Some (to_u32 (value + b))
  else Some value.

(** [dccp_encode_value_var(const u32 value, unsigned char *to,
    const unsigned int len)]: the bytes stored from [to] on, in order;
    the value arrives converted to [u32], the length to
    [unsigned int]. *)
Definition dccp_encode_value_var (value : Z) (len : Z) : list Z :=
  let value := to_u32 value in
  let len := to_u32 len in
  (if 3 <? len then [to_u8 (Z.shiftr (Z.land value 0xFF000000) 24)] else [])
  ++ (if 2 <? len then [to_u8 (Z.shiftr (Z.land value 0xFF0000) 16)] else [])
  ++ (if 1 <? len then [to_u8 (Z.shiftr (Z.land value 0xFF00) 8)] else [])
  ++ (if 0 <? len then [to_u8 (Z.land value 0xFF)] else []).

(** [dccp_ndp_len]; [ndp] is an [int]. *)
Definition dccp_ndp_len (ndp : Z) : Z :=
  if ndp <=? 0xFF then 1 else if ndp <=? 0xFFFF then 2 else 3.

(** [dccp_elapsed_time_len]; [elapsed_time] is a [u32]. *)
Definition dccp_elapsed_time_len (elapsed_time : Z) : Z :=
  if elapsed_time =? 0 then 0
  else if elapsed_time <=? 0xFFFF then 2 else 4.

End Options.

(** ** The loss-interval database behind the loss handler *)

Module LossSink.

Import RxHist.

Section Sink.

Variable sock : Type.

(** Modelled from the spec: the loss-interval database is an external
    component whose sources are not at hand.  Here it holds the interval
    lengths recorded, newest first, and the calls made to the callback
    [first_interval_fn] so far, in program order: the connection context
    each call was made on and the history the update had been handed. *)
Record tfrc_loss_hist : Type := mk_lh {
  li_lengths           : list Z;
  first_interval_calls : list (sock * tfrc_rx_hist)
}.

(** One call of the callback, [calc_first_li(sk)]: its result, and
    the database with the call recorded. *)
Definition call_first_interval_fn (lh : tfrc_loss_hist) (h : tfrc_rx_hist)
           (calc_first_li : sock -> Z) (sk : sock) : Z * tfrc_loss_hist :=
  (calc_first_li sk,
   mk_lh (li_lengths lh) (first_interval_calls lh ++ [(sk, h)])).

(** Modelled from the spec: [tfrc_lh_interval_add], the update of the
    loss-interval database, is not part of the sources at hand.  The spec
    gives the loss sink as a callback of shape
    [first_interval_fn(connection_context) ->
    synthetic_first_interval_length], and has the handler, on a confirmed
    loss, invoke the loss sink via [first_interval_fn] to record the
    interval: the update calls the callback once on the connection
    context, records the length it returns as a new interval, and reports
    a new loss. *)
Definition tfrc_lh_interval_add (lh : tfrc_loss_hist) (h : tfrc_rx_hist)
           (calc_first_li : sock -> Z) (sk : sock) : Z * tfrc_loss_hist :=
  let '(len, lh1) := call_first_interval_fn lh h calc_first_li sk in
  (1, mk_lh (len :: li_lengths lh1) (first_interval_calls lh1)).

End Sink.

Arguments mk_lh {sock} li_lengths first_interval_calls.
Arguments li_lengths {sock} t.
Arguments first_interval_calls {sock} t.
Arguments call_first_interval_fn {sock} lh h calc_first_li sk.
Arguments tfrc_lh_interval_add {sock} lh h calc_first_li sk.

End LossSink.

(** * Properties *)

(** ** Integer conversions and sequence distances *)

Module ArithFacts.

Lemma to_int_small d : - 2 ^ 31 <= d < 2 ^ 31 -> to_int d = d.
Proof.
  intros Hd. unfold to_int.
  rewrite Z.mod_small by lia. lia.
Qed.

Lemma to_int_range d : - 2 ^ 31 <= to_int d < 2 ^ 31.
Proof.
  unfold to_int.
  pose proof (Z.mod_pos_bound (d + 2 ^ 31) (2 ^ 32) ltac:(lia)). lia.
Qed.

(** [to_int] only looks at the low 32 bits. *)
Lemma to_int_mod48 d : to_int (d mod 2 ^ 48) = to_int d.
Proof.
  unfold to_int. f_equal.
  rewrite (Z.add_mod (d mod 2 ^ 48)), (Z.add_mod d) by lia.
  f_equal. f_equal.
  apply Z.mod_mod_divide. exists (2 ^ 16). reflexivity.
Qed.

Lemma to_u32_small n : 0 <= n < 2 ^ 32 -> to_u32 n = n.
Proof. intros Hn. unfold to_u32, to_unsigned. apply Z.mod_small. lia. Qed.

Lemma to_u32_to_int d : to_u32 (to_int d) = to_u32 d.
Proof.
  unfold to_u32, to_unsigned, to_int.
  rewrite <- Zminus_mod_idemp_l, Z.mod_mod by lia.
  rewrite Zminus_mod_idemp_l. f_equal. lia.
Qed.

(** The code's shifts compute the difference modulo 2^48. *)
Lemma dccp_delta_seqno_eq s1 s2 :
  dccp_delta_seqno s1 s2 = (s2 - s1) mod 2 ^ 48.
Proof.
  unfold dccp_delta_seqno, to_u64, to_unsigned.
  rewrite Z.shiftr_div_pow2, !Z.shiftl_mul_pow2 by lia.
  rewrite <- Zminus_mod, <- Z.mul_sub_distr_r.
  change (2 ^ 64) with (2 ^ 48 * 2 ^ 16).
  rewrite Z.mul_mod_distr_r by lia.
  apply Z.div_mul. lia.
Qed.

Lemma dccp_delta_seqno_range s1 s2 : 0 <= dccp_delta_seqno s1 s2 < 2 ^ 48.
Proof. rewrite dccp_delta_seqno_eq. apply Z.mod_pos_bound. lia. Qed.

Lemma dccp_delta_seqno_u64_r s1 s2 :
  dccp_delta_seqno s1 (to_u64 s2) = dccp_delta_seqno s1 s2.
Proof.
  rewrite !dccp_delta_seqno_eq. unfold to_u64, to_unsigned.
  rewrite <- Zminus_mod_idemp_l.
  rewrite Z.mod_mod_divide by (exists (2 ^ 16); reflexivity).
  apply Zminus_mod_idemp_l.
Qed.

Lemma dccp_delta_seqno_diag s : dccp_delta_seqno s s = 0.
Proof. rewrite dccp_delta_seqno_eq, Z.sub_diag. reflexivity. Qed.

Lemma dccp_delta_seqno_48_r s1 s2 :
  dccp_delta_seqno s1 (to_u48 s2) = dccp_delta_seqno s1 s2.
Proof.
  rewrite !dccp_delta_seqno_eq. unfold to_u48, to_unsigned.
  apply Zminus_mod_idemp_l.
Qed.

Lemma dccp_delta_seqno_48_l s1 s2 :
  dccp_delta_seqno (to_u48 s1) s2 = dccp_delta_seqno s1 s2.
Proof.
  rewrite !dccp_delta_seqno_eq. unfold to_u48, to_unsigned.
  apply Zminus_mod_idemp_r.
Qed.

Lemma to_unsigned_2_range x : 0 <= to_unsigned 2 x <= 3.
Proof.
  unfold to_unsigned.
  pose proof (Z.mod_pos_bound x (2 ^ 2) ltac:(lia)). lia.
Qed.

Lemma to_unsigned_2_small k : 0 <= k <= 3 -> to_unsigned 2 k = k.
Proof. intros. unfold to_unsigned. apply Z.mod_small. lia. Qed.

Lemma to_unsigned_2_mod4 x : to_unsigned 2 (x mod 4) = x mod 4.
Proof. unfold to_unsigned. apply Z.mod_mod. discriminate. Qed.

(** The [int] a distance is narrowed to is the plain difference of the
    two numbers, narrowed. *)
Lemma to_int_delta s1 s2 : to_int (dccp_delta_seqno s1 s2) = to_int (s2 - s1).
Proof. rewrite dccp_delta_seqno_eq. apply to_int_mod48. Qed.

(** Distances between two numbers, from their distances to a common
    base. *)
Lemma dccp_delta_seqno_base s0 x y :
  dccp_delta_seqno x y =
  (dccp_delta_seqno s0 y - dccp_delta_seqno s0 x) mod 2 ^ 48.
Proof.
  rewrite !dccp_delta_seqno_eq, <- Zminus_mod. f_equal. lia.
Qed.

Lemma to_int_delta_base s0 x y :
  - 2 ^ 31 <= dccp_delta_seqno s0 y - dccp_delta_seqno s0 x < 2 ^ 31 ->
  to_int (dccp_delta_seqno x y) =
  dccp_delta_seqno s0 y - dccp_delta_seqno s0 x.
Proof.
  intros Hr. rewrite (dccp_delta_seqno_base s0), to_int_mod48.
  apply to_int_small, Hr.
Qed.

(** [after48 a b] says that [b] is at least half the circle away from
    [a]. *)
Lemma after48_delta a b :
  after48 a b = (2 ^ 47 <=? dccp_delta_seqno a b).
Proof.
  rewrite dccp_delta_seqno_eq.
  unfold after48, to_s64, to_u64, to_unsigned.
  rewrite !Z.shiftl_mul_pow2 by lia.
  rewrite <- Zminus_mod, <- Z.mul_sub_distr_r.
  change (2 ^ 64) with (2 ^ 48 * 2 ^ 16).
  rewrite Z.mul_mod_distr_r by lia.
  pose proof (Z.mod_pos_bound (b - a) (2 ^ 48) ltac:(lia)) as Hb.
  set (d := (b - a) mod 2 ^ 48) in *.
  destruct (Z.leb_spec (2 ^ 47) d) as [Hd|Hd].
  - apply Z.ltb_lt.
    replace (d * 2 ^ 16 + 2 ^ 63) with (d * 2 ^ 16 - 2 ^ 63 + 1 * (2 ^ 48 * 2 ^ 16)) by lia.
    rewrite Z.mod_add by lia.
    rewrite Z.mod_small by lia. lia.
  - apply Z.ltb_ge.
    rewrite Z.mod_small by lia. lia.
Qed.

End ArithFacts.

(** ** Transmitter history: RTT lookup and garbage collection *)

Module TxFacts.

Import TxHist Examples.

Lemma is_seg_frame (σ σ' : gmap loc tfrc_tx_hist_entry) p c q :
  is_seg σ p c q →
  (∀ k, k ∈ c.*1 → σ' !! k = σ !! k) →
  is_seg σ' p c q.
Proof.
  revert p. induction c as [|[l [s t]] c IH]; intros p; simpl; [done|].
  intros [-> (n & Hl & Hn)] Hfr. split; [done|].
  exists n. split.
  - rewrite Hfr; [done|]. set_solver.
  - apply IH; [done|]. intros k Hk. apply Hfr. set_solver.
Qed.

Lemma is_seg_app (σ : gmap loc tfrc_tx_hist_entry) p c1 c2 q :
  is_seg σ p (c1 ++ c2) q ↔ ∃ r, is_seg σ p c1 r ∧ is_seg σ r c2 q.
Proof.
  revert p. induction c1 as [|[l [s t]] c1 IH]; intros p; simpl.
  - split; [intros H; by exists p | by intros (r & -> & H)].
  - split.
    + intros [-> (n & Hl & Hn)]. apply IH in Hn as (r & H1 & H2).
      exists r. naive_solver.
    + intros (r & [-> (n & Hl & Hn)] & H2). split; [done|].
      exists n. split; [done|]. apply IH. by exists r.
Qed.

(** A pointer leads to at most one chain, and a chain visits no object
    twice. *)
Lemma is_chain_functional (σ : gmap loc tfrc_tx_hist_entry) p c1 c2 :
  is_chain σ p c1 → is_chain σ p c2 → c1 = c2.
Proof.
  unfold is_chain. revert p c2.
  induction c1 as [|[l1 [s1 t1]] c1 IH]; intros p [|[l2 [s2 t2]] c2]; simpl.
  - done.
  - intros -> [? _]. done.
  - intros [-> _] ?. done.
  - intros [-> (n1 & Hl1 & Hn1)] [[= <-] (n2 & Hl2 & Hn2)].
    rewrite Hl1 in Hl2. injection Hl2 as <- <- <-.
    f_equal. by apply (IH n1).
Qed.

Lemma is_chain_NoDup (σ : gmap loc tfrc_tx_hist_entry) p c :
  is_chain σ p c → NoDup (c.*1).
Proof.
  revert p. induction c as [|[l [s t]] c IH]; intros p Hc; simpl.
  - apply NoDup_nil_2.
  - pose proof Hc as Hc'. destruct Hc' as [-> (n & Hl & Hn)].
    apply NoDup_cons_2; [|by apply (IH n)].
    intros Hin. apply list_elem_of_fmap in Hin as ([l' x] & Heq & Hin).
    simpl in Heq. subst l'.
    apply list_elem_of_split in Hin as (a & b & ->).
    apply is_seg_app in Hn as (r & _ & Hb).
    assert (Hr : r = Some l) by (destruct x; simpl in Hb; tauto).
    subst r.
    pose proof (is_chain_functional σ (Some l) _ _ Hc Hb) as Heq.
    apply (f_equal length) in Heq. simpl in Heq.
    rewrite length_app in Heq. simpl in Heq. lia.
Qed.

(** The search walks over the objects that do not match. *)
Lemma find_entry_skip (σ : gmap loc tfrc_tx_hist_entry) p c q seq fuel :
  is_seg σ p c q → no_match seq c → (length c ≤ fuel)%nat →
  tfrc_tx_hist_find_entry fuel σ p seq
  = tfrc_tx_hist_find_entry (fuel - length c) σ q seq.
Proof.
  revert p fuel. induction c as [|[l [s t]] c IH]; intros p fuel; simpl.
  - intros -> _ _. by rewrite Nat.sub_0_r.
  - intros [-> (n & Hl & Hn)] Hno Hfuel.
    destruct fuel as [|fuel]; [lia|]. simpl. rewrite Hl. simpl.
    assert (Hs : s ≠ seq) by (apply (Hno (l, (s, t))); set_solver).
    destruct (Z.eqb_spec s seq); [done|]. simpl.
    apply IH; [done| |lia].
    intros x Hx. apply Hno. set_solver.
Qed.

Lemma find_entry_none (σ : gmap loc tfrc_tx_hist_entry) p c seq fuel :
  is_chain σ p c → no_match seq c → (length c ≤ fuel)%nat →
  tfrc_tx_hist_find_entry fuel σ p seq = Some None.
Proof.
  intros Hc Hno Hfuel. rewrite (find_entry_skip σ p c None) by done.
  by destruct (fuel - length c)%nat.
Qed.

Lemma find_entry_first (σ : gmap loc tfrc_tx_hist_entry) p c l n seq t fuel :
  is_seg σ p c (Some l) → σ !! l = Some (mk_tx n seq t) →
  no_match seq c → (length c ≤ fuel)%nat →
  tfrc_tx_hist_find_entry fuel σ p seq = Some (Some l).
Proof.
  intros Hc Hl Hno Hfuel. rewrite (find_entry_skip σ p c (Some l)) by done.
  destruct (fuel - length c)%nat; simpl; rewrite Hl; simpl;
    by rewrite Z.eqb_refl.
Qed.

(** Purging a chain frees exactly its objects. *)
Lemma purge_loop_chain (σ : gmap loc tfrc_tx_hist_entry) p c fuel :
  is_chain σ p c → NoDup (c.*1) → (length c ≤ fuel)%nat →
  ∃ σ', purge_loop fuel σ p = Some σ' ∧
        (∀ k, k ∈ c.*1 → σ' !! k = None) ∧
        (∀ k, k ∉ c.*1 → σ' !! k = σ !! k).
Proof.
  unfold is_chain. revert σ p fuel.
  induction c as [|[l [s t]] c IH]; intros σ p fuel; simpl.
  - intros -> _ _. exists σ. destruct fuel; simpl; set_solver.
  - intros [-> (n & Hl & Hn)] Hnd Hfuel.
    apply NoDup_cons in Hnd as [Hnotin Hnd].
    destruct fuel as [|fuel]; [lia|]. simpl. rewrite Hl. simpl.
    destruct (IH (delete l σ) n fuel) as (σ' & Hp & Hfree & Hkeep);
      [|done|lia|].
    { apply (is_seg_frame σ); [done|].
      intros k Hk. apply lookup_delete_ne. set_solver. }
    exists σ'. split; [done|]. split.
    + intros k Hk. apply elem_of_cons in Hk as [->|Hk].
      * rewrite Hkeep by done. apply lookup_delete_eq.
      * by apply Hfree.
    + intros k Hk. rewrite Hkeep by set_solver.
      apply lookup_delete_ne. set_solver.
Qed.

Section Conversion.

Variable ktime_to_us : Z → Z.

(** C9, amended: a lookup that finds no entry returns 0 and changes
    nothing.  A lookup that finds one returns the [u32] microsecond
    difference between [now] and its send time; afterwards the chain
    consists of the entries newer than the match followed by the
    match itself, now last; the entries older than the match are
    freed, and no other object is touched. *)
Theorem tx_hist_rtt_purges_older
        (m : mem) (head : option loc) (seq now : Z)
        (c : list (loc * (Z * Z))) (fuel : nat)
        (Hc : is_chain (tx_heap m) head c)
        (Hfuel : (length c ≤ fuel)%nat) :
  (no_match (to_u64 seq) c →
   tfrc_tx_hist_rtt ktime_to_us fuel m head seq now = Some (0, m)) ∧
  (∀ c1 l t c2,
     c = c1 ++ (l, (to_u64 seq, t)) :: c2 →
     no_match (to_u64 seq) c1 →
     ∃ m',
       tfrc_tx_hist_rtt ktime_to_us fuel m head seq now
       = Some (to_u32 (ktime_to_us (now - t)), m') ∧
       tx_head m' = tx_head m ∧
       is_chain (tx_heap m') head (c1 ++ [(l, (to_u64 seq, t))]) ∧
       tx_heap m' !! l = Some (mk_tx None (to_u64 seq) t) ∧
       (∀ k, k ∈ c2.*1 → tx_heap m' !! k = None) ∧
       (∀ k, k ∉ c2.*1 → k ≠ l → tx_heap m' !! k = tx_heap m !! k)).
Proof.
  pose proof (is_chain_NoDup _ _ _ Hc) as Hnd.
  split.
  - intros Hno. unfold tfrc_tx_hist_rtt.
    by rewrite (find_entry_none _ _ c).
  - intros c1 l t c2 -> Hno.
    apply is_seg_app in Hc as (r & H1 & H2). simpl in H2.
    destruct H2 as [-> (n & Hl & Hn)].
    rewrite fmap_app, fmap_cons in Hnd. simpl in Hnd.
    apply NoDup_app in Hnd as (Hnd1 & Hdisj & Hnd2).
    apply NoDup_cons in Hnd2 as [Hl2 Hnd2].
    rewrite length_app in Hfuel. simpl in Hfuel.
    destruct (purge_loop_chain (tx_heap m) n c2 fuel)
      as (σ' & Hp & Hfree & Hkeep); [done|done|lia|].
    unfold tfrc_tx_hist_rtt.
    rewrite (find_entry_first _ _ c1 l n _ t) by (done || lia).
    simpl. rewrite Hl. simpl.
    unfold tfrc_tx_hist_purge. simpl. rewrite Hl. simpl.
    rewrite Hp. simpl. rewrite Hkeep by done. rewrite Hl. simpl.
    eexists. split; [reflexivity|]. simpl.
    split; [done|]. split; [|split; [|split]].
    + apply is_seg_app. exists (Some l). split.
      * apply (is_seg_frame (tx_heap m)); [done|].
        intros k Hk. rewrite lookup_insert_ne.
        -- apply Hkeep. intros Hk2. apply (Hdisj k Hk). set_solver.
        -- intros ->. apply (Hdisj k Hk). set_solver.
      * simpl. split; [done|]. exists None.
        split; [apply lookup_insert_eq|done].
    + apply lookup_insert_eq.
    + intros k Hk. rewrite lookup_insert_ne; [by apply Hfree|].
      by intros ->.
    + intros k Hk Hne. rewrite lookup_insert_ne by done.
      by apply Hkeep.
Qed.

End Conversion.

End TxFacts.

(** ** Receiver history: duplicates, new losses, loss handling *)

Module RxFacts.

Import RxHist ArithFacts Examples.

(** What the duplicate test computes: the packet carries the anchor's
    sequence number, or that of a tracked entry. *)
Lemma duplicate_loop_one h seq i n :
  duplicate_loop h seq i n = 1 <->
  exists k, (k < n)%nat /\
            tfrchrx_seqno (tfrc_rx_hist_entry h (i + Z.of_nat k)) = seq.
Proof.
  revert i. induction n as [|n IH]; intros i; simpl.
  - split; [discriminate|]. intros (k & Hk & _). lia.
  - destruct (Z.eqb_spec (tfrchrx_seqno (tfrc_rx_hist_entry h i)) seq) as [He|He].
    + split; [intros _|reflexivity].
      exists 0%nat. split; [lia|]. now rewrite Z.add_0_r.
    + rewrite IH. split.
      * intros (k & Hk & Hs). exists (S k). split; [lia|].
        now replace (i + Z.of_nat (S k)) with (i + 1 + Z.of_nat k) by lia.
      * intros (k & Hk & Hs). destruct k as [|k].
        -- rewrite Z.add_0_r in Hs. contradiction.
        -- exists k. split; [lia|].
           now replace (i + 1 + Z.of_nat k) with (i + Z.of_nat (S k)) by lia.
Qed.

Lemma tfrc_rx_hist_duplicate_one h skb :
  tfrc_rx_hist_duplicate h skb = 1 <->
  dccp_delta_seqno (tfrchrx_seqno (tfrc_rx_hist_loss_prev h)) (dccpd_seq skb) = 0 \/
  exists k, (k < Z.to_nat (loss_count h))%nat /\
            tfrchrx_seqno (tfrc_rx_hist_entry h (1 + Z.of_nat k))
            = to_u64 (dccpd_seq skb).
Proof.
  unfold tfrc_rx_hist_duplicate. rewrite dccp_delta_seqno_u64_r.
  pose proof (dccp_delta_seqno_range
                (tfrchrx_seqno (tfrc_rx_hist_loss_prev h)) (dccpd_seq skb)) as Hr.
  destruct (Z.leb_spec
              (dccp_delta_seqno (tfrchrx_seqno (tfrc_rx_hist_loss_prev h))
                                (dccpd_seq skb)) 0) as [Hle|Hgt].
  - split; [intros _; left; lia | reflexivity].
  - rewrite duplicate_loop_one. split; [now right|].
    intros [H0|Hk]; [lia|exact Hk].
Qed.

(** C1, at a packet older than the anchor: anchor 100 and nothing
    pending, packet 99.  The packet is before the anchor and not after
    it, yet the duplicate test answers 0, because the distance it tests
    with [<= 0] is unsigned (here 2^48 - 1). *)
Theorem duplicate_misses_seq_before_anchor :
  before48 99 (tfrchrx_seqno (tfrc_rx_hist_loss_prev h_anchor100)) = true /\
  after48 99 (tfrchrx_seqno (tfrc_rx_hist_loss_prev h_anchor100)) = false /\
  dccp_delta_seqno (tfrchrx_seqno (tfrc_rx_hist_loss_prev h_anchor100)) 99
  = 2 ^ 48 - 1 /\
  tfrc_rx_hist_duplicate h_anchor100 (skb_seq 99) = 0.
Proof. repeat split; vm_compute; reflexivity. Qed.

(** C4, amended: with nothing pending, the test narrows the distance
    from the last received entry to a signed 32-bit [d]; if [d > 1] and
    [ndp < d] it sets [loss_count] to 1 and returns 1, otherwise it
    returns 0 and leaves the history as it was.  [d] is the mod-2^48
    distance whenever that is below 2^31.  From 100 to 103 with no NDP
    the answer is 1. *)
Theorem new_loss_indicated_int_distance
        (h : tfrc_rx_hist) (skb : sk_buff) (ndp : Z)
        (Hlc : loss_count h = 0) (Hndp : 0 <= ndp < 2 ^ 32) :
  let d := int_distance h skb in
  let delta := dccp_delta_seqno (tfrchrx_seqno (tfrc_rx_hist_last_rcv h))
                                (dccpd_seq skb) in
  (1 < d /\ ndp < d ->
   tfrc_rx_hist_new_loss_indicated h skb ndp
   = (1, mk_hist (ring h) 1 (loss_start h))) /\
  (~ (1 < d /\ ndp < d) ->
   tfrc_rx_hist_new_loss_indicated h skb ndp = (0, h)) /\
  (delta < 2 ^ 31 -> d = delta) /\
  (tfrchrx_seqno (tfrc_rx_hist_loss_prev h) = 100 ->
   dccpd_seq skb = 103 -> ndp = 0 ->
   tfrc_rx_hist_new_loss_indicated h skb ndp
   = (1, mk_hist (ring h) 1 (loss_start h))).
Proof.
  intros d delta.
  assert (Hd : to_int (dccp_delta_seqno
                         (tfrchrx_seqno (tfrc_rx_hist_last_rcv h))
                         (to_u64 (dccpd_seq skb))) = d).
  { rewrite dccp_delta_seqno_u64_r. apply to_int_delta. }
  pose proof (to_int_range
                (dccpd_seq skb - tfrchrx_seqno (tfrc_rx_hist_last_rcv h))) as Hr.
  fold (int_distance h skb) in Hr. fold d in Hr.
  assert (Hyes : 1 < d /\ ndp < d ->
                 tfrc_rx_hist_new_loss_indicated h skb ndp
                 = (1, mk_hist (ring h) 1 (loss_start h))).
  { intros [H1 H2]. unfold tfrc_rx_hist_new_loss_indicated. rewrite Hd.
    rewrite (to_u32_small ndp), (to_u32_small d) by lia.
    destruct (Z.ltb_spec 1 d); [|lia].
    destruct (Z.ltb_spec ndp d); [|lia].
    reflexivity. }
  split; [exact Hyes|]. split; [|split].
  - intros Hno. unfold tfrc_rx_hist_new_loss_indicated. rewrite Hd.
    destruct (Z.ltb_spec 1 d) as [H1|H1]; simpl.
    + rewrite (to_u32_small ndp), (to_u32_small d) by lia.
      destruct (Z.ltb_spec ndp d); [lia|].
      unfold tfrc_rx_hist_loss_pending. now rewrite Hlc.
    + unfold tfrc_rx_hist_loss_pending. now rewrite Hlc.
  - intros Hlt. subst d. unfold int_distance. rewrite <- to_int_delta.
    pose proof (dccp_delta_seqno_range
                  (tfrchrx_seqno (tfrc_rx_hist_last_rcv h)) (dccpd_seq skb)).
    apply to_int_small. fold delta in H |- *. lia.
  - intros Ha Hs Hn. apply Hyes. subst d. unfold int_distance.
    unfold tfrc_rx_hist_last_rcv, last_rcv_index.
    unfold tfrc_rx_hist_loss_prev in Ha. rewrite Ha, Hs, Hn.
    vm_compute. split; reflexivity.
Qed.

(** C8: entered with [loss_count] other than 1 and 2, the loss handler
    only reports the invalid count: the history and the database are
    returned as they were, no database update is made, and the result
    is 0. *)
Theorem handle_loss_invalid_count
        (tfrc_loss_hist sock : Type)
        (tfrc_lh_interval_add :
           tfrc_loss_hist -> tfrc_rx_hist -> (sock -> Z) -> sock
           -> Z * tfrc_loss_hist)
        (h : tfrc_rx_hist) (lh : tfrc_loss_hist) (skb : sk_buff)
        (ndp : Z) (calc_first_li : sock -> Z) (sk : sock) (now : Z)
        (H1 : loss_count h <> 1) (H2 : loss_count h <> 2) :
  tfrc_rx_handle_loss tfrc_loss_hist sock tfrc_lh_interval_add
                      h lh skb ndp calc_first_li sk now
  = (0, h, lh, [EvBugInvalidLossCount (loss_count h)]) /\
  sink_calls [EvBugInvalidLossCount (loss_count h)] = 0%nat /\
  forallb is_bug [EvBugInvalidLossCount (loss_count h)] = true.
Proof.
  unfold tfrc_rx_handle_loss.
  destruct (Z.eqb_spec (loss_count h) 1); [contradiction|].
  destruct (Z.eqb_spec (loss_count h) 2); [contradiction|].
  repeat split.
Qed.

(** The two-pending transition answers 0 or 1, and 1 only together
    with three pending entries. *)
Lemma two_after_loss_signal h skb n3 now :
  let '(r, h1) := __two_after_loss h skb n3 now in
  r = 0 \/ (r = 1 /\ loss_count h1 = 3).
Proof.
  unfold __two_after_loss.
  repeat match goal with
         | |- context [if ?c then _ else _] => destruct c
         end; auto.
Qed.

(** Whatever the update of the loss-interval database is, the loss
    handler applies it exactly once when it is entered with two pending
    entries and the two-pending transition signals a loss; the update is
    handed the history as the transition left it (three pending), and
    the housekeeping transition runs on that same history afterwards.
    In every other case, so whenever one entry is pending, no update is
    made and the result is 0. *)
Theorem handle_loss_sink_once
        (tfrc_loss_hist sock : Type)
        (tfrc_lh_interval_add :
           tfrc_loss_hist -> tfrc_rx_hist -> (sock -> Z) -> sock
           -> Z * tfrc_loss_hist)
        (h : tfrc_rx_hist) (lh : tfrc_loss_hist) (skb : sk_buff)
        (ndp : Z) (calc_first_li : sock -> Z) (sk : sock) (now : Z) :
  let '(r, h', lh', log) :=
    tfrc_rx_handle_loss tfrc_loss_hist sock tfrc_lh_interval_add
                        h lh skb ndp calc_first_li sk now in
  let '(signal, h2) := __two_after_loss h skb ndp now in
  (if (loss_count h =? 2) && negb (signal =? 0) then
     log = [EvIntervalAdd h2] /\ sink_calls log = 1%nat /\
     loss_count h2 = 3 /\ h' = __three_after_loss h2 /\
     r = to_int (tfrc_lh_interval_add lh h2 calc_first_li sk).1 /\
     lh' = (tfrc_lh_interval_add lh h2 calc_first_li sk).2
   else
     sink_calls log = 0%nat /\ r = 0 /\ lh' = lh) /\
  (if loss_count h =? 1 then
     log = [] /\ r = 0 /\ h' = __one_after_loss h skb ndp now
   else True).
Proof.
  unfold tfrc_rx_handle_loss.
  pose proof (two_after_loss_signal h skb ndp now) as Hsig.
  destruct (__two_after_loss h skb ndp now) as [signal h2].
  destruct (Z.eqb_spec (loss_count h) 1) as [E1|E1].
  { rewrite E1. simpl. repeat split. }
  destruct (Z.eqb_spec (loss_count h) 2) as [E2|E2]; simpl.
  - destruct Hsig as [-> | [-> Hlc]]; simpl.
    + repeat split.
    + destruct (tfrc_lh_interval_add lh h2 calc_first_li sk) as [r lh1].
      simpl. repeat split. exact Hlc.
  - repeat split.
Qed.

(** C5: from anchor 100 with 103 pending, packet 102 (no NDP) makes the
    handler reorder the ring: two entries pending, 102 then 103, anchor
    still 100, result 0.  Packet 101 (no NDP) then closes the whole gap:
    nothing pending, the anchor is the slot that holds 103, and the
    result is 0 again; neither call reports anything or touches the
    loss-interval database. *)
Theorem reorder_then_resolve_trace
        (tfrc_loss_hist sock : Type)
        (tfrc_lh_interval_add :
           tfrc_loss_hist -> tfrc_rx_hist -> (sock -> Z) -> sock
           -> Z * tfrc_loss_hist)
        (h : tfrc_rx_hist) (lh : tfrc_loss_hist) (skb1 skb2 : sk_buff)
        (calc_first_li : sock -> Z) (sk : sock) (now1 now2 : Z)
        (Hls : 0 <= loss_start h <= 3)
        (Hlc : loss_count h = 1)
        (H0 : tfrchrx_seqno (tfrc_rx_hist_loss_prev h) = 100)
        (H1 : tfrchrx_seqno (tfrc_rx_hist_entry h 1) = 103)
        (Hs1 : dccpd_seq skb1 = 102)
        (Hs2 : dccpd_seq skb2 = 101) :
  let '(r1, h1, lh1, log1) :=
    tfrc_rx_handle_loss tfrc_loss_hist sock tfrc_lh_interval_add
                        h lh skb1 0 calc_first_li sk now1 in
  let '(r2, h2, lh2, log2) :=
    tfrc_rx_handle_loss tfrc_loss_hist sock tfrc_lh_interval_add
                        h1 lh1 skb2 0 calc_first_li sk now2 in
  (r1 = 0 /\ loss_count h1 = 2 /\
   tfrchrx_seqno (tfrc_rx_hist_loss_prev h1) = 100 /\
   tfrchrx_seqno (tfrc_rx_hist_entry h1 1) = 102 /\
   tfrchrx_seqno (tfrc_rx_hist_entry h1 2) = 103 /\
   tfrc_rx_hist_entry h1 2 = tfrc_rx_hist_entry h 1 /\
   log1 = [] /\ lh1 = lh) /\
  (dccp_delta_seqno (tfrchrx_seqno (tfrc_rx_hist_loss_prev h1)) 101 = 1 /\
   dccp_delta_seqno 101 (tfrchrx_seqno (tfrc_rx_hist_entry h1 1)) = 1 /\
   (__two_after_loss h1 skb2 0 now2).1 = 0) /\
  (r2 = 0 /\ loss_count h2 = 0 /\
   tfrchrx_seqno (tfrc_rx_hist_loss_prev h2) = 103 /\
   tfrc_rx_hist_loss_prev h2 = tfrc_rx_hist_entry h 1 /\
   log2 = [] /\ lh2 = lh).
Proof.
  destruct h as [[[s0 c0 t0 n0 ts0] [s1 c1 t1 n1 ts1]
                  [s2 c2 t2 n2 ts2] [s3 c3 t3 n3 ts3]] lc ls].
  destruct skb1 as [q1 v1 y1]. destruct skb2 as [q2 v2 y2].
  simpl in Hls, Hlc, Hs1, Hs2. subst lc q1 q2.
  assert (Hcase : ls = 0 \/ ls = 1 \/ ls = 2 \/ ls = 3) by lia.
  destruct Hcase as [-> | [-> | [-> | ->]]];
    vm_compute in H0, H1; subst; vm_compute; repeat split.
Qed.

End RxFacts.

(** ** RTT sampling from window counters *)

Module RttFacts.

Import RxHist ArithFacts Examples.

Lemma SUB16_range a b : 0 <= SUB16 a b < 16.
Proof.
  unfold SUB16. change 15 with (Z.ones 4).
  rewrite Z.land_ones by lia. apply Z.mod_pos_bound. lia.
Qed.

Lemma to_u32_SUB16 a b : to_u32 (SUB16 a b) = SUB16 a b.
Proof. pose proof (SUB16_range a b). apply to_u32_small. lia. Qed.

(** Case split on the sanity check [sample > DCCP_SANE_RTT_MAX]. *)
Ltac split_clamp :=
  cbn [mbind option_bind];
  match goal with
  | |- context [?m <? ?x] => destruct (m <? x)
  end.

(** Exhibit the result of a finished branch and check each conjunct. *)
Ltac close_case Hidx :=
  eexists _, _, _; split; [reflexivity|];
  repeat split;
  try (intros; simpl; lia); try discriminate;
  try (apply Hidx; simpl; lia);
  try (intros; vm_compute; reflexivity);
  try (intros _; left; lia); try (intros _; right; lia).

Section Sampler.

Variable ktime_to_us : Z -> Z.
Variable DCCP_SANE_RTT_MAX : Z.

Local Abbreviation sample_rtt :=
  (tfrc_rx_hist_sample_rtt ktime_to_us DCCP_SANE_RTT_MAX).
Local Abbreviation select := (sample_rtt_select ktime_to_us).

(** The selection step never divides by zero. *)
Lemma sample_rtt_select_total h skb now :
  exists res, select h skb now = Some res.
Proof.
  unfold sample_rtt_select.
  repeat match goal with
         | |- context [if ?c then _ else _] => destruct c eqn:?
         end; eauto.
  unfold c_div.
  match goal with H : negb (?x =? 0) = true |- _ =>
    destruct (Z.eqb_spec x 0); [discriminate|]
  end.
  simpl. eauto.
Qed.

Lemma sample_rtt_total h skb now :
  exists res, sample_rtt h skb now = Some res.
Proof.
  unfold tfrc_rx_hist_sample_rtt.
  destruct (sample_rtt_select_total h skb now) as [[[[s h1] log] k] ->].
  simpl. destruct k; [eauto|].
  destruct (DCCP_SANE_RTT_MAX <? s); eauto.
Qed.

(** C7: the sampler never faults on a division: it returns a result
    on every input.  The division [4 / raw] is made only in the branch
    with a candidate stored and an unsuitable delta, and there only
    for [raw <> 0]; with [raw = 0] that branch reports the
    inconsistency and the call returns 0.  More generally, whenever
    [raw = 0] and the delta is not 4, the call returns 0. *)
Theorem sample_rtt_no_division_fault
        (h : tfrc_rx_hist) (skb : sk_buff) (now : Z)
        (Hmax : 0 <= DCCP_SANE_RTT_MAX) :
  let last := tfrc_rx_hist_rtt_last_s h in
  let prev := tfrc_rx_hist_rtt_prev_s h in
  let delta_v := SUB16 (dccph_ccval skb) (tfrchrx_ccval last) in
  let raw := SUB16 (tfrchrx_ccval prev) (tfrchrx_ccval last) in
  (exists res, sample_rtt h skb now = Some res) /\
  (rtt_sample_prev h = 2 -> delta_v < 1 \/ 4 < delta_v -> raw = 0 ->
   sample_rtt h skb now
   = Some (0, set_rtt_sample_prev h 0,
           [EvBugRttSample (tfrchrx_ccval prev) (tfrchrx_ccval last)])) /\
  (rtt_sample_prev h = 2 -> delta_v < 1 \/ 4 < delta_v -> raw <> 0 ->
   let v := to_u32 (4 / raw * ktime_us_delta ktime_to_us
                                (tfrchrx_tstamp prev) (tfrchrx_tstamp last)) in
   exists log,
     sample_rtt h skb now
     = Some (if DCCP_SANE_RTT_MAX <? v then to_u32 DCCP_SANE_RTT_MAX else v,
             set_rtt_sample_prev h 0, log)) /\
  (raw = 0 -> delta_v <> 4 ->
   exists h' log, sample_rtt h skb now = Some (0, h', log)).
Proof.
  intros last prev delta_v raw.
  pose proof (SUB16_range (dccph_ccval skb) (tfrchrx_ccval last)) as Hr.
  fold delta_v in Hr.
  assert (Hzero : rtt_sample_prev h = 2 -> delta_v < 1 \/ 4 < delta_v ->
                  raw = 0 ->
                  sample_rtt h skb now
                  = Some (0, set_rtt_sample_prev h 0,
                          [EvBugRttSample (tfrchrx_ccval prev)
                                          (tfrchrx_ccval last)])).
  { intros Hp Hd Hraw.
    unfold tfrc_rx_hist_sample_rtt, sample_rtt_select.
    rewrite !to_u32_SUB16. fold last prev. fold delta_v. fold raw.
    rewrite Hp, Hraw. simpl.
    assert (Hc : (delta_v <? 1) || (4 <? delta_v) = true).
    { apply orb_true_iff. destruct Hd; [left|right]; now apply Z.ltb_lt. }
    rewrite Hc. simpl.
    destruct (Z.ltb_spec DCCP_SANE_RTT_MAX 0); [lia|]. reflexivity. }
  split; [apply sample_rtt_total|].
  split; [exact Hzero|]. split.
  - intros Hp Hd Hraw v.
    unfold tfrc_rx_hist_sample_rtt, sample_rtt_select, c_div.
    rewrite !to_u32_SUB16. fold last prev. fold delta_v. fold raw.
    rewrite Hp.
    assert (Hc : (delta_v <? 1) || (4 <? delta_v) = true).
    { apply orb_true_iff. destruct Hd; [left|right]; now apply Z.ltb_lt. }
    rewrite Hc. change (2 =? 2) with true. cbv iota.
    destruct (Z.eqb_spec raw 0) as [E|E]; [contradiction|].
    cbn [negb mbind option_bind]. fold v.
    destruct (DCCP_SANE_RTT_MAX <? v); eauto.
  - intros Hraw Hd4.
    destruct (Z.eq_dec (rtt_sample_prev h) 2) as [Hp|Hp];
      destruct (Z_lt_dec delta_v 1) as [H1|H1];
      destruct (Z_lt_dec 4 delta_v) as [H4|H4]; try lia;
      try (rewrite Hzero by (done || lia); eauto; fail).
    all: unfold tfrc_rx_hist_sample_rtt, sample_rtt_select.
    all: rewrite !to_u32_SUB16; fold last prev; fold delta_v; fold raw.
    all: destruct (Z.ltb_spec delta_v 1); try lia.
    all: destruct (Z.ltb_spec 4 delta_v); try lia.
    all: cbn [orb].
    all: try (destruct (Z.eqb_spec (rtt_sample_prev h) 2); [contradiction|]).
    all: try (destruct (Z.eqb_spec delta_v 4); [contradiction|]).
    all: cbn [mbind option_bind].
    all: try (destruct (Z.ltb_spec DCCP_SANE_RTT_MAX 0); [lia|]).
    all: eauto.
Qed.

(** C6, amended: on a window-counter delta of 4 the sample is the
    elapsed time since the reference entry, in microseconds, as a
    [u32] (so modulo 2^32), replaced by the maximum when above it; it
    never exceeds the maximum and is the elapsed time itself whenever
    that lies between 0 and the maximum.  On a delta of 0 with no
    candidate stored the result is 0. *)
Theorem sample_rtt_exact_window
        (h : tfrc_rx_hist) (skb : sk_buff) (now : Z)
        (Hmax : 0 <= DCCP_SANE_RTT_MAX < 2 ^ 32) :
  let last := tfrc_rx_hist_rtt_last_s h in
  let delta_v := SUB16 (dccph_ccval skb) (tfrchrx_ccval last) in
  let elapsed := ktime_to_us (net_timedelta now (tfrchrx_tstamp last)) in
  (delta_v = 4 ->
   exists sample log,
     sample_rtt h skb now = Some (sample, set_rtt_sample_prev h 0, log) /\
     sample = Z.min (to_u32 elapsed) DCCP_SANE_RTT_MAX /\
     sample <= DCCP_SANE_RTT_MAX /\
     (0 <= elapsed <= DCCP_SANE_RTT_MAX -> sample = elapsed) /\
     (DCCP_SANE_RTT_MAX < elapsed < 2 ^ 32 -> sample = DCCP_SANE_RTT_MAX)) /\
  (delta_v = 0 -> rtt_sample_prev h <> 2 ->
   sample_rtt h skb now = Some (0, set_rtt_sample_prev h 1, [])).
Proof.
  intros last delta_v elapsed. split.
  - intros Hd.
    unfold tfrc_rx_hist_sample_rtt, sample_rtt_select.
    rewrite !to_u32_SUB16. fold last. fold delta_v. fold elapsed.
    rewrite Hd. simpl.
    destruct (Z.ltb_spec DCCP_SANE_RTT_MAX (to_u32 elapsed)) as [Hgt|Hle].
    + eexists _, _. split; [reflexivity|].
      rewrite (to_u32_small DCCP_SANE_RTT_MAX) by lia.
      repeat split; try lia.
      * intros He. rewrite (to_u32_small elapsed) in Hgt by lia. lia.
    + eexists _, _. split; [reflexivity|].
      repeat split; try lia.
      * intros He. apply to_u32_small. lia.
      * intros He. rewrite (to_u32_small elapsed) in Hle by lia. lia.
  - intros Hd Hp.
    unfold tfrc_rx_hist_sample_rtt, sample_rtt_select.
    rewrite !to_u32_SUB16. fold last. fold delta_v.
    rewrite Hd. simpl.
    destruct (Z.eqb_spec (rtt_sample_prev h) 2); [contradiction|].
    reflexivity.
Qed.

(** C10: the sampler writes [loss_start] (its [rtt_sample_prev] is that
    very field) and nothing else.  A call that defers, which is a
    call with delta 0 and no candidate stored or with delta 1..3,
    leaves [loss_start] at 1 or 2 respectively and returns 0; every
    other call leaves it at 0.  The reference entry is slot 0 of the
    ring, which is the anchor's slot exactly when [loss_start] is 0. *)
Theorem sample_rtt_moves_loss_start
        (h : tfrc_rx_hist) (skb : sk_buff) (now : Z)
        (Hls : 0 <= loss_start h <= 3) :
  let delta_v :=
    SUB16 (dccph_ccval skb) (tfrchrx_ccval (ring_get (ring h) 0)) in
  exists sample h' log,
    sample_rtt h skb now = Some (sample, h', log) /\
    ring h' = ring h /\ loss_count h' = loss_count h /\
    rtt_sample_prev h' = loss_start h' /\
    (defers ktime_to_us h skb now = true <->
     (delta_v = 0 /\ loss_start h <> 2) \/ 1 <= delta_v <= 3) /\
    (delta_v = 0 /\ loss_start h <> 2 -> loss_start h' = 1 /\ sample = 0) /\
    (1 <= delta_v <= 3 -> loss_start h' = 2 /\ sample = 0) /\
    (defers ktime_to_us h skb now = false -> loss_start h' = 0) /\
    tfrc_rx_hist_rtt_last_s h = ring_get (ring h) 0 /\
    (tfrc_rx_hist_index h 0 = 0 <-> loss_start h = 0) /\
    (tfrc_rx_hist_index h' 0 = 0 <-> loss_start h' = 0).
Proof.
  intros delta_v.
  assert (Hidx : forall g, 0 <= loss_start g <= 3 ->
                           (tfrc_rx_hist_index g 0 = 0 <-> loss_start g = 0)).
  { intros g Hg. unfold tfrc_rx_hist_index.
    rewrite Z.add_0_r, Z.mod_small by lia. reflexivity. }
  pose proof (SUB16_range (dccph_ccval skb)
                          (tfrchrx_ccval (ring_get (ring h) 0))) as Hr.
  fold delta_v in Hr.
  unfold defers, tfrc_rx_hist_sample_rtt, sample_rtt_select.
  unfold tfrc_rx_hist_rtt_last_s, rtt_sample_prev.
  rewrite !to_u32_SUB16. fold delta_v.
  destruct (Z.ltb_spec delta_v 1) as [Hlt1|Hge1];
    destruct (Z.ltb_spec 4 delta_v) as [Hgt4|Hle4]; try lia; simpl.
  - (* delta_v = 0 *)
    destruct (Z.eqb_spec (loss_start h) 2) as [E2|E2].
    + destruct (negb (_ =? 0)) eqn:Hraw.
      * unfold c_div.
        apply negb_true_iff in Hraw. rewrite Hraw. simpl.
        split_clamp; close_case Hidx.
      * simpl. split_clamp; close_case Hidx.
    + close_case Hidx.
  - (* 5 <= delta_v *)
    destruct (Z.eqb_spec (loss_start h) 2) as [E2|E2].
    + destruct (negb (_ =? 0)) eqn:Hraw.
      * unfold c_div.
        apply negb_true_iff in Hraw. rewrite Hraw. simpl.
        split_clamp; close_case Hidx.
      * simpl. split_clamp; close_case Hidx.
    + split_clamp; close_case Hidx.
  - (* 1 <= delta_v <= 4 *)
    destruct (Z.eqb_spec delta_v 4) as [E4|E4].
    + split_clamp; close_case Hidx.
    + close_case Hidx.
Qed.

End Sampler.

End RttFacts.

(** ** Receiver history: what the loss transitions preserve *)

Module RxOrderFacts.

Import RxHist ArithFacts RxFacts RttFacts.

(** *** The 2-bit fields stay in range *)

Ltac split_ifs :=
  repeat match goal with
         | |- context [if ?c then _ else _] => destruct c eqn:?
         end.

Ltac solve_wf :=
  unfold wf, set_rtt_sample_prev, set_loss_count, set_loss_start,
    write_entry, tfrc_rx_hist_swap in *;
  cbn [loss_count loss_start] in *;
  repeat split;
  lazymatch goal with
  | |- 0 <= to_unsigned 2 _ => apply (proj1 (to_unsigned_2_range _))
  | |- to_unsigned 2 _ <= 3 => apply (proj2 (to_unsigned_2_range _))
  | _ => lia
  end.

Lemma one_after_loss_wf h skb n2 now :
  wf h -> wf (__one_after_loss h skb n2 now).
Proof.
  intros Hwf. unfold __one_after_loss. cbv zeta. split_ifs; solve_wf.
Qed.

Lemma two_after_loss_wf h skb n3 now :
  wf h -> wf (__two_after_loss h skb n3 now).2.
Proof.
  intros Hwf. unfold __two_after_loss. cbv zeta.
  split_ifs; cbn [snd]; solve_wf.
Qed.

Lemma three_after_loss_wf h : wf h -> wf (__three_after_loss h).
Proof.
  intros Hwf. unfold __three_after_loss. cbv zeta. split_ifs; solve_wf.
Qed.

Lemma new_loss_indicated_wf h skb ndp :
  wf h -> wf (tfrc_rx_hist_new_loss_indicated h skb ndp).2.
Proof.
  intros Hwf. unfold tfrc_rx_hist_new_loss_indicated. cbv zeta.
  unfold tfrc_rx_hist_loss_indicated. split_ifs; cbn [snd]; solve_wf.
Qed.

Lemma add_packet_wf h skb ndp now :
  wf h -> wf (tfrc_rx_hist_add_packet h skb ndp now).
Proof. intros Hwf. unfold tfrc_rx_hist_add_packet. solve_wf. Qed.

Section Collaborators.

Variable ktime_to_us : Z -> Z.
Variable DCCP_SANE_RTT_MAX : Z.
Variable tfrc_loss_hist : Type.
Variable sock : Type.
Variable tfrc_lh_interval_add :
  tfrc_loss_hist -> tfrc_rx_hist -> (sock -> Z) -> sock -> Z * tfrc_loss_hist.

Local Abbreviation handle_loss :=
  (tfrc_rx_handle_loss tfrc_loss_hist sock tfrc_lh_interval_add).
Local Abbreviation sample_rtt :=
  (tfrc_rx_hist_sample_rtt ktime_to_us DCCP_SANE_RTT_MAX).
Local Abbreviation step :=
  (rx_step ktime_to_us DCCP_SANE_RTT_MAX tfrc_loss_hist sock
           tfrc_lh_interval_add).
Local Abbreviation run :=
  (rx_run ktime_to_us DCCP_SANE_RTT_MAX tfrc_loss_hist sock
          tfrc_lh_interval_add).

Lemma handle_loss_wf h lh skb ndp calc_first_li sk now :
  wf h -> wf (handle_loss h lh skb ndp calc_first_li sk now).1.1.2.
Proof.
  intros Hwf. unfold tfrc_rx_handle_loss.
  destruct (loss_count h =? 1); [apply one_after_loss_wf, Hwf|].
  destruct (negb (loss_count h =? 2)); [exact Hwf|].
  pose proof (two_after_loss_wf h skb ndp now Hwf) as H2.
  destruct (__two_after_loss h skb ndp now) as [r h1]. simpl in H2.
  destruct (negb (r =? 0)); [|exact H2].
  destruct (tfrc_lh_interval_add lh h1 calc_first_li sk) as [r1 lh1].
  simpl. apply three_after_loss_wf, H2.
Qed.

Lemma sample_rtt_wf h skb now s h' log :
  wf h -> sample_rtt h skb now = Some (s, h', log) -> wf h'.
Proof.
  intros Hwf. unfold tfrc_rx_hist_sample_rtt, sample_rtt_select, c_div.
  repeat (split_ifs; cbn [mbind option_bind]);
    (intros [= <- <- <-] || intros [=]); solve_wf.
Qed.

(** Every operation returns, and keeps the fields in range. *)
Lemma rx_step_wf h lh op :
  wf h -> exists h' lh', step (h, lh) op = Some (h', lh') /\ wf h'.
Proof.
  intros Hwf. destruct op as [skb ndp now|skb|skb ndp|skb ndp c sk now|skb now];
    unfold rx_step; cbv beta iota zeta.
  - eexists _, _. split; [reflexivity|]. by apply add_packet_wf.
  - eexists _, _. split; [reflexivity|]. done.
  - eexists _, _. split; [reflexivity|]. by apply new_loss_indicated_wf.
  - pose proof (handle_loss_wf h lh skb ndp c sk now Hwf) as H.
    destruct (handle_loss h lh skb ndp c sk now) as [[[r h1] lh1] log].
    eexists _, _. split; [reflexivity|]. exact H.
  - destruct (sample_rtt_total ktime_to_us
                DCCP_SANE_RTT_MAX h skb now) as [[[s h1] log] Hs].
    rewrite Hs. cbn [mbind option_bind]. eexists _, _. split; [reflexivity|].
    by apply (sample_rtt_wf h skb now s h1 log).
Qed.

Lemma rx_run_wf ops h lh :
  wf h -> exists h' lh', run ops (h, lh) = Some (h', lh') /\ wf h'.
Proof.
  revert h lh. induction ops as [|op ops IH]; intros h lh Hwf; cbn [rx_run].
  - by eexists _, _.
  - destruct (rx_step_wf h lh op Hwf) as (h1 & lh1 & -> & Hwf1).
    cbn [mbind option_bind]. by apply IH.
Qed.

End Collaborators.

(** *** The tracked entries stay in order

    Each case fixes [loss_start], so that the slots are known, splits on
    the branch conditions and expresses every distance through the
    distances from the anchor; what is left is linear arithmetic. *)

Lemma to_s64_delta a b : to_s64 (dccp_delta_seqno a b) = dccp_delta_seqno a b.
Proof.
  pose proof (dccp_delta_seqno_range a b) as Hr.
  unfold to_s64. rewrite Z.mod_small by lia. lia.
Qed.

Ltac unfold_rx :=
  unfold ordered, fresh_packet, entry_off, off,
    tfrc_rx_hist_delta_seqno, tfrc_rx_hist_entry_from_skb,
    tfrc_rx_hist_loss_prev, tfrc_rx_hist_entry, tfrc_rx_hist_index,
    set_loss_count, set_loss_start, write_entry, tfrc_rx_hist_swap in *;
  rewrite ?to_unsigned_2_mod4, ?(to_unsigned_2_small 0),
    ?(to_unsigned_2_small 1), ?(to_unsigned_2_small 2),
    ?(to_unsigned_2_small 3) in * by lia.

Ltac compute_slots :=
  cbv -[to_int to_u32 to_u64 to_u48 to_u4 to_s64 to_unsigned
        dccp_delta_seqno Z.lt Z.le Z.pow not] in *.

Ltac bool_hyps :=
  repeat match goal with
         | H : (_ <? _) = true |- _ => apply Z.ltb_lt in H
         | H : (_ <? _) = false |- _ => apply Z.ltb_ge in H
         | H : (_ || _) = _ |- _ => clear H
         end.

Ltac rebase sA :=
  rewrite ?to_s64_delta in *;
  rewrite ?dccp_delta_seqno_u64_r, ?dccp_delta_seqno_48_r,
    ?dccp_delta_seqno_48_l in *;
  repeat match goal with
         | |- context [dccp_delta_seqno ?x ?y] =>
             lazymatch x with
             | sA => fail
             | _ => rewrite (dccp_delta_seqno_base sA x y) in *
             end
         | H : context [dccp_delta_seqno ?x ?y] |- _ =>
             lazymatch x with
             | sA => fail
             | _ => rewrite (dccp_delta_seqno_base sA x y) in *
             end
         end;
  rewrite ?dccp_delta_seqno_diag, ?to_int_mod48 in *.

Ltac name_offsets sA :=
  repeat match goal with
         | |- context [dccp_delta_seqno sA ?y] =>
             let o := fresh "o" in
             pose proof (dccp_delta_seqno_range sA y);
             set (o := dccp_delta_seqno sA y) in *; clearbody o
         | H : context [dccp_delta_seqno sA ?y] |- _ =>
             let o := fresh "o" in
             pose proof (dccp_delta_seqno_range sA y);
             set (o := dccp_delta_seqno sA y) in *; clearbody o
         end.

Ltac drop_to_int :=
  repeat match goal with
         | H : context [to_int ?z] |- _ =>
             rewrite (to_int_small z) in H by lia
         end.

Ltac drop_mod :=
  repeat match goal with
         | |- context [?z mod 2 ^ 48] =>
             rewrite (Z.mod_small z (2 ^ 48)) by lia
         end.

Ltac order_case sA :=
  split_ifs; bool_hyps; cbn [snd]; unfold_rx; compute_slots;
  rebase sA; name_offsets sA; drop_to_int;
  repeat split; intros; drop_mod; lia.

Ltac by_loss_start h skb Hwf :=
  let s0 := fresh "s0" in let s1 := fresh "s1" in
  let s2 := fresh "s2" in let s3 := fresh "s3" in
  destruct h as [[[s0 ? ? ? ?] [s1 ? ? ? ?] [s2 ? ? ? ?] [s3 ? ? ? ?]] lc ls];
  try destruct skb as [? ? ?];
  unfold wf in Hwf; cbn [loss_count loss_start] in *;
  let Hcase := fresh "Hcase" in
  assert (Hcase : ls = 0 \/ ls = 1 \/ ls = 2 \/ ls = 3) by lia;
  destruct Hcase as [-> | [-> | [-> | ->]]]; subst lc;
  [ order_case s0 | order_case s1 | order_case s2 | order_case s3 ].

Lemma one_after_loss_ordered h skb n2 now :
  wf h -> loss_count h = 1 -> ordered h -> fresh_packet h skb ->
  ordered (__one_after_loss h skb n2 now).
Proof.
  intros Hwf Hlc Hord Hfresh. unfold __one_after_loss. cbv zeta.
  by_loss_start h skb Hwf.
Qed.

Lemma two_after_loss_ordered h skb n3 now :
  wf h -> loss_count h = 2 -> ordered h -> fresh_packet h skb ->
  ordered (__two_after_loss h skb n3 now).2.
Proof.
  intros Hwf Hlc Hord Hfresh. unfold __two_after_loss. cbv zeta.
  by_loss_start h skb Hwf.
Qed.

Lemma three_after_loss_ordered h :
  wf h -> loss_count h = 3 -> ordered h ->
  ordered (__three_after_loss h).
Proof.
  intros Hwf Hlc Hord. unfold __three_after_loss. cbv zeta.
  by_loss_start h h Hwf.
Qed.

(** An ordered history has its anchor not after any tracked entry. *)
Lemma ordered_anchor_not_after h :
  wf h -> ordered h -> anchor_not_after h = true.
Proof.
  intros [[Hlc0 Hlc3] _] (H1 & H2 & H3).
  assert (Hi : forall i, 0 <= entry_off h i < 2 ^ 31 ->
                         anchor_not_after_entry h i = true).
  { intros i Hr. unfold anchor_not_after_entry. rewrite after48_delta.
    fold (off h (tfrchrx_seqno (tfrc_rx_hist_entry h i))).
    fold (entry_off h i).
    destruct (Z.leb_spec (2 ^ 47) (entry_off h i)); [lia|reflexivity]. }
  pose proof (fun i => dccp_delta_seqno_range
                         (tfrchrx_seqno (tfrc_rx_hist_loss_prev h))
                         (tfrchrx_seqno (tfrc_rx_hist_entry h i))) as Hr.
  fold (off h) in Hr.
  pose proof (Hr 1) as Hr1. pose proof (Hr 2) as Hr2. pose proof (Hr 3) as Hr3.
  fold (entry_off h 1) in Hr1. fold (entry_off h 2) in Hr2.
  fold (entry_off h 3) in Hr3.
  unfold anchor_not_after.
  assert (Hc : loss_count h = 0 \/ loss_count h = 1 \/
               loss_count h = 2 \/ loss_count h = 3) by lia.
  destruct Hc as [Hc | [Hc | [Hc | Hc]]]; rewrite Hc in *.
  - reflexivity.
  - change (map Z.of_nat (seq 1 (Z.to_nat 1))) with [1].
    cbn [forallb]. rewrite Hi by lia. reflexivity.
  - change (map Z.of_nat (seq 1 (Z.to_nat 2))) with [1; 2].
    cbn [forallb]. rewrite !Hi by lia. reflexivity.
  - change (map Z.of_nat (seq 1 (Z.to_nat 3))) with [1; 2; 3].
    cbn [forallb]. rewrite !Hi by lia. reflexivity.
Qed.

Section LossHandling.

Variable tfrc_loss_hist : Type.
Variable sock : Type.
Variable tfrc_lh_interval_add :
  tfrc_loss_hist -> tfrc_rx_hist -> (sock -> Z) -> sock -> Z * tfrc_loss_hist.

Local Abbreviation handle_loss :=
  (tfrc_rx_handle_loss tfrc_loss_hist sock tfrc_lh_interval_add).

Lemma handle_loss_ordered h lh skb ndp calc_first_li sk now :
  wf h -> ordered h -> fresh_packet h skb ->
  ordered (handle_loss h lh skb ndp calc_first_li sk now).1.1.2.
Proof.
  intros Hwf Hord Hfresh. unfold tfrc_rx_handle_loss.
  destruct (Z.eqb_spec (loss_count h) 1) as [E1|E1].
  { by apply one_after_loss_ordered. }
  destruct (Z.eqb_spec (loss_count h) 2) as [E2|E2]; cbn [negb]; [|exact Hord].
  pose proof (two_after_loss_ordered h skb ndp now Hwf E2 Hord Hfresh) as Ho.
  pose proof (two_after_loss_wf h skb ndp now Hwf) as Hw.
  pose proof (two_after_loss_signal h skb ndp now) as Hsig.
  destruct (__two_after_loss h skb ndp now) as [r h1].
  cbn [snd] in Ho, Hw.
  destruct Hsig as [-> | [-> Hlc]]; cbn [Z.eqb negb].
  - exact Ho.
  - destruct (tfrc_lh_interval_add lh h1 calc_first_li sk) as [r1 lh1].
    cbn [fst snd]. by apply three_after_loss_ordered.
Qed.

End LossHandling.

(** C2, amended: after any sequence of operations on an allocated
    history every operation has returned and [loss_count] is one of 0,
    1, 2, 3.  The loss handler keeps the anchor from being after a
    tracked entry when it is called as its helpers expect: on a history
    whose tracked entries lie after the anchor in strictly increasing
    order, less than 2^31 away, with a packet after the anchor by less
    than 2^31 whose sequence number is not that of a tracked entry; the
    tracked entries are then in that order again. *)
Theorem loss_count_range_and_kept_order
        (ktime_to_us : Z -> Z) (DCCP_SANE_RTT_MAX : Z)
        (tfrc_loss_hist sock : Type)
        (tfrc_lh_interval_add :
           tfrc_loss_hist -> tfrc_rx_hist -> (sock -> Z) -> sock
           -> Z * tfrc_loss_hist) :
  (forall (mem : ring_t) (lh : tfrc_loss_hist) (ops : list (rx_op sock)),
      exists h' lh',
        rx_run ktime_to_us DCCP_SANE_RTT_MAX tfrc_loss_hist sock
               tfrc_lh_interval_add ops (tfrc_rx_hist_alloc mem, lh)
        = Some (h', lh') /\
        0 <= loss_count h' <= 3) /\
  (forall (h : tfrc_rx_hist) (lh : tfrc_loss_hist) (skb : sk_buff)
          (ndp : Z) (calc_first_li : sock -> Z) (sk : sock) (now : Z),
      wf h -> ordered h -> fresh_packet h skb ->
      let h' := (tfrc_rx_handle_loss tfrc_loss_hist sock tfrc_lh_interval_add
                                     h lh skb ndp calc_first_li sk now).1.1.2 in
      wf h' /\ ordered h' /\ anchor_not_after h' = true).
Proof.
  split.
  - intros mem lh ops.
    destruct (rx_run_wf ktime_to_us DCCP_SANE_RTT_MAX tfrc_loss_hist sock
                        tfrc_lh_interval_add ops (tfrc_rx_hist_alloc mem) lh)
      as (h' & lh' & Hrun & [Hlc _]).
    { unfold wf, tfrc_rx_hist_alloc. cbn [loss_count loss_start]. lia. }
    by exists h', lh'.
  - intros h lh skb ndp calc_first_li sk now Hwf Hord Hfresh h'.
    assert (Hwf' : wf h') by (by apply handle_loss_wf).
    assert (Hord' : ordered h') by (by apply handle_loss_ordered).
    split; [done|]. split; [done|].
    by apply ordered_anchor_not_after.
Qed.

End RxOrderFacts.

(** ** The statements at concrete inputs *)

Module Instances.

Import TxHist RxHist Examples AsStated.
Import ArithFacts TxFacts RxFacts RttFacts RxOrderFacts.

(** C4: anchor 100, packet 103 without NDP. *)
Lemma new_loss_indicated_int_distance_witness :
  loss_count h_anchor100 = 0 /\ 0 <= 0 < 2 ^ 32 /\
  tfrc_rx_hist_new_loss_indicated h_anchor100 (skb_seq 103) 0
  = (1, mk_hist (ring h_anchor100) 1 0).
Proof.
  assert (Hlc : loss_count h_anchor100 = 0) by reflexivity.
  assert (Hn : 0 <= 0 < 2 ^ 32) by lia.
  split; [exact Hlc|]. split; [exact Hn|].
  pose proof (new_loss_indicated_int_distance h_anchor100 (skb_seq 103) 0
                                              Hlc Hn) as W.
  cbv zeta in W. destruct W as (_ & _ & _ & W).
  apply W; reflexivity.
Defined.

(** C4 as stated fails for a packet one before the last received entry
    (distance 2^48 - 1) and for one 2^32 after it: in both the stated
    test holds, and the call returns 0 with the history unchanged. *)
Lemma new_loss_indicated_wide_distance_cex :
  ~ new_loss_rule h_anchor100 (skb_seq 99) 0 /\
  ~ new_loss_rule h_anchor100 (skb_seq (100 + 2 ^ 32)) 0 /\
  tfrc_rx_hist_new_loss_indicated h_anchor100 (skb_seq 99) 0
  = (0, h_anchor100) /\
  tfrc_rx_hist_new_loss_indicated h_anchor100 (skb_seq (100 + 2 ^ 32)) 0
  = (0, h_anchor100).
Proof.
  split; [|split; [|split]].
  - intros [H _]. assert (Hd : 1 < 2 ^ 48 - 1 /\ 0 < 2 ^ 48 - 1) by lia.
    apply H in Hd. vm_compute in Hd. discriminate.
  - intros [H _]. assert (Hd : 1 < 2 ^ 32 /\ 0 < 2 ^ 32) by lia.
    apply H in Hd. vm_compute in Hd. discriminate.
  - vm_compute. reflexivity.
  - vm_compute. reflexivity.
Qed.

(** C8: three entries pending. *)
Lemma handle_loss_invalid_count_witness :
  loss_count h_three_pending <> 1 /\ loss_count h_three_pending <> 2 /\
  tfrc_rx_handle_loss nat unit lh_count_add h_three_pending 0%nat
                      (skb_seq 110) 0 calc0 tt 0
  = (0, h_three_pending, 0%nat, [EvBugInvalidLossCount 3]).
Proof.
  assert (H1 : loss_count h_three_pending <> 1) by discriminate.
  assert (H2 : loss_count h_three_pending <> 2) by discriminate.
  split; [exact H1|]. split; [exact H2|].
  exact (proj1 (handle_loss_invalid_count nat unit lh_count_add
                  h_three_pending 0%nat (skb_seq 110) 0 calc0 tt 0 H1 H2)).
Defined.

(** C5: the trace from the history with anchor 100 and 103 pending. *)
Lemma reorder_then_resolve_trace_witness :
  0 <= loss_start h_100_103 <= 3 /\ loss_count h_100_103 = 1 /\
  tfrchrx_seqno (tfrc_rx_hist_loss_prev h_100_103) = 100 /\
  tfrchrx_seqno (tfrc_rx_hist_entry h_100_103 1) = 103 /\
  let '(r1, h1, lh1, log1) :=
    tfrc_rx_handle_loss nat unit lh_count_add h_100_103 0%nat
                        (skb_seq 102) 0 calc0 tt 10 in
  let '(r2, h2, lh2, log2) :=
    tfrc_rx_handle_loss nat unit lh_count_add h1 lh1
                        (skb_seq 101) 0 calc0 tt 20 in
  r1 = 0 /\ loss_count h1 = 2 /\ r2 = 0 /\ loss_count h2 = 0 /\
  tfrchrx_seqno (tfrc_rx_hist_loss_prev h2) = 103.
Proof.
  assert (Hls : 0 <= loss_start h_100_103 <= 3) by (simpl; lia).
  split; [exact Hls|]. repeat (split; [reflexivity|]).
  pose proof (reorder_then_resolve_trace nat unit lh_count_add
                h_100_103 0%nat (skb_seq 102) (skb_seq 101) calc0 tt 10 20
                Hls eq_refl eq_refl eq_refl eq_refl eq_refl) as W.
  destruct (tfrc_rx_handle_loss nat unit lh_count_add h_100_103 0%nat
                                (skb_seq 102) 0 calc0 tt 10)
    as [[[r1 h1] lh1] log1].
  destruct (tfrc_rx_handle_loss nat unit lh_count_add h1 lh1
                                (skb_seq 101) 0 calc0 tt 20)
    as [[[r2 h2] lh2] log2].
  destruct W as ((W1 & W2 & _) & _ & (W3 & W4 & W5 & _)).
  repeat split; assumption.
Defined.

(** C7: a candidate is stored whose window counter equals the
    reference entry's, and the packet's delta is 0. *)
Lemma sample_rtt_no_division_fault_witness :
  0 <= DCCP_SANE_RTT_MAX /\
  rtt_sample_prev h_candidate_same_ccval = 2 /\
  tfrc_rx_hist_sample_rtt ktime_to_us DCCP_SANE_RTT_MAX
                          h_candidate_same_ccval (skb_ccval 7 0) 5000
  = Some (0, set_rtt_sample_prev h_candidate_same_ccval 0,
          [EvBugRttSample 0 0]).
Proof.
  assert (Hmax : 0 <= DCCP_SANE_RTT_MAX) by (unfold DCCP_SANE_RTT_MAX; lia).
  split; [exact Hmax|]. split; [reflexivity|].
  pose proof (sample_rtt_no_division_fault ktime_to_us DCCP_SANE_RTT_MAX
                h_candidate_same_ccval (skb_ccval 7 0) 5000 Hmax) as W.
  cbv zeta in W. destruct W as (_ & W & _).
  apply W.
  - reflexivity.
  - left. vm_compute. reflexivity.
  - reflexivity.
Defined.

(** C6: window counters 0 and 4, received 2500 microseconds apart. *)
Lemma sample_rtt_exact_window_witness :
  0 <= DCCP_SANE_RTT_MAX < 2 ^ 32 /\
  exists log,
    tfrc_rx_hist_sample_rtt ktime_to_us DCCP_SANE_RTT_MAX
                            h_ref0 (skb_ccval 1 4) 2500000
    = Some (2500, set_rtt_sample_prev h_ref0 0, log).
Proof.
  assert (Hmax : 0 <= DCCP_SANE_RTT_MAX < 2 ^ 32)
    by (unfold DCCP_SANE_RTT_MAX; lia).
  split; [exact Hmax|].
  pose proof (sample_rtt_exact_window ktime_to_us DCCP_SANE_RTT_MAX
                h_ref0 (skb_ccval 1 4) 2500000 Hmax) as W.
  cbv zeta in W. destruct W as (W & _).
  destruct (W eq_refl) as (sample & log & Hs & _ & _ & He & _).
  exists log. rewrite Hs. f_equal. f_equal. f_equal.
  apply He. vm_compute. split; discriminate.
Defined.

(** C6 as stated fails when more than 2^32 microseconds have passed:
    4294967301 microseconds after the reference entry the sample is 5,
    neither the elapsed time nor the maximum. *)
Lemma sample_rtt_long_gap_cex :
  ktime_to_us (net_timedelta 4294967301000
                             (tfrchrx_tstamp (tfrc_rx_hist_rtt_last_s h_ref0)))
  = 4294967301 /\
  tfrc_rx_hist_sample_rtt ktime_to_us DCCP_SANE_RTT_MAX
                          h_ref0 (skb_ccval 1 4) 4294967301000
  = Some (5, set_rtt_sample_prev h_ref0 0, []) /\
  ~ exact_window_sample ktime_to_us DCCP_SANE_RTT_MAX
                        h_ref0 (skb_ccval 1 4) 4294967301000.
Proof.
  split; [reflexivity|]. split; [vm_compute; reflexivity|].
  intros H. destruct (H eq_refl) as (h' & log & Hs).
  vm_compute in Hs. discriminate.
Qed.

(** C10: a packet two window counters after the reference entry. *)
Lemma sample_rtt_moves_loss_start_witness :
  0 <= loss_start h_ref0 <= 3 /\
  exists sample h' log,
    tfrc_rx_hist_sample_rtt ktime_to_us DCCP_SANE_RTT_MAX
                            h_ref0 (skb_ccval 1 2) 1000
    = Some (sample, h', log) /\
    loss_start h_ref0 = 0 /\ loss_start h' = 2 /\ sample = 0.
Proof.
  assert (Hls : 0 <= loss_start h_ref0 <= 3) by (simpl; lia).
  split; [exact Hls|].
  pose proof (sample_rtt_moves_loss_start ktime_to_us DCCP_SANE_RTT_MAX
                h_ref0 (skb_ccval 1 2) 1000 Hls) as W.
  cbv zeta in W.
  destruct W as (sample & h' & log & Hs & _ & _ & _ & _ & _ & Hd & _).
  exists sample, h', log. split; [exact Hs|]. split; [reflexivity|].
  apply Hd. vm_compute. split; discriminate.
Defined.

(** C9: the chain 3 -> 2 -> 1, looking up sequence number 20 at 5 ms. *)
Lemma tx_hist_rtt_purges_older_witness :
  is_chain (tx_heap tx_mem3) (Some 3%positive) tx_chain3 /\
  (length tx_chain3 <= 3)%nat /\
  exists m',
    tfrc_tx_hist_rtt ktime_to_us 3 tx_mem3 (Some 3%positive) 20 5000000
    = Some (3000, m') /\
    is_chain (tx_heap m') (Some 3%positive)
             [(3%positive, (30, 3000000)); (2%positive, (20, 2000000))] /\
    tx_heap m' !! 1%positive = None.
Proof.
  assert (Hc : is_chain (tx_heap tx_mem3) (Some 3%positive) tx_chain3).
  { split; [reflexivity|]. exists (Some 2%positive). split; [reflexivity|].
    split; [reflexivity|]. exists (Some 1%positive). split; [reflexivity|].
    split; [reflexivity|]. exists None. split; reflexivity. }
  assert (Hfuel : (length tx_chain3 <= 3)%nat) by (simpl; lia).
  split; [exact Hc|]. split; [exact Hfuel|].
  destruct (tx_hist_rtt_purges_older ktime_to_us tx_mem3 (Some 3%positive)
              20 5000000 tx_chain3 3 Hc Hfuel) as [_ W].
  destruct (W [(3%positive, (30, 3000000))] 2%positive 2000000
              [(1%positive, (10, 1000000))] eq_refl)
    as (m' & Hr & _ & Hch & _ & Hfree & _).
  { intros x Hx. apply list_elem_of_singleton in Hx. subst x.
    vm_compute. discriminate. }
  exists m'. split; [exact Hr|]. split; [exact Hch|].
  apply Hfree. apply list_elem_of_singleton. reflexivity.
Defined.

(** C9 as stated fails on that chain: after the lookup the matched
    entry is still allocated and still on the chain, as its last
    object. *)
Lemma tx_hist_rtt_keeps_match_cex :
  (exists m',
      tfrc_tx_hist_rtt ktime_to_us 3 tx_mem3 (Some 3%positive) 20 5000000
      = Some (3000, m') /\
      tx_heap m' !! 2%positive = Some (mk_tx None 20 2000000) /\
      tx_heap m' !! 3%positive = Some (mk_tx (Some 2%positive) 30 3000000)) /\
  ~ rtt_removes_match ktime_to_us 3 tx_mem3 (Some 3%positive) 20 5000000
                      [(3%positive, (30, 3000000))] 2%positive.
Proof.
  split.
  - eexists. split; [vm_compute; reflexivity|].
    split; vm_compute; reflexivity.
  - intros (r & m' & Hr & _ & Hgone).
    vm_compute in Hr. injection Hr as _ <-.
    vm_compute in Hgone. discriminate.
Qed.

(** C2: the handler called on anchor 100 with 103 pending and packet
    102. *)
Lemma loss_count_range_and_kept_order_witness :
  wf h_100_103 /\ ordered h_100_103 /\
  fresh_packet h_100_103 (skb_seq 102) /\
  anchor_not_after
    (tfrc_rx_handle_loss nat unit lh_count_add h_100_103 0%nat
                         (skb_seq 102) 0 calc0 tt 10).1.1.2 = true.
Proof.
  assert (Hwf : wf h_100_103) by (unfold wf; simpl; lia).
  assert (Hord : ordered h_100_103).
  { unfold ordered. change (entry_off h_100_103 1) with 3.
    change (loss_count h_100_103) with 1.
    repeat split; intros; lia. }
  assert (Hfresh : fresh_packet h_100_103 (skb_seq 102)).
  { unfold fresh_packet. change (entry_off h_100_103 1) with 3.
    change (off h_100_103 (dccpd_seq (skb_seq 102))) with 2.
    change (loss_count h_100_103) with 1.
    repeat split; intros; lia. }
  split; [exact Hwf|]. split; [exact Hord|]. split; [exact Hfresh|].
  destruct (loss_count_range_and_kept_order ktime_to_us DCCP_SANE_RTT_MAX
              nat unit lh_count_add) as [_ W].
  exact (proj2 (proj2 (W h_100_103 0%nat (skb_seq 102) 0 calc0 tt 10
                         Hwf Hord Hfresh))).
Defined.

(** C2 as stated fails on a run in which every call is made with
    nothing pending: the sampler moves [loss_start] to slot 1, where an
    older packet (50) is then recorded, and back; the loss flagged for
    packet 103 then exposes that slot as [entry(1)], and the anchor 100
    is after it. *)
Lemma anchor_after_stale_entry_cex :
  (exists h lh,
      rx_run ktime_to_us DCCP_SANE_RTT_MAX nat unit lh_count_add
             ops_stale_slot (tfrc_rx_hist_alloc mem0, 0%nat)
      = Some (h, lh) /\
      loss_count h = 1 /\
      tfrchrx_seqno (tfrc_rx_hist_loss_prev h) = 100 /\
      tfrchrx_seqno (tfrc_rx_hist_entry h 1) = 50 /\
      after48 100 50 = true /\
      anchor_not_after h = false) /\
  ~ rx_invariant ktime_to_us DCCP_SANE_RTT_MAX nat unit lh_count_add
                 mem0 0%nat ops_stale_slot.
Proof.
  split.
  - eexists _, _. split; [vm_compute; reflexivity|].
    repeat split; vm_compute; reflexivity.
  - intros H.
    destruct (H _ _ ltac:(vm_compute; reflexivity)) as [_ Hbad].
    vm_compute in Hbad. discriminate.
Qed.

End Instances.

(** ** Sequence numbers: distances, order, windows *)

Module SeqFacts.

Import DccpSeq ArithFacts.

Lemma DCCP_MAX_SEQNO_eq : DCCP_MAX_SEQNO = 2 ^ 48 - 1.
Proof. reflexivity. Qed.

(** The [u64] difference of two shifted numbers is their distance, shifted. *)
Lemma shl16_diff x y :
  to_u64 (to_u64 (Z.shiftl x 16) - to_u64 (Z.shiftl y 16))
  = dccp_delta_seqno y x * 2 ^ 16.
Proof.
  rewrite dccp_delta_seqno_eq. unfold to_u64, to_unsigned.
  rewrite !Z.shiftl_mul_pow2 by lia.
  rewrite <- Zminus_mod, <- Z.mul_sub_distr_r.
  change (2 ^ 64) with (2 ^ 48 * 2 ^ 16).
  apply Z.mul_mod_distr_r; lia.
Qed.

Lemma before48_delta a b : before48 a b = (2 ^ 47 <=? dccp_delta_seqno b a).
Proof. exact (after48_delta b a). Qed.

Lemma dccp_delta_seqno_opp a b :
  dccp_delta_seqno b a = (- dccp_delta_seqno a b) mod 2 ^ 48.
Proof.
  rewrite !dccp_delta_seqno_eq.
  rewrite <- (Z.sub_0_l ((b - a) mod 2 ^ 48)), Zminus_mod_idemp_r.
  f_equal. lia.
Qed.

Lemma between48_delta x lo hi :
  between48 x lo hi = (dccp_delta_seqno lo x <=? dccp_delta_seqno lo hi).
Proof.
  unfold between48. rewrite !shl16_diff.
  destruct (Z.leb_spec (dccp_delta_seqno lo x) (dccp_delta_seqno lo hi));
    [apply Z.leb_le | apply Z.leb_gt]; nia.
Qed.

(** X1: two 48-bit sequence numbers are at distance 0 exactly when they
    are equal; for arbitrary [u64] values, exactly when they agree in the
    low 48 bits. *)
Theorem dccp_delta_seqno_zero_iff (a b : Z)
        (Ha : 0 <= a < 2 ^ 48) (Hb : 0 <= b < 2 ^ 48) :
  (dccp_delta_seqno a b = 0 <-> a = b) /\
  (forall x y, dccp_delta_seqno x y = 0 <-> x mod 2 ^ 48 = y mod 2 ^ 48).
Proof.
  assert (Hgen : forall x y, dccp_delta_seqno x y = 0
                             <-> x mod 2 ^ 48 = y mod 2 ^ 48).
  { intros x y. rewrite dccp_delta_seqno_eq. split.
    - intros H. apply Z.mod_divide in H; [|lia]. destruct H as [k Hk].
      replace y with (x + k * 2 ^ 48) by lia.
      now rewrite Z.mod_add by lia.
    - intros H. rewrite Zminus_mod, H, Z.sub_diag. reflexivity. }
  split; [|exact Hgen].
  rewrite Hgen, !Z.mod_small by lia. reflexivity.
Qed.

Lemma dccp_delta_seqno_zero_iff_witness :
  0 <= 7 < 2 ^ 48 /\ (dccp_delta_seqno 7 7 = 0 <-> 7 = 7).
Proof.
  assert (H : 0 <= 7 < 2 ^ 48) by lia.
  split; [exact H|].
  exact (proj1 (dccp_delta_seqno_zero_iff 7 7 H H)).
Defined.

(** X2: the distances between two different 48-bit sequence numbers, one
    way and back, add up to 2^48; each lies strictly between 0 and 2^48. *)
Theorem dccp_delta_seqno_round_trip (a b : Z)
        (Ha : 0 <= a < 2 ^ 48) (Hb : 0 <= b < 2 ^ 48) (Hne : a <> b) :
  dccp_delta_seqno a b + dccp_delta_seqno b a = 2 ^ 48 /\
  0 < dccp_delta_seqno a b < 2 ^ 48.
Proof.
  rewrite !dccp_delta_seqno_eq.
  destruct (Z_lt_dec a b).
  - rewrite (Z.mod_small (b - a)) by lia.
    replace (a - b) with (a - b + 2 ^ 48 - 1 * 2 ^ 48) by lia.
    rewrite Zminus_mod, Z_mod_mult, Z.sub_0_r, Z.mod_mod, Z.mod_small by lia.
    lia.
  - rewrite (Z.mod_small (a - b)) by lia.
    replace (b - a) with (b - a + 2 ^ 48 - 1 * 2 ^ 48) by lia.
    rewrite Zminus_mod, Z_mod_mult, Z.sub_0_r, Z.mod_mod, Z.mod_small by lia.
    lia.
Qed.

Lemma dccp_delta_seqno_round_trip_witness :
  dccp_delta_seqno (2 ^ 48 - 1) 2 + dccp_delta_seqno 2 (2 ^ 48 - 1) = 2 ^ 48.
Proof.
  exact (proj1 (dccp_delta_seqno_round_trip (2 ^ 48 - 1) 2
                  ltac:(lia) ltac:(lia) ltac:(lia))).
Defined.

(** X3: how [before48] and [after48] divide the circle.  With [d] the
    distance from [a] to [b]: at [d = 0] neither holds; for [0 < d < 2^47]
    [a] is before [b] and not after it; for [d > 2^47] it is after and
    not before; at the antipode [d = 2^47] both hold. *)
Theorem before48_after48_circle (a b : Z) :
  let d := dccp_delta_seqno a b in
  (d = 0 -> before48 a b = false /\ after48 a b = false) /\
  (0 < d < 2 ^ 47 -> before48 a b = true /\ after48 a b = false) /\
  (d = 2 ^ 47 -> before48 a b = true /\ after48 a b = true) /\
  (2 ^ 47 < d -> before48 a b = false /\ after48 a b = true).
Proof.
  intros d. rewrite before48_delta, after48_delta, dccp_delta_seqno_opp.
  fold d. pose proof (dccp_delta_seqno_range a b) as Hr. fold d in Hr.
  assert (Hopp : d <> 0 -> (- d) mod 2 ^ 48 = 2 ^ 48 - d).
  { intros Hd. replace (- d) with (2 ^ 48 - d - 1 * 2 ^ 48) by lia.
    rewrite Zminus_mod, Z_mod_mult, Z.sub_0_r, Z.mod_mod, Z.mod_small by lia.
    reflexivity. }
  split; [|split; [|split]]; intros Hd.
  - rewrite Hd. split; reflexivity.
  - rewrite Hopp by lia. split; [apply Z.leb_le|apply Z.leb_gt]; lia.
  - rewrite Hopp by lia. split; apply Z.leb_le; lia.
  - rewrite Hopp by lia. split; [apply Z.leb_gt|apply Z.leb_le]; lia.
Qed.

Lemma before48_after48_circle_witness :
  before48 5 (5 + 2 ^ 47) = true /\ after48 5 (5 + 2 ^ 47) = true.
Proof.
  destruct (before48_after48_circle 5 (5 + 2 ^ 47)) as (_ & _ & H & _).
  apply H. vm_compute. reflexivity.
Defined.

(** X4: [between48 x lo hi] holds exactly when [x] is no further from
    [lo] than [hi] is.  Both ends belong to the window; a window whose
    ends coincide contains only that number. *)
Theorem between48_window (x lo hi : Z) :
  between48 x lo hi = (dccp_delta_seqno lo x <=? dccp_delta_seqno lo hi) /\
  between48 lo lo hi = true /\
  between48 hi lo hi = true /\
  (between48 x lo lo = true <-> dccp_delta_seqno lo x = 0).
Proof.
  rewrite !between48_delta, !dccp_delta_seqno_diag.
  pose proof (dccp_delta_seqno_range lo x).
  pose proof (dccp_delta_seqno_range lo hi).
  repeat split.
  - apply Z.leb_le. lia.
  - apply Z.leb_le. lia.
  - intros H1. apply Z.leb_le in H1. lia.
  - intros H1. apply Z.leb_le. lia.
Qed.

(** X5: [max48] returns one of its arguments; the first is never after
    the result, and the second is after it only when the two are
    antipodal (2^47 apart), where each is after the other. *)
Theorem max48_latest (a b : Z) :
  (max48 a b = a \/ max48 a b = b) /\
  after48 a (max48 a b) = false /\
  (after48 b (max48 a b) = true <-> dccp_delta_seqno a b = 2 ^ 47).
Proof.
  unfold max48. rewrite !after48_delta.
  pose proof (dccp_delta_seqno_range a b) as Hr.
  destruct (Z.leb_spec (2 ^ 47) (dccp_delta_seqno a b)) as [Hge|Hlt].
  - rewrite ?after48_delta, ?dccp_delta_seqno_diag.
    split; [now left|]. split; [reflexivity|].
    rewrite (dccp_delta_seqno_opp a b).
    assert (Hopp : (- dccp_delta_seqno a b) mod 2 ^ 48
                   = 2 ^ 48 - dccp_delta_seqno a b).
    { replace (- dccp_delta_seqno a b)
        with (2 ^ 48 - dccp_delta_seqno a b - 1 * 2 ^ 48) by lia.
      rewrite Zminus_mod, Z_mod_mult, Z.sub_0_r, Z.mod_mod, Z.mod_small by lia.
      reflexivity. }
    rewrite Hopp. split.
    + intros H. apply Z.leb_le in H. lia.
    + intros H. apply Z.leb_le. lia.
  - rewrite ?after48_delta, ?dccp_delta_seqno_diag.
    split; [now right|]. split; [apply Z.leb_gt; lia|].
    split; [discriminate|lia].
Qed.

(** X6: incrementing a 48-bit sequence number gives the 48-bit number at
    distance 1, 0 after [DCCP_MAX_SEQNO]; a value that is not a 48-bit
    number is replaced by 0. *)
Theorem dccp_inc_seqno_next (s : Z) (Hs : 0 <= s < 2 ^ 64) :
  (s <= DCCP_MAX_SEQNO ->
   0 <= dccp_inc_seqno s <= DCCP_MAX_SEQNO /\
   dccp_delta_seqno s (dccp_inc_seqno s) = 1 /\
   dccp_inc_seqno s = (s + 1) mod 2 ^ 48) /\
  (DCCP_MAX_SEQNO <= s -> dccp_inc_seqno s = 0).
Proof.
  rewrite DCCP_MAX_SEQNO_eq. unfold dccp_inc_seqno. rewrite DCCP_MAX_SEQNO_eq.
  unfold to_u64, to_unsigned. split.
  - intros Hle. rewrite (Z.mod_small (s + 1) (2 ^ 64)) by lia.
    destruct (Z.ltb_spec (2 ^ 48 - 1) (s + 1)) as [Hw|Hn].
    + assert (s = 2 ^ 48 - 1) by lia. subst s.
      repeat split; try lia; vm_compute; reflexivity.
    + rewrite dccp_delta_seqno_eq, (Z.mod_small (s + 1) (2 ^ 48)) by lia.
      repeat split; try lia.
      replace (s + 1 - s) with 1 by lia. reflexivity.
  - intros Hge.
    destruct (Z.eq_dec s (2 ^ 64 - 1)) as [->|Hne]; [reflexivity|].
    rewrite (Z.mod_small (s + 1) (2 ^ 64)) by lia.
    destruct (Z.ltb_spec (2 ^ 48 - 1) (s + 1)); [reflexivity|lia].
Qed.

Lemma dccp_inc_seqno_next_witness :
  0 <= 2 ^ 48 - 1 < 2 ^ 64 /\ dccp_inc_seqno (2 ^ 48 - 1) = 0.
Proof.
  assert (H : 0 <= 2 ^ 48 - 1 < 2 ^ 64) by lia.
  split; [exact H|].
  apply (proj2 (dccp_inc_seqno_next (2 ^ 48 - 1) H)).
  rewrite DCCP_MAX_SEQNO_eq. lia.
Defined.

(** X7: [dccp_set_seqno] subtracts 2^48 at most once: a value below 2^49
    is reduced to a 48-bit number, a larger one is stored 2^48 smaller
    and still above [DCCP_MAX_SEQNO].  The stored value always agrees
    with the given one in the low 48 bits. *)
Theorem dccp_set_seqno_wraps_once (v : Z) (Hv : 0 <= v < 2 ^ 64) :
  (v < 2 ^ 49 ->
   dccp_set_seqno v = v mod 2 ^ 48 /\ 0 <= dccp_set_seqno v <= DCCP_MAX_SEQNO) /\
  (2 ^ 49 <= v ->
   dccp_set_seqno v = v - 2 ^ 48 /\ DCCP_MAX_SEQNO < dccp_set_seqno v) /\
  dccp_set_seqno v mod 2 ^ 48 = v mod 2 ^ 48.
Proof.
  unfold dccp_set_seqno. rewrite DCCP_MAX_SEQNO_eq.
  change (to_u64 (2 ^ 48 - 1 + 1)) with (2 ^ 48).
  unfold to_u64, to_unsigned.
  destruct (Z.ltb_spec (2 ^ 48 - 1) v) as [Hbig|Hsmall].
  - rewrite (Z.mod_small (v - 2 ^ 48) (2 ^ 64)) by lia.
    assert (Hc : (v - 2 ^ 48) mod 2 ^ 48 = v mod 2 ^ 48).
    { replace (v - 2 ^ 48) with (v + (-1) * 2 ^ 48) by lia.
      apply Z.mod_add. lia. }
    repeat split; try lia.
    + rewrite <- Hc. symmetry. apply Z.mod_small. lia.
  - rewrite Z.mod_small by lia. repeat split; lia.
Qed.

Lemma dccp_set_seqno_wraps_once_witness :
  0 <= 2 ^ 49 < 2 ^ 64 /\ dccp_set_seqno (2 ^ 49) = 2 ^ 49 - 2 ^ 48.
Proof.
  assert (H : 0 <= 2 ^ 49 < 2 ^ 64) by lia.
  split; [exact H|].
  destruct (dccp_set_seqno_wraps_once (2 ^ 49) H) as (_ & W & _).
  apply W. lia.
Defined.

End SeqFacts.

Module WindowFacts.

Import DccpSeq SeqWindow ArithFacts SeqFacts.



























End WindowFacts.

(** ** Transmitter history: adding, purging, and looking up again *)

Module TxChainFacts.

Import TxHist Examples TxFacts.

(** The objects of a chain are live. *)
Lemma is_seg_live (σ : gmap loc tfrc_tx_hist_entry) p c q k :
  is_seg σ p c q → k ∈ c.*1 → is_Some (σ !! k).
Proof.
  revert p. induction c as [|[l [s t]] c IH]; intros p; simpl.
  - intros _ Hk. by apply elem_of_nil in Hk.
  - intros [-> (n & Hl & Hn)] Hk. apply elem_of_cons in Hk as [-> | Hk].
    + by exists (mk_tx n s t).
    + by apply (IH n).
Qed.

Lemma fresh_not_in_chain (σ : gmap loc tfrc_tx_hist_entry) p c q :
  is_seg σ p c q → fresh (dom σ) ∉ c.*1.
Proof.
  intros Hc Hin. destruct (is_seg_live σ p c q _ Hc Hin) as [e He].
  apply (is_fresh (dom σ)). apply elem_of_dom. by exists e.
Qed.

Lemma mem_eta (m : mem) : mk_mem (tx_head m) (tx_heap m) = m.
Proof. by destruct m. Qed.

(** X13: [tfrc_tx_hist_add] on the head variable puts one new object in
    front of the chain, carrying the sequence number (as [u64]) and the
    current time; its address was not live before, the chain behind it
    and every other object are as they were.  When the allocation fails
    the result is [-ENOBUFS] and memory is unchanged, whatever cell is
    passed. *)
Theorem tx_hist_add_prepends (m : mem) (seq now : Z)
        (c : list (loc * (Z * Z)))
        (Hc : is_chain (tx_heap m) (tx_head m) c) :
  (∃ l m',
     tfrc_tx_hist_add m HeadVar seq true now = Some (0, m') ∧
     tx_heap m !! l = None ∧
     tx_head m' = Some l ∧
     is_chain (tx_heap m') (tx_head m') ((l, (to_u64 seq, now)) :: c) ∧
     (∀ k, k ≠ l → tx_heap m' !! k = tx_heap m !! k)) ∧
  (∀ headp, tfrc_tx_hist_add m headp seq false now = Some (- ENOBUFS, m)).
Proof.
  split; [|done].
  exists (fresh (dom (tx_heap m))). eexists. split; [reflexivity|]. simpl.
  split; [apply not_elem_of_dom, is_fresh|]. split; [done|]. split.
  - split; [done|]. exists (tx_head m). split; [apply lookup_insert_eq|].
    apply (is_seg_frame (tx_heap m)); [done|].
    intros k Hk. apply lookup_insert_ne. intros <-.
    by apply (fresh_not_in_chain _ _ _ _ Hc).
  - intros k Hk. by apply lookup_insert_ne.
Qed.

(** X14: [tfrc_tx_hist_purge] on the head variable frees every object
    of the chain, sets the head to [NULL] and touches no other object;
    purging the emptied history again changes nothing. *)
Theorem tx_hist_purge_frees_chain (m : mem) (c : list (loc * (Z * Z)))
        (fuel : nat)
        (Hc : is_chain (tx_heap m) (tx_head m) c)
        (Hfuel : (length c ≤ fuel)%nat) :
  ∃ m',
    tfrc_tx_hist_purge fuel m HeadVar = Some m' ∧
    tx_head m' = None ∧
    (∀ k, k ∈ c.*1 → tx_heap m' !! k = None) ∧
    (∀ k, k ∉ c.*1 → tx_heap m' !! k = tx_heap m !! k) ∧
    (∀ fuel', tfrc_tx_hist_purge fuel' m' HeadVar = Some m').
Proof.
  destruct (purge_loop_chain (tx_heap m) (tx_head m) c fuel)
    as (σ' & Hp & Hfree & Hkeep); [done|by eapply is_chain_NoDup|done|].
  exists (mk_mem None σ'). split.
  { unfold tfrc_tx_hist_purge. simpl. rewrite Hp. done. }
  split; [done|]. split; [done|]. split; [done|].
  intros fuel'. unfold tfrc_tx_hist_purge. simpl. by destruct fuel'.
Qed.

Section Conversion.

Variable ktime_to_us : Z → Z.

(** X15: looking up the packet just added finds it at the head, returns
    the time since it was added (in microseconds, as [u32]), and frees
    the whole chain that was there before: the new object alone
    remains. *)
Theorem tx_hist_add_then_rtt (m : mem) (seq t0 now : Z)
        (c : list (loc * (Z * Z))) (fuel : nat)
        (Hc : is_chain (tx_heap m) (tx_head m) c)
        (Hfuel : (length c ≤ fuel)%nat) :
  ∃ l m1 m2,
    tfrc_tx_hist_add m HeadVar seq true t0 = Some (0, m1) ∧
    tx_head m1 = Some l ∧
    tfrc_tx_hist_rtt ktime_to_us fuel m1 (tx_head m1) seq now
    = Some (to_u32 (ktime_to_us (now - t0)), m2) ∧
    is_chain (tx_heap m2) (tx_head m2) [(l, (to_u64 seq, t0))] ∧
    (∀ k, k ∈ c.*1 → tx_heap m2 !! k = None) ∧
    (∀ k, k ∉ c.*1 → k ≠ l → tx_heap m2 !! k = tx_heap m !! k).
Proof.
  set (l := fresh (dom (tx_heap m))).
  set (σ1 := <[l := mk_tx (tx_head m) (to_u64 seq) t0]> (tx_heap m)).
  assert (Hl : l ∉ c.*1) by (by apply (fresh_not_in_chain _ _ _ _ Hc)).
  assert (Hc1 : is_chain σ1 (tx_head m) c).
  { apply (is_seg_frame (tx_heap m)); [done|].
    intros k Hk. apply lookup_insert_ne. by intros <-. }
  destruct (purge_loop_chain σ1 (tx_head m) c fuel)
    as (σ' & Hp & Hfree & Hkeep); [done|by eapply is_chain_NoDup|done|].
  assert (Hl1 : σ1 !! l = Some (mk_tx (tx_head m) (to_u64 seq) t0))
    by apply lookup_insert_eq.
  exists l, (mk_mem (Some l) σ1),
    (mk_mem (Some l) (<[l := mk_tx None (to_u64 seq) t0]> σ')).
  split; [reflexivity|]. split; [done|]. split.
  { unfold tfrc_tx_hist_rtt. simpl.
    assert (Hf : tfrc_tx_hist_find_entry fuel σ1 (Some l) (to_u64 seq)
                 = Some (Some l)).
    { destruct fuel; simpl; rewrite Hl1; simpl; by rewrite Z.eqb_refl. }
    rewrite Hf. simpl. rewrite Hl1. simpl.
    unfold tfrc_tx_hist_purge. simpl. rewrite Hl1. simpl.
    rewrite Hp. simpl. rewrite (Hkeep l Hl), Hl1. done. }
  simpl. split; [|split].
  - split; [done|]. exists None. split; [apply lookup_insert_eq|done].
  - intros k Hk. rewrite lookup_insert_ne; [by apply Hfree|].
    by intros <-.
  - intros k Hk Hne. rewrite lookup_insert_ne by done.
    rewrite (Hkeep k Hk). by apply lookup_insert_ne.
Qed.

(** X16: a lookup that matches the oldest entry of the chain returns
    the sample and leaves memory exactly as it was: there is nothing
    behind the match to free. *)
Theorem tx_hist_rtt_oldest_keeps_memory
        (m : mem) (head : option loc) (seq now : Z)
        (c1 : list (loc * (Z * Z))) (l : loc) (t : Z) (fuel : nat)
        (Hc : is_chain (tx_heap m) head (c1 ++ [(l, (to_u64 seq, t))]))
        (Hno : no_match (to_u64 seq) c1)
        (Hfuel : (length c1 ≤ fuel)%nat) :
  tfrc_tx_hist_rtt ktime_to_us fuel m head seq now
  = Some (to_u32 (ktime_to_us (now - t)), m).
Proof.
  apply is_seg_app in Hc as (r & H1 & H2). simpl in H2.
  destruct H2 as [-> (n & Hl & ->)].
  unfold tfrc_tx_hist_rtt.
  rewrite (find_entry_first _ _ c1 l None _ t) by done.
  simpl. rewrite Hl. simpl.
  unfold tfrc_tx_hist_purge. simpl. rewrite Hl. simpl.
  assert (Hp : purge_loop fuel (tx_heap m) None = Some (tx_heap m))
    by (by destruct fuel).
  rewrite Hp. simpl. rewrite Hl. simpl.
  rewrite insert_id by done. by rewrite mem_eta.
Qed.

End Conversion.

Lemma tx_chain3_ok : is_chain (tx_heap tx_mem3) (tx_head tx_mem3) tx_chain3.
Proof.
  split; [reflexivity|]. exists (Some 2%positive). split; [reflexivity|].
  split; [reflexivity|]. exists (Some 1%positive). split; [reflexivity|].
  split; [reflexivity|]. exists None. split; reflexivity.
Qed.

Lemma tx_hist_add_prepends_witness :
  ∃ l m',
    tfrc_tx_hist_add tx_mem3 HeadVar 40 true 4000000 = Some (0, m') ∧
    is_chain (tx_heap m') (tx_head m') ((l, (40, 4000000)) :: tx_chain3).
Proof.
  destruct (tx_hist_add_prepends tx_mem3 40 4000000 tx_chain3 tx_chain3_ok)
    as [(l & m' & Ha & _ & _ & Hch & _) _].
  exists l, m'. split; [exact Ha | exact Hch].
Defined.

Lemma tx_hist_purge_frees_chain_witness :
  ∃ m', tfrc_tx_hist_purge 3 tx_mem3 HeadVar = Some m' ∧
        tx_head m' = None ∧ tx_heap m' !! 2%positive = None.
Proof.
  destruct (tx_hist_purge_frees_chain tx_mem3 tx_chain3 3 tx_chain3_ok
              ltac:(simpl; lia))
    as (m' & Hp & Hh & Hfree & _).
  exists m'. split; [exact Hp|]. split; [exact Hh|].
  apply Hfree. vm_compute. apply list_elem_of_further, list_elem_of_here.
Defined.

Lemma tx_hist_add_then_rtt_witness :
  ∃ l m1 m2,
    tfrc_tx_hist_add tx_mem3 HeadVar 40 true 4000000 = Some (0, m1) ∧
    tfrc_tx_hist_rtt ktime_to_us 3 m1 (tx_head m1) 40 4500000
    = Some (to_u32 (ktime_to_us (4500000 - 4000000)), m2) ∧
    is_chain (tx_heap m2) (tx_head m2) [(l, (40, 4000000))].
Proof.
  destruct (tx_hist_add_then_rtt ktime_to_us tx_mem3 40 4000000 4500000
              tx_chain3 3 tx_chain3_ok ltac:(simpl; lia))
    as (l & m1 & m2 & Ha & _ & Hr & Hch & _).
  exists l, m1, m2. split; [exact Ha|]. split; [exact Hr | exact Hch].
Defined.

Lemma tx_hist_rtt_oldest_keeps_memory_witness :
  tfrc_tx_hist_rtt ktime_to_us 3 tx_mem3 (Some 3%positive) 10 5000000
  = Some (to_u32 (ktime_to_us (5000000 - 1000000)), tx_mem3).
Proof.
  apply (tx_hist_rtt_oldest_keeps_memory ktime_to_us tx_mem3
           (Some 3%positive) 10 5000000
           [(3%positive, (30, 3000000)); (2%positive, (20, 2000000))]
           1%positive 1000000 3).
  - exact tx_chain3_ok.
  - intros x Hx. apply elem_of_cons in Hx as [-> | Hx].
    + vm_compute. discriminate.
    + apply list_elem_of_singleton in Hx. subst x. vm_compute. discriminate.
  - simpl. lia.
Defined.

End TxChainFacts.

(** ** Receiver history: the ring as the loss transitions see it *)

Module RxRingFacts.

Import RxHist ArithFacts RxFacts RttFacts RxOrderFacts Examples.

Lemma index_range h n : 0 <= tfrc_rx_hist_index h n <= 3.
Proof.
  unfold tfrc_rx_hist_index.
  pose proof (Z.mod_pos_bound (loss_start h + n) 4 ltac:(lia)). lia.
Qed.

Lemma index_cases h n :
  tfrc_rx_hist_index h n = 0 \/ tfrc_rx_hist_index h n = 1 \/
  tfrc_rx_hist_index h n = 2 \/ tfrc_rx_hist_index h n = 3.
Proof. pose proof (index_range h n). lia. Qed.

Lemma ring_get_set_eq r i e : 0 <= i <= 3 -> ring_get (ring_set r i e) i = e.
Proof.
  intros Hi. assert (Hc : i = 0 \/ i = 1 \/ i = 2 \/ i = 3) by lia.
  destruct Hc as [-> | [-> | [-> | ->]]]; reflexivity.
Qed.

Lemma ring_get_set_ne r i j e :
  0 <= i <= 3 -> 0 <= j <= 3 -> i <> j ->
  ring_get (ring_set r i e) j = ring_get r j.
Proof.
  intros Hi Hj Hne.
  assert (Hc : i = 0 \/ i = 1 \/ i = 2 \/ i = 3) by lia.
  assert (Hd : j = 0 \/ j = 1 \/ j = 2 \/ j = 3) by lia.
  destruct Hc as [-> | [-> | [-> | ->]]];
    destruct Hd as [-> | [-> | [-> | ->]]];
    try reflexivity; contradiction Hne; reflexivity.
Qed.

Lemma index_swap h a b n :
  tfrc_rx_hist_index (tfrc_rx_hist_swap h a b) n = tfrc_rx_hist_index h n.
Proof. reflexivity. Qed.

(** X17: [__three_after_loss] never writes an entry: it moves the
    anchor forward by [k] entries, for some [k] from 1 to 3, and keeps the
    [3 - k] entries behind the new anchor pending.  Every logical entry
    of the result is the entry [k] places further on in the given
    history. *)
Theorem three_after_loss_rotates (h : tfrc_rx_hist) :
  exists k,
    1 <= k <= 3 /\
    ring (__three_after_loss h) = ring h /\
    loss_start (__three_after_loss h) = (loss_start h + k) mod 4 /\
    loss_count (__three_after_loss h) = 3 - k /\
    forall i, tfrc_rx_hist_entry (__three_after_loss h) i
              = tfrc_rx_hist_entry h (i + k).
Proof.
  assert (Hgen : forall k v, 1 <= k <= 3 -> v = 3 - k ->
            let h' := set_loss_count
                        (set_loss_start h (tfrc_rx_hist_index h k)) v in
            ring h' = ring h /\
            loss_start h' = (loss_start h + k) mod 4 /\
            loss_count h' = 3 - k /\
            forall i, tfrc_rx_hist_entry h' i = tfrc_rx_hist_entry h (i + k)).
  { intros k v Hk -> h'. subst h'.
    unfold set_loss_count, set_loss_start, tfrc_rx_hist_entry,
      tfrc_rx_hist_index.
    cbn [ring loss_start loss_count]. rewrite to_unsigned_2_mod4.
    split; [reflexivity|]. split; [reflexivity|]. split.
    - apply to_unsigned_2_small. lia.
    - intros i. f_equal. rewrite Zplus_mod_idemp_l. f_equal. lia. }
  unfold __three_after_loss. cbv zeta.
  destruct (_ || _).
  - destruct (_ || _).
    + exists 3. split; [lia|]. exact (Hgen 3 0 ltac:(lia) eq_refl).
    + exists 2. split; [lia|]. exact (Hgen 2 1 ltac:(lia) eq_refl).
  - exists 1. split; [lia|]. exact (Hgen 1 2 ltac:(lia) eq_refl).
Qed.

(** X18: [tfrc_rx_hist_swap] exchanges the two logical entries and
    leaves every other slot, [loss_count] and [loss_start] alone;
    swapping the same two entries again restores the history. *)
Theorem rx_hist_swap_exchanges (h : tfrc_rx_hist) (a b : Z) :
  let h' := tfrc_rx_hist_swap h a b in
  tfrc_rx_hist_entry h' a = tfrc_rx_hist_entry h b /\
  tfrc_rx_hist_entry h' b = tfrc_rx_hist_entry h a /\
  (forall i, tfrc_rx_hist_index h i <> tfrc_rx_hist_index h a ->
             tfrc_rx_hist_index h i <> tfrc_rx_hist_index h b ->
             tfrc_rx_hist_entry h' i = tfrc_rx_hist_entry h i) /\
  loss_count h' = loss_count h /\ loss_start h' = loss_start h /\
  tfrc_rx_hist_swap h' a b = h.
Proof.
  intros h'. subst h'.
  pose proof (index_range h a) as Ha. pose proof (index_range h b) as Hb.
  unfold tfrc_rx_hist_entry. rewrite !index_swap.
  assert (Hidx : forall i, ring_get (ring (tfrc_rx_hist_swap h a b)) i
            = ring_get (ring_set (ring_set (ring h) (tfrc_rx_hist_index h a)
                                   (ring_get (ring h) (tfrc_rx_hist_index h b)))
                                 (tfrc_rx_hist_index h b)
                                 (ring_get (ring h) (tfrc_rx_hist_index h a))) i)
    by reflexivity.
  rewrite !Hidx.
  assert (Hinv : forall r ia ib, 0 <= ia <= 3 -> 0 <= ib <= 3 ->
            let r1 := ring_set (ring_set r ia (ring_get r ib)) ib
                               (ring_get r ia) in
            ring_set (ring_set r1 ia (ring_get r1 ib)) ib (ring_get r1 ia)
            = r).
  { intros [e0 e1 e2 e3] ia ib Hia Hib.
    assert (Hc : ia = 0 \/ ia = 1 \/ ia = 2 \/ ia = 3) by lia.
    assert (Hd : ib = 0 \/ ib = 1 \/ ib = 2 \/ ib = 3) by lia.
    destruct Hc as [-> | [-> | [-> | ->]]];
      destruct Hd as [-> | [-> | [-> | ->]]]; reflexivity. }
  split.
  { destruct (Z.eq_dec (tfrc_rx_hist_index h a) (tfrc_rx_hist_index h b))
      as [E|E].
    - rewrite E. apply ring_get_set_eq; lia.
    - rewrite ring_get_set_ne by (lia || congruence).
      apply ring_get_set_eq; lia. }
  split; [apply ring_get_set_eq; lia|].
  split.
  { intros i Hia Hib. pose proof (index_range h i).
    rewrite ?index_swap, Hidx.
    rewrite !ring_get_set_ne by (lia || congruence). reflexivity. }
  split; [reflexivity|]. split; [reflexivity|].
  unfold tfrc_rx_hist_swap at 1. cbv zeta. rewrite !index_swap.
  cbn [loss_count loss_start].
  replace (ring (tfrc_rx_hist_swap h a b))
    with (ring_set (ring_set (ring h) (tfrc_rx_hist_index h a)
                             (ring_get (ring h) (tfrc_rx_hist_index h b)))
                   (tfrc_rx_hist_index h b)
                   (ring_get (ring h) (tfrc_rx_hist_index h a)))
    by reflexivity.
  rewrite (Hinv (ring h) _ _ Ha Hb). destruct h; reflexivity.
Qed.

(** *** The shapes the loss transitions give the ring *)

Ltac ring_brute h Hls :=
  let lc := fresh "lc" in let ls := fresh "ls" in
  destruct h as [[? ? ? ?] lc ls]; cbn [loss_start] in Hls;
  let Hc := fresh "Hc" in
  assert (Hc : ls = 0 \/ ls = 1 \/ ls = 2 \/ ls = 3) by lia;
  destruct Hc as [-> | [-> | [-> | ->]]];
  repeat split; reflexivity.

(** The packet becomes the entry behind the [v - 1] tracked ones. *)
Lemma shape_append2 h new :
  0 <= loss_start h <= 3 ->
  let h1 := set_loss_count h 2 in
  let h' := write_entry h1 (tfrc_rx_hist_index h1 2) new in
  loss_count h' = 2 /\
  tfrc_rx_hist_entry h' 0 = tfrc_rx_hist_entry h 0 /\
  tfrc_rx_hist_entry h' 1 = tfrc_rx_hist_entry h 1 /\
  tfrc_rx_hist_entry h' 2 = new.
Proof. intros Hls. ring_brute h Hls. Qed.

Lemma shape_append3 h new :
  0 <= loss_start h <= 3 ->
  let h1 := set_loss_count h 3 in
  let h' := write_entry h1 (tfrc_rx_hist_index h1 3) new in
  loss_count h' = 3 /\
  tfrc_rx_hist_entry h' 0 = tfrc_rx_hist_entry h 0 /\
  tfrc_rx_hist_entry h' 1 = tfrc_rx_hist_entry h 1 /\
  tfrc_rx_hist_entry h' 2 = tfrc_rx_hist_entry h 2 /\
  tfrc_rx_hist_entry h' 3 = new.
Proof. intros Hls. ring_brute h Hls. Qed.

(** The packet replaces the anchor. *)
Lemma shape_replace_anchor h new :
  0 <= loss_start h <= 3 ->
  let h' := write_entry h (tfrc_rx_hist_index h 0) new in
  loss_count h' = loss_count h /\
  tfrc_rx_hist_entry h' 0 = new /\
  tfrc_rx_hist_entry h' 1 = tfrc_rx_hist_entry h 1 /\
  tfrc_rx_hist_entry h' 2 = tfrc_rx_hist_entry h 2.
Proof. intros Hls. ring_brute h Hls. Qed.

(** The packet is put between the anchor and the tracked entries. *)
Lemma shape_insert_front h new v :
  0 <= loss_start h <= 3 -> 0 <= v <= 3 ->
  let h1 := tfrc_rx_hist_swap h 0 3 in
  let h2 := set_loss_start h1 (tfrc_rx_hist_index h1 3) in
  let h3 := write_entry h2 (tfrc_rx_hist_index h2 1) new in
  let h' := set_loss_count h3 v in
  loss_count h' = v /\
  tfrc_rx_hist_entry h' 0 = tfrc_rx_hist_entry h 0 /\
  tfrc_rx_hist_entry h' 1 = new /\
  tfrc_rx_hist_entry h' 2 = tfrc_rx_hist_entry h 1 /\
  tfrc_rx_hist_entry h' 3 = tfrc_rx_hist_entry h 2.
Proof.
  intros Hls Hv.
  assert (Hc : v = 0 \/ v = 1 \/ v = 2 \/ v = 3) by lia.
  destruct Hc as [-> | [-> | [-> | ->]]]; ring_brute h Hls.
Qed.

(** The packet is put between the two tracked entries. *)
Lemma shape_insert_mid h new :
  0 <= loss_start h <= 3 ->
  let h1 := tfrc_rx_hist_swap h 2 3 in
  let h2 := write_entry h1 (tfrc_rx_hist_index h1 2) new in
  let h' := set_loss_count h2 3 in
  loss_count h' = 3 /\
  tfrc_rx_hist_entry h' 0 = tfrc_rx_hist_entry h 0 /\
  tfrc_rx_hist_entry h' 1 = tfrc_rx_hist_entry h 1 /\
  tfrc_rx_hist_entry h' 2 = new /\
  tfrc_rx_hist_entry h' 3 = tfrc_rx_hist_entry h 2.
Proof. intros Hls. ring_brute h Hls. Qed.

(** The anchor moves on to a tracked entry; nothing is written. *)
Lemma shape_advance h k v :
  0 <= loss_start h <= 3 -> 1 <= k <= 3 -> 0 <= v <= 3 ->
  let h1 := set_loss_count (set_loss_start h (tfrc_rx_hist_index h k)) v in
  let h2 := set_loss_start (set_loss_count h v)
                           (tfrc_rx_hist_index (set_loss_count h v) k) in
  h2 = h1 /\ loss_count h1 = v /\ ring h1 = ring h /\
  tfrc_rx_hist_entry h1 0 = tfrc_rx_hist_entry h k /\
  tfrc_rx_hist_entry h1 1 = tfrc_rx_hist_entry h (k + 1).
Proof.
  intros Hls Hk Hv.
  assert (Hc : v = 0 \/ v = 1 \/ v = 2 \/ v = 3) by lia.
  assert (Hd : k = 1 \/ k = 2 \/ k = 3) by lia.
  destruct Hc as [-> | [-> | [-> | ->]]];
    destruct Hd as [-> | [-> | ->]]; ring_brute h Hls.
Qed.

(** *** The distances the transitions compute, from the anchor *)

Lemma int_distance_from_anchor h x y :
  - 2 ^ 31 <= off h y - off h x < 2 ^ 31 ->
  to_int (dccp_delta_seqno x y) = off h y - off h x.
Proof. intros Hr. unfold off in *. by apply to_int_delta_base. Qed.

Lemma int_distance_to_packet h x seq :
  - 2 ^ 31 <= off h seq - off h x < 2 ^ 31 ->
  to_int (dccp_delta_seqno x (to_u64 seq)) = off h seq - off h x.
Proof.
  intros Hr. rewrite dccp_delta_seqno_u64_r.
  by apply int_distance_from_anchor.
Qed.

Lemma int_offset_of_packet h seq :
  off h seq < 2 ^ 31 ->
  to_int (dccp_delta_seqno (tfrchrx_seqno (tfrc_rx_hist_loss_prev h))
                           (to_u64 seq)) = off h seq.
Proof.
  intros Hr. rewrite dccp_delta_seqno_u64_r. fold (off h seq).
  pose proof (dccp_delta_seqno_range
                (tfrchrx_seqno (tfrc_rx_hist_loss_prev h)) seq) as Hb.
  fold (off h seq) in Hb. apply to_int_small. lia.
Qed.

Lemma hole_test_u32 d n :
  0 <= d < 2 ^ 31 -> 0 <= n < 2 ^ 32 ->
  ((d =? 1) || (to_u32 d <=? to_u32 n) = true <-> d = 1 \/ d <= n).
Proof.
  intros Hd Hn. rewrite !to_u32_small by lia.
  rewrite orb_true_iff, Z.eqb_eq, Z.leb_le. tauto.
Qed.

Lemma hole_test_int d n :
  ((d =? 1) || (d <=? n) = true <-> d = 1 \/ d <= n).
Proof. rewrite orb_true_iff, Z.eqb_eq, Z.leb_le. tauto. Qed.

Lemma bool_of_iff (b : bool) (P : Prop) :
  (b = true <-> P) -> (P -> b = true) /\ (~ P -> b = false).
Proof. destruct b; intuition congruence. Qed.

(** X21: what [__one_after_loss] does, seen through the logical entries,
    when called as its comment expects (one entry pending after the
    anchor, the packet after the anchor and not the pending one, all
    less than 2^31 away).  With [p] and [e1] the distances of the packet
    and of the pending entry from the anchor: a packet after the pending
    entry is appended as second pending entry; a packet before it that
    leaves a hole behind the anchor is put in front of it, again two
    pending; a packet that closes the hole behind the anchor becomes the
    anchor, unless the hole up to the pending entry is closed as well, in
    which case the pending entry becomes the anchor and nothing is
    pending. *)
Theorem one_after_loss_table
        (h : tfrc_rx_hist) (skb : sk_buff) (n2 now : Z)
        (Hwf : wf h) (Hlc : loss_count h = 1)
        (Hord : ordered h) (Hfresh : fresh_packet h skb)
        (Hn2 : 0 <= n2 < 2 ^ 32) :
  let p := off h (dccpd_seq skb) in
  let e1 := entry_off h 1 in
  let n1 := to_int (tfrchrx_ndp (tfrc_rx_hist_entry h 1)) in
  let new := tfrc_rx_hist_entry_from_skb skb n2 now in
  let h' := __one_after_loss h skb n2 now in
  (e1 < p ->
   loss_count h' = 2 /\
   tfrc_rx_hist_entry h' 0 = tfrc_rx_hist_entry h 0 /\
   tfrc_rx_hist_entry h' 1 = tfrc_rx_hist_entry h 1 /\
   tfrc_rx_hist_entry h' 2 = new) /\
  (p < e1 -> ~ (p = 1 \/ p <= n2) ->
   loss_count h' = 2 /\
   tfrc_rx_hist_entry h' 0 = tfrc_rx_hist_entry h 0 /\
   tfrc_rx_hist_entry h' 1 = new /\
   tfrc_rx_hist_entry h' 2 = tfrc_rx_hist_entry h 1) /\
  (p < e1 -> p = 1 \/ p <= n2 -> e1 - p = 1 \/ e1 - p <= n1 ->
   loss_count h' = 0 /\ ring h' = ring h /\
   tfrc_rx_hist_entry h' 0 = tfrc_rx_hist_entry h 1) /\
  (p < e1 -> p = 1 \/ p <= n2 -> ~ (e1 - p = 1 \/ e1 - p <= n1) ->
   loss_count h' = 1 /\
   tfrc_rx_hist_entry h' 0 = new /\
   tfrc_rx_hist_entry h' 1 = tfrc_rx_hist_entry h 1).
Proof.
  intros p e1 n1 new h'.
  destruct Hwf as [_ Hls].
  destruct Hord as (Ho1 & _). specialize (Ho1 ltac:(lia)). fold e1 in Ho1.
  destruct Hfresh as (Hp & Hne & _). specialize (Hne ltac:(lia)).
  fold p in Hp. fold e1 p in Hne.
  assert (F1 : to_int (dccp_delta_seqno
                         (tfrchrx_seqno (tfrc_rx_hist_entry h 1))
                         (to_u64 (dccpd_seq skb))) = p - e1).
  { apply int_distance_to_packet. fold p. fold (entry_off h 1). fold e1. lia. }
  assert (F2 : to_int (dccp_delta_seqno
                         (tfrchrx_seqno (tfrc_rx_hist_loss_prev h))
                         (to_u64 (dccpd_seq skb))) = p).
  { apply int_offset_of_packet. fold p. lia. }
  assert (F3 : to_int (- (p - e1)) = e1 - p).
  { rewrite to_int_small by lia. lia. }
  subst h'. unfold __one_after_loss. cbv zeta.
  rewrite F1, F2, F3. fold n1. fold new.
  destruct (bool_of_iff _ _ (hole_test_u32 p n2 ltac:(lia) Hn2)) as [T0 N0].
  destruct (bool_of_iff _ _ (hole_test_int (e1 - p) n1)) as [T1 N1].
  split; [|split; [|split]].
  - intros Hlt. destruct (Z.ltb_spec 0 (p - e1)); [|lia].
    apply shape_append2. exact Hls.
  - intros Hlt Hn. destruct (Z.ltb_spec 0 (p - e1)); [lia|].
    rewrite (N0 Hn).
    destruct (shape_insert_front h new 2 Hls ltac:(lia))
      as (A & B & C & D & _).
    auto.
  - intros Hlt Hf0 Hf1. destruct (Z.ltb_spec 0 (p - e1)); [lia|].
    rewrite (T0 Hf0), (T1 Hf1).
    destruct (shape_advance h 1 0 Hls ltac:(lia) ltac:(lia))
      as (E & A & B & C & _).
    cbv zeta in E. rewrite E. auto.
  - intros Hlt Hf0 Hn1. destruct (Z.ltb_spec 0 (p - e1)); [lia|].
    rewrite (T0 Hf0), (N1 Hn1).
    destruct (shape_replace_anchor h new Hls) as (A & B & C & _).
    rewrite A, Hlc. auto.
Qed.

(** X22: what [__two_after_loss] does, seen through the logical
    entries, when called as its comment expects (two entries pending in
    order after the anchor, the packet after the anchor and neither of
    them).  A packet after the first pending entry is sorted in behind
    or between the pending ones and a loss is signalled with three
    pending; so is a packet before both that leaves a hole behind the
    anchor.  A packet that closes the hole behind the anchor signals
    nothing: it becomes the anchor, or, when the hole up to the first
    pending entry is closed too, the anchor moves on to the first
    pending entry, or to the second when there is no hole between the
    pending ones either. *)
Theorem two_after_loss_table
        (h : tfrc_rx_hist) (skb : sk_buff) (n3 now : Z)
        (Hwf : wf h) (Hlc : loss_count h = 2)
        (Hord : ordered h) (Hfresh : fresh_packet h skb)
        (Hn3 : 0 <= n3 < 2 ^ 32) :
  let p := off h (dccpd_seq skb) in
  let e1 := entry_off h 1 in
  let e2 := entry_off h 2 in
  let n1 := to_int (tfrchrx_ndp (tfrc_rx_hist_entry h 1)) in
  let n2 := to_int (tfrchrx_ndp (tfrc_rx_hist_entry h 2)) in
  let new := tfrc_rx_hist_entry_from_skb skb n3 now in
  let r := (__two_after_loss h skb n3 now).1 in
  let h' := (__two_after_loss h skb n3 now).2 in
  (e2 < p ->
   r = 1 /\ loss_count h' = 3 /\
   tfrc_rx_hist_entry h' 0 = tfrc_rx_hist_entry h 0 /\
   tfrc_rx_hist_entry h' 1 = tfrc_rx_hist_entry h 1 /\
   tfrc_rx_hist_entry h' 2 = tfrc_rx_hist_entry h 2 /\
   tfrc_rx_hist_entry h' 3 = new) /\
  (e1 < p < e2 ->
   r = 1 /\ loss_count h' = 3 /\
   tfrc_rx_hist_entry h' 0 = tfrc_rx_hist_entry h 0 /\
   tfrc_rx_hist_entry h' 1 = tfrc_rx_hist_entry h 1 /\
   tfrc_rx_hist_entry h' 2 = new /\
   tfrc_rx_hist_entry h' 3 = tfrc_rx_hist_entry h 2) /\
  (p < e1 -> ~ (p = 1 \/ p <= n3) ->
   r = 1 /\ loss_count h' = 3 /\
   tfrc_rx_hist_entry h' 0 = tfrc_rx_hist_entry h 0 /\
   tfrc_rx_hist_entry h' 1 = new /\
   tfrc_rx_hist_entry h' 2 = tfrc_rx_hist_entry h 1 /\
   tfrc_rx_hist_entry h' 3 = tfrc_rx_hist_entry h 2) /\
  (p < e1 -> p = 1 \/ p <= n3 -> ~ (e1 - p = 1 \/ e1 - p <= n1) ->
   r = 0 /\ loss_count h' = 2 /\
   tfrc_rx_hist_entry h' 0 = new /\
   tfrc_rx_hist_entry h' 1 = tfrc_rx_hist_entry h 1 /\
   tfrc_rx_hist_entry h' 2 = tfrc_rx_hist_entry h 2) /\
  (p < e1 -> p = 1 \/ p <= n3 -> e1 - p = 1 \/ e1 - p <= n1 ->
   e2 - e1 = 1 \/ e2 - e1 <= n2 ->
   r = 0 /\ loss_count h' = 0 /\ ring h' = ring h /\
   tfrc_rx_hist_entry h' 0 = tfrc_rx_hist_entry h 2) /\
  (p < e1 -> p = 1 \/ p <= n3 -> e1 - p = 1 \/ e1 - p <= n1 ->
   ~ (e2 - e1 = 1 \/ e2 - e1 <= n2) ->
   r = 0 /\ loss_count h' = 1 /\ ring h' = ring h /\
   tfrc_rx_hist_entry h' 0 = tfrc_rx_hist_entry h 1 /\
   tfrc_rx_hist_entry h' 1 = tfrc_rx_hist_entry h 2).
Proof.
  intros p e1 e2 n1 n2 new r h'.
  destruct Hwf as [_ Hls].
  destruct Hord as (Ho1 & Ho2 & _).
  specialize (Ho1 ltac:(lia)). specialize (Ho2 ltac:(lia)).
  fold e1 in Ho1. fold e1 e2 in Ho2.
  destruct Hfresh as (Hp & Hne1 & Hne2 & _).
  specialize (Hne1 ltac:(lia)). specialize (Hne2 ltac:(lia)).
  fold p in Hp. fold e1 p in Hne1. fold e2 p in Hne2.
  assert (F23 : to_int (dccp_delta_seqno
                          (tfrchrx_seqno (tfrc_rx_hist_entry h 2))
                          (to_u64 (dccpd_seq skb))) = p - e2).
  { apply int_distance_to_packet. fold p. fold (entry_off h 2). fold e2. lia. }
  assert (F13 : to_int (dccp_delta_seqno
                          (tfrchrx_seqno (tfrc_rx_hist_entry h 1))
                          (to_u64 (dccpd_seq skb))) = p - e1).
  { apply int_distance_to_packet. fold p. fold (entry_off h 1). fold e1. lia. }
  assert (F3 : to_int (dccp_delta_seqno
                         (tfrchrx_seqno (tfrc_rx_hist_loss_prev h))
                         (to_u64 (dccpd_seq skb))) = p).
  { apply int_offset_of_packet. fold p. lia. }
  assert (F31 : to_int (- (p - e1)) = e1 - p).
  { rewrite to_int_small by lia. lia. }
  assert (F12 : to_int (dccp_delta_seqno
                          (tfrchrx_seqno (tfrc_rx_hist_entry h 1))
                          (tfrchrx_seqno (tfrc_rx_hist_entry h 2)))
                = e2 - e1).
  { apply int_distance_from_anchor.
    fold (entry_off h 1). fold (entry_off h 2). fold e1 e2. lia. }
  subst r h'. unfold __two_after_loss. cbv zeta.
  rewrite F23, F13, F3, F31, F12. fold n1. fold n2. fold new.
  destruct (bool_of_iff _ _ (hole_test_u32 p n3 ltac:(lia) Hn3)) as [T0 N0].
  destruct (bool_of_iff _ _ (hole_test_int (e1 - p) n1)) as [T1 N1].
  destruct (bool_of_iff _ _ (hole_test_int (e2 - e1) n2)) as [T2 N2].
  split; [|split; [|split; [|split; [|split]]]].
  - intros Hlt. destruct (Z.ltb_spec 0 (p - e2)); [|lia].
    cbn [fst snd]. split; [reflexivity|]. apply shape_append3. exact Hls.
  - intros Hlt. destruct (Z.ltb_spec 0 (p - e2)); [lia|].
    destruct (Z.ltb_spec 0 (p - e1)); [|lia].
    cbn [fst snd]. split; [reflexivity|]. apply shape_insert_mid. exact Hls.
  - intros Hlt Hn. destruct (Z.ltb_spec 0 (p - e2)); [lia|].
    destruct (Z.ltb_spec 0 (p - e1)); [lia|].
    rewrite (N0 Hn). cbn [fst snd]. split; [reflexivity|].
    apply shape_insert_front; [exact Hls | lia].
  - intros Hlt Hf0 Hn1. destruct (Z.ltb_spec 0 (p - e2)); [lia|].
    destruct (Z.ltb_spec 0 (p - e1)); [lia|].
    rewrite (T0 Hf0), (N1 Hn1). cbn [fst snd]. split; [reflexivity|].
    destruct (shape_replace_anchor h new Hls) as (A & B & C & D).
    rewrite A, Hlc. auto.
  - intros Hlt Hf0 Hf1 Hf2. destruct (Z.ltb_spec 0 (p - e2)); [lia|].
    destruct (Z.ltb_spec 0 (p - e1)); [lia|].
    rewrite (T0 Hf0), (T1 Hf1), (T2 Hf2). cbn [fst snd].
    split; [reflexivity|].
    destruct (shape_advance h 2 0 Hls ltac:(lia) ltac:(lia))
      as (_ & A & B & C & _).
    auto.
  - intros Hlt Hf0 Hf1 Hn2. destruct (Z.ltb_spec 0 (p - e2)); [lia|].
    destruct (Z.ltb_spec 0 (p - e1)); [lia|].
    rewrite (T0 Hf0), (T1 Hf1), (N2 Hn2). cbn [fst snd].
    split; [reflexivity|].
    destruct (shape_advance h 1 1 Hls ltac:(lia) ltac:(lia))
      as (_ & A & B & C & D).
    auto.
Qed.

End RxRingFacts.

(** ** Receiver history: pending counts, duplicates, sample bounds *)

Module RxCountFacts.

Import RxHist ArithFacts RxFacts RttFacts RxOrderFacts RxRingFacts.
Import Examples RxExamples.

Ltac count_simpl :=
  unfold set_rtt_sample_prev, set_loss_count, set_loss_start, write_entry,
    tfrc_rx_hist_swap, tfrc_rx_hist_loss_indicated in *;
  cbn [loss_count loss_start ring fst snd] in *;
  rewrite ?(to_unsigned_2_small 0), ?(to_unsigned_2_small 1),
    ?(to_unsigned_2_small 2), ?(to_unsigned_2_small 3) in * by lia.

Lemma one_after_loss_count h skb n2 now :
  loss_count h = 1 -> 0 <= loss_count (__one_after_loss h skb n2 now) <= 2.
Proof.
  intros Hlc. unfold __one_after_loss. cbv zeta.
  split_ifs; count_simpl; lia.
Qed.

Lemma two_after_loss_count h skb n3 now :
  loss_count h = 2 ->
  ((__two_after_loss h skb n3 now).1 = 0 /\
   0 <= loss_count (__two_after_loss h skb n3 now).2 <= 2) \/
  (__two_after_loss h skb n3 now).1 = 1.
Proof.
  intros Hlc. unfold __two_after_loss. cbv zeta.
  split_ifs; count_simpl; (right; reflexivity) || (left; lia).
Qed.

Lemma three_after_loss_count h :
  0 <= loss_count (__three_after_loss h) <= 2.
Proof.
  unfold __three_after_loss. cbv zeta. split_ifs; count_simpl; lia.
Qed.

Lemma new_loss_indicated_fields h skb ndp :
  let r := (tfrc_rx_hist_new_loss_indicated h skb ndp).1 in
  let h' := (tfrc_rx_hist_new_loss_indicated h skb ndp).2 in
  r = loss_count h' /\ ring h' = ring h /\ loss_start h' = loss_start h /\
  (loss_count h' = loss_count h \/ loss_count h' = 1).
Proof.
  unfold tfrc_rx_hist_new_loss_indicated. cbv zeta.
  split_ifs; count_simpl; auto.
Qed.

Section Collaborators.

Variable ktime_to_us : Z -> Z.
Variable DCCP_SANE_RTT_MAX : Z.
Variable tfrc_loss_hist : Type.
Variable sock : Type.
Variable tfrc_lh_interval_add :
  tfrc_loss_hist -> tfrc_rx_hist -> (sock -> Z) -> sock -> Z * tfrc_loss_hist.

Local Abbreviation handle_loss :=
  (tfrc_rx_handle_loss tfrc_loss_hist sock tfrc_lh_interval_add).
Local Abbreviation sample_rtt :=
  (tfrc_rx_hist_sample_rtt ktime_to_us DCCP_SANE_RTT_MAX).
Local Abbreviation step :=
  (rx_step ktime_to_us DCCP_SANE_RTT_MAX tfrc_loss_hist sock
           tfrc_lh_interval_add).
Local Abbreviation run :=
  (rx_run ktime_to_us DCCP_SANE_RTT_MAX tfrc_loss_hist sock
          tfrc_lh_interval_add).

Lemma handle_loss_count h lh skb ndp calc_first_li sk now :
  0 <= loss_count h <= 2 ->
  0 <= loss_count (handle_loss h lh skb ndp calc_first_li sk now).1.1.2 <= 2.
Proof.
  intros Hlc. unfold tfrc_rx_handle_loss.
  destruct (Z.eqb_spec (loss_count h) 1) as [E1|E1].
  { by apply one_after_loss_count. }
  destruct (Z.eqb_spec (loss_count h) 2) as [E2|E2]; cbn [negb];
    [|exact Hlc].
  pose proof (two_after_loss_count h skb ndp now E2) as H2.
  pose proof (two_after_loss_signal h skb ndp now) as Hsig.
  destruct (__two_after_loss h skb ndp now) as [r h1]. cbn [fst snd] in H2.
  destruct H2 as [[-> H2] | ->]; cbn [Z.eqb negb].
  - exact H2.
  - destruct (tfrc_lh_interval_add lh h1 calc_first_li sk) as [r1 lh1].
    cbn [fst snd]. apply three_after_loss_count.
Qed.

Lemma sample_rtt_keeps_count h skb now s h' log :
  sample_rtt h skb now = Some (s, h', log) ->
  loss_count h' = loss_count h /\ ring h' = ring h.
Proof.
  unfold tfrc_rx_hist_sample_rtt, sample_rtt_select, c_div.
  repeat (split_ifs; cbn [mbind option_bind]);
    (intros [= <- <- <-] || intros [=]); count_simpl; auto.
Qed.

Lemma rx_step_count h lh op :
  0 <= loss_count h <= 2 ->
  exists h' lh', step (h, lh) op = Some (h', lh') /\
                 0 <= loss_count h' <= 2.
Proof.
  intros Hlc.
  destruct op as [skb ndp now|skb|skb ndp|skb ndp c sk now|skb now];
    unfold rx_step; cbv beta iota zeta.
  - eexists _, _. split; [reflexivity|]. exact Hlc.
  - eexists _, _. split; [reflexivity|]. exact Hlc.
  - eexists _, _. split; [reflexivity|].
    destruct (new_loss_indicated_fields h skb ndp) as (_ & _ & _ & Hc).
    cbv zeta in Hc. lia.
  - pose proof (handle_loss_count h lh skb ndp c sk now Hlc) as H.
    destruct (handle_loss h lh skb ndp c sk now) as [[[r h1] lh1] log].
    eexists _, _. split; [reflexivity|]. exact H.
  - destruct (sample_rtt_total ktime_to_us
                DCCP_SANE_RTT_MAX h skb now) as [[[s h1] log] Hs].
    rewrite Hs. cbn [mbind option_bind]. eexists _, _. split; [reflexivity|].
    destruct (sample_rtt_keeps_count h skb now s h1 log Hs) as [-> _].
    exact Hlc.
Qed.

(** X20: between calls at most two entries are pending.  From a history
    with [loss_count] at most 2, and so from a freshly allocated one,
    every sequence of operations returns and leaves [loss_count] at most
    2: three pending entries exist only inside the loss handler, between
    [__two_after_loss] and [__three_after_loss]. *)
Theorem loss_count_at_most_two
        (ops : list (rx_op sock)) (h : tfrc_rx_hist) (lh : tfrc_loss_hist)
        (Hlc : 0 <= loss_count h <= 2) :
  exists h' lh', run ops (h, lh) = Some (h', lh') /\
                 0 <= loss_count h' <= 2.
Proof.
  revert h lh Hlc.
  induction ops as [|op ops IH]; intros h lh Hlc; cbn [rx_run].
  - by eexists _, _.
  - destruct (rx_step_count h lh op Hlc) as (h1 & lh1 & -> & Hlc1).
    cbn [mbind option_bind]. by apply IH.
Qed.

Lemma to_u32_nonneg z : 0 <= to_u32 z.
Proof.
  unfold to_u32, to_unsigned.
  pose proof (Z.mod_pos_bound z (2 ^ 32) ltac:(lia)). lia.
Qed.

(** The selection step yields a [u32] and never warns. *)
Lemma sample_rtt_select_sample h skb now s h1 log k :
  sample_rtt_select ktime_to_us h skb now = Some (s, h1, log, k) ->
  0 <= s /\ forall v, EvWarnRttTooLarge v ∉ log.
Proof.
  unfold sample_rtt_select, c_div.
  repeat (split_ifs; cbn [mbind option_bind]);
    (intros [= <- <- <- <-] || intros [=]);
    (split;
     [ try lia; apply to_u32_nonneg
     | intros v Hv;
       repeat match goal with
              | H : _ ∈ [] |- _ => apply elem_of_nil in H; contradiction
              | H : _ ∈ [_] |- _ =>
                  apply list_elem_of_singleton in H; discriminate H
              end ]).
Qed.

(** X23: with a bound that fits [u32], every sample the function
    returns lies between 0 and [DCCP_SANE_RTT_MAX]; a warning is
    reported only for a raw sample above the bound, and the result is
    then the bound itself. *)
Theorem sample_rtt_bounded
        (h : tfrc_rx_hist) (skb : sk_buff) (now : Z)
        (Hmax : 0 <= DCCP_SANE_RTT_MAX < 2 ^ 32) :
  exists s h' log,
    sample_rtt h skb now = Some (s, h', log) /\
    0 <= s <= DCCP_SANE_RTT_MAX /\
    (forall v, EvWarnRttTooLarge v ∈ log ->
               s = DCCP_SANE_RTT_MAX /\ DCCP_SANE_RTT_MAX < v).
Proof.
  unfold tfrc_rx_hist_sample_rtt.
  destruct (sample_rtt_select_total ktime_to_us h skb now)
    as [[[[s h1] log] k] Hsel].
  destruct (sample_rtt_select_sample h skb now s h1 log k Hsel) as [Hs Hnw].
  rewrite Hsel. cbn [mbind option_bind].
  destruct k.
  - pose proof Hsel as Hsel'.
    unfold sample_rtt_select, c_div in Hsel'.
    revert Hsel'.
    repeat (split_ifs; cbn [mbind option_bind]);
      (intros [= <- <- <-] || intros [=]);
      eexists _, _, _; (split; [reflexivity|]);
      (split; [lia|]); intros v Hv; apply elem_of_nil in Hv; contradiction.
  - destruct (Z.ltb_spec DCCP_SANE_RTT_MAX s) as [Hbig|Hok];
      eexists _, _, _; (split; [reflexivity|]).
    + rewrite to_u32_small by lia. split; [lia|].
      intros v Hv. apply elem_of_app in Hv as [Hv | Hv].
      * by apply Hnw in Hv.
      * apply list_elem_of_singleton in Hv. injection Hv as ->.
        split; [reflexivity | exact Hbig].
    + split; [lia|]. intros v Hv. by apply Hnw in Hv.
Qed.

End Collaborators.

(** X19: with nothing pending, a packet recorded by
    [tfrc_rx_hist_add_packet] is stored as the last received entry with
    its sequence number cut to 48 bits, and is a duplicate from then on;
    the other three slots, [loss_count] and [loss_start] are left
    alone. *)
Theorem add_packet_then_duplicate
        (h : tfrc_rx_hist) (skb : sk_buff) (ndp now : Z)
        (Hlc : loss_count h = 0) :
  let h' := tfrc_rx_hist_add_packet h skb ndp now in
  tfrc_rx_hist_last_rcv h' = tfrc_rx_hist_entry_from_skb skb ndp now /\
  tfrc_rx_hist_duplicate h' skb = 1 /\
  loss_count h' = 0 /\ loss_start h' = loss_start h /\
  (forall i, 0 <= i <= 3 -> i <> last_rcv_index h ->
             ring_get (ring h') i = ring_get (ring h) i).
Proof.
  intros h'. subst h'. unfold tfrc_rx_hist_add_packet.
  pose proof (index_range h 0) as Hr. fold (last_rcv_index h) in Hr.
  assert (Hlast : tfrc_rx_hist_last_rcv
                    (write_entry h (last_rcv_index h)
                       (tfrc_rx_hist_entry_from_skb skb ndp now))
                  = tfrc_rx_hist_entry_from_skb skb ndp now).
  { unfold tfrc_rx_hist_last_rcv, write_entry.
    change (last_rcv_index (mk_hist _ _ _)) with (last_rcv_index h).
    cbn [ring]. apply ring_get_set_eq. exact Hr. }
  split; [exact Hlast|]. split.
  - unfold tfrc_rx_hist_duplicate. cbv zeta.
    change (tfrc_rx_hist_loss_prev ?x) with (tfrc_rx_hist_last_rcv x).
    rewrite Hlast. cbn [tfrchrx_seqno tfrc_rx_hist_entry_from_skb].
    rewrite dccp_delta_seqno_48_l, dccp_delta_seqno_u64_r,
      dccp_delta_seqno_diag.
    reflexivity.
  - split; [exact Hlc|]. split; [reflexivity|].
    intros i Hi Hne. unfold write_entry. cbn [ring].
    apply ring_get_set_ne; [exact Hr | exact Hi | congruence].
Qed.

(** X24: [tfrc_rx_hist_new_loss_indicated] returns the [loss_count] it
    leaves behind and writes nothing else; it either keeps [loss_count]
    or sets it to 1, so with a loss already pending the answer is never
    0.  A packet at distance at most 1 from the last received entry,
    such as its successor, never changes the history. *)
Theorem new_loss_indicated_keeps_pending
        (h : tfrc_rx_hist) (skb : sk_buff) (ndp : Z) :
  let r := (tfrc_rx_hist_new_loss_indicated h skb ndp).1 in
  let h' := (tfrc_rx_hist_new_loss_indicated h skb ndp).2 in
  r = loss_count h' /\ ring h' = ring h /\ loss_start h' = loss_start h /\
  (loss_count h' = loss_count h \/ loss_count h' = 1) /\
  (loss_count h <> 0 -> r <> 0) /\
  (dccp_delta_seqno (tfrchrx_seqno (tfrc_rx_hist_last_rcv h))
                    (dccpd_seq skb) <= 1 -> h' = h).
Proof.
  intros r h'.
  destruct (new_loss_indicated_fields h skb ndp) as (Hr & Hring & Hls & Hc).
  cbv zeta in Hr, Hring, Hls, Hc. fold r h' in Hr, Hring, Hls, Hc.
  split; [exact Hr|]. split; [exact Hring|]. split; [exact Hls|].
  split; [exact Hc|]. split.
  - intros Hne. rewrite Hr. lia.
  - intros Hd. subst h'. unfold tfrc_rx_hist_new_loss_indicated. cbv zeta.
    rewrite dccp_delta_seqno_u64_r.
    pose proof (dccp_delta_seqno_range
                  (tfrchrx_seqno (tfrc_rx_hist_last_rcv h)) (dccpd_seq skb)).
    rewrite to_int_small by lia.
    destruct (Z.ltb_spec 1 (dccp_delta_seqno
                              (tfrchrx_seqno (tfrc_rx_hist_last_rcv h))
                              (dccpd_seq skb))); [lia|].
    reflexivity.
Qed.

End RxCountFacts.

(** ** Receiver history: the statements at concrete inputs *)

Module RxInstances.

Import RxHist ArithFacts Examples RxExamples RxRingFacts RxCountFacts.

Lemma h_100_103_wf : wf h_100_103.
Proof. unfold wf; simpl; lia. Qed.

Lemma h_100_103_ordered : ordered h_100_103.
Proof.
  unfold ordered. change (entry_off h_100_103 1) with 3.
  change (loss_count h_100_103) with 1.
  repeat split; intros; lia.
Qed.

Lemma h_100_103_fresh_105 : fresh_packet h_100_103 (skb_seq 105).
Proof.
  unfold fresh_packet. change (entry_off h_100_103 1) with 3.
  change (off h_100_103 (dccpd_seq (skb_seq 105))) with 5.
  change (loss_count h_100_103) with 1.
  repeat split; intros; lia.
Qed.

Lemma h_100_103_106_wf : wf h_100_103_106.
Proof. unfold wf; simpl; lia. Qed.

Lemma h_100_103_106_ordered : ordered h_100_103_106.
Proof.
  unfold ordered. change (entry_off h_100_103_106 1) with 3.
  change (entry_off h_100_103_106 2) with 6.
  change (loss_count h_100_103_106) with 2.
  repeat split; intros; lia.
Qed.

Lemma h_100_103_106_fresh_104 : fresh_packet h_100_103_106 (skb_seq 104).
Proof.
  unfold fresh_packet. change (entry_off h_100_103_106 1) with 3.
  change (entry_off h_100_103_106 2) with 6.
  change (off h_100_103_106 (dccpd_seq (skb_seq 104))) with 4.
  change (loss_count h_100_103_106) with 2.
  repeat split; intros; lia.
Qed.

(** X18, on the history whose anchor is in slot 2: the entries 1 and 2
    are exchanged, the entry 3 is left alone. *)
Lemma rx_hist_swap_exchanges_witness :
  tfrc_rx_hist_entry (tfrc_rx_hist_swap h_three_from_slot2 1 2) 1
  = entry_seq 103 /\
  tfrc_rx_hist_entry (tfrc_rx_hist_swap h_three_from_slot2 1 2) 3
  = entry_seq 105.
Proof.
  destruct (rx_hist_swap_exchanges h_three_from_slot2 1 2)
    as (Ha & _ & Hi & _).
  split; [exact Ha|].
  apply (Hi 3); vm_compute; discriminate.
Defined.

(** X19: packet 101 recorded on the history with anchor 100. *)
Lemma add_packet_then_duplicate_witness :
  tfrc_rx_hist_duplicate (tfrc_rx_hist_add_packet h_anchor100 (skb_seq 101) 0 5)
                         (skb_seq 101) = 1.
Proof.
  exact (proj1 (proj2 (add_packet_then_duplicate h_anchor100 (skb_seq 101)
                         0 5 eq_refl))).
Defined.

(** X20: the run that ends with a stale slot exposed. *)
Lemma loss_count_at_most_two_witness :
  exists h' lh',
    rx_run ktime_to_us DCCP_SANE_RTT_MAX nat unit lh_count_add
           ops_stale_slot (tfrc_rx_hist_alloc mem0, 0%nat)
    = Some (h', lh') /\ 0 <= loss_count h' <= 2.
Proof.
  apply (loss_count_at_most_two ktime_to_us DCCP_SANE_RTT_MAX nat unit
           lh_count_add ops_stale_slot (tfrc_rx_hist_alloc mem0) 0%nat).
  simpl. lia.
Defined.

(** X21: packet 105 arrives with anchor 100 and 103 pending. *)
Lemma one_after_loss_table_witness :
  loss_count (__one_after_loss h_100_103 (skb_seq 105) 0 7) = 2 /\
  tfrc_rx_hist_entry (__one_after_loss h_100_103 (skb_seq 105) 0 7) 2
  = tfrc_rx_hist_entry_from_skb (skb_seq 105) 0 7.
Proof.
  destruct (one_after_loss_table h_100_103 (skb_seq 105) 0 7
              h_100_103_wf eq_refl h_100_103_ordered h_100_103_fresh_105
              ltac:(lia)) as (Ha & _).
  destruct (Ha ltac:(vm_compute; reflexivity)) as (H1 & _ & _ & H2).
  split; [exact H1 | exact H2].
Defined.

(** X22: packet 104 arrives with anchor 100 and 103, 106 pending. *)
Lemma two_after_loss_table_witness :
  (__two_after_loss h_100_103_106 (skb_seq 104) 0 7).1 = 1 /\
  tfrc_rx_hist_entry (__two_after_loss h_100_103_106 (skb_seq 104) 0 7).2 3
  = entry_seq 106.
Proof.
  destruct (two_after_loss_table h_100_103_106 (skb_seq 104) 0 7
              h_100_103_106_wf eq_refl h_100_103_106_ordered
              h_100_103_106_fresh_104 ltac:(lia)) as (_ & Hb & _).
  destruct (Hb ltac:(split; vm_compute; reflexivity))
    as (H1 & _ & _ & _ & _ & H2).
  split; [exact H1 | exact H2].
Defined.

(** X23: a sample taken four window counters and 5 ms after the
    reference entry. *)
Lemma sample_rtt_bounded_witness :
  exists s h' log,
    tfrc_rx_hist_sample_rtt ktime_to_us DCCP_SANE_RTT_MAX
                            h_ref0 (skb_ccval 1 4) 5000000
    = Some (s, h', log) /\ 0 <= s <= DCCP_SANE_RTT_MAX.
Proof.
  destruct (sample_rtt_bounded ktime_to_us DCCP_SANE_RTT_MAX
              h_ref0 (skb_ccval 1 4) 5000000
              ltac:(vm_compute; split; [discriminate | reflexivity]))
    as (s & h' & log & Hs & Hb & _).
  exists s, h', log. split; [exact Hs | exact Hb].
Defined.

(** X24: with 103 pending, packet 104 is not reported as no loss. *)
Lemma new_loss_indicated_keeps_pending_witness :
  (tfrc_rx_hist_new_loss_indicated h_100_103 (skb_seq 104) 0).1 <> 0 /\
  (tfrc_rx_hist_new_loss_indicated h_anchor100 (skb_seq 101) 0).2
  = h_anchor100.
Proof.
  split.
  - destruct (new_loss_indicated_keeps_pending h_100_103 (skb_seq 104) 0)
      as (_ & _ & _ & _ & Hp & _).
    apply Hp. vm_compute. discriminate.
  - destruct (new_loss_indicated_keeps_pending h_anchor100 (skb_seq 101) 0)
      as (_ & _ & _ & _ & _ & Hs).
    apply Hs. vm_compute. discriminate.
Defined.

End RxInstances.

(** ** Receiver history: allocation is all or nothing, purge frees all *)

Module RxAllocFacts.

Import RxAlloc.

Ltac reduce_mem :=
  unfold set_ring, set_slab;
  cbn [alloc_loop kmem_cache_alloc ring_ptr slab
       loss_count loss_start free_below purge_loop mbind option_bind
       insert list_insert lookup list_lookup fst snd].

Lemma kmem_cache_free_live (s : gset loc) l :
  l ∈ s -> kmem_cache_free s l = Some (s ∖ {[l]}).
Proof. intros Hl. unfold kmem_cache_free. by rewrite bool_decide_true. Qed.

(** X25: a successful [tfrc_rx_hist_alloc] returns 0 with four
    different objects in the ring, none of which was live before, both
    index fields 0, and exactly these four objects added to the live
    ones. *)
Theorem rx_hist_alloc_success (ok : nat -> bool) (m : rx_mem)
        (Hlen : length (ring_ptr m) = 4%nat)
        (Hok : forall i, (i < 4)%nat -> ok i = true) :
  exists l0 l1 l2 l3,
    tfrc_rx_hist_alloc ok m
    = Some (0, mk_rx_mem [Some l0; Some l1; Some l2; Some l3] 0 0
                         ({[l0; l1; l2; l3]} ∪ slab m)) /\
    NoDup [l0; l1; l2; l3] /\
    (forall l, l ∈ [l0; l1; l2; l3] -> l ∉ slab m).
Proof.
  destruct m as [r lc ls s].
  destruct r as [|p0 [|p1 [|p2 [|p3 [|? ?]]]]]; try discriminate Hlen.
  unfold tfrc_rx_hist_alloc. cbn [alloc_loop].
  rewrite !Hok by lia. reduce_mem.
  set (l0 := fresh s).
  set (l1 := fresh ({[l0]} ∪ s)).
  set (l2 := fresh ({[l1]} ∪ ({[l0]} ∪ s))).
  set (l3 := fresh ({[l2]} ∪ ({[l1]} ∪ ({[l0]} ∪ s)))).
  pose proof (is_fresh s) as F0. fold l0 in F0.
  pose proof (is_fresh ({[l0]} ∪ s)) as F1. fold l1 in F1.
  pose proof (is_fresh ({[l1]} ∪ ({[l0]} ∪ s))) as F2. fold l2 in F2.
  pose proof (is_fresh ({[l2]} ∪ ({[l1]} ∪ ({[l0]} ∪ s)))) as F3.
  fold l3 in F3.
  exists l0, l1, l2, l3. split; [|split].
  - do 2 f_equal. f_equal. set_solver.
  - repeat (apply NoDup_cons_2; [set_solver|]). apply NoDup_nil_2.
  - intros l Hl. set_solver.
Qed.

(** X26: when an allocation fails, [tfrc_rx_hist_alloc] returns
    [-ENOBUFS] and has freed every object it had obtained: the live
    objects are those from before the call.  The slots up to the failing
    one hold [NULL], the slots behind it and the index fields are as they
    were. *)
Theorem rx_hist_alloc_failure_frees (ok : nat -> bool) (m : rx_mem) (i : nat)
        (Hlen : length (ring_ptr m) = 4%nat)
        (Hi : (i < 4)%nat)
        (Hfail : ok i = false)
        (Hok : forall j, (j < i)%nat -> ok j = true) :
  tfrc_rx_hist_alloc ok m
  = Some (- ENOBUFS,
          mk_rx_mem (replicate (S i) None ++ drop (S i) (ring_ptr m))
                    (loss_count m) (loss_start m) (slab m)).
Proof.
  destruct m as [r lc ls s].
  destruct r as [|p0 [|p1 [|p2 [|p3 [|? ?]]]]]; try discriminate Hlen.
  unfold tfrc_rx_hist_alloc.
  assert (Hc : (i = 0 \/ i = 1 \/ i = 2 \/ i = 3)%nat) by lia.
  pose proof (is_fresh s) as F0.
  pose proof (is_fresh ({[fresh s]} ∪ s)) as F1.
  pose proof (is_fresh ({[fresh ({[fresh s]} ∪ s)]} ∪ ({[fresh s]} ∪ s)))
    as F2.
  destruct Hc as [-> | [-> | [-> | ->]]]; cbn [alloc_loop];
    rewrite ?Hok by lia; rewrite Hfail; reduce_mem;
    repeat (rewrite kmem_cache_free_live by set_solver; reduce_mem);
    cbn [replicate drop app];
    do 2 f_equal; f_equal; set_solver.
Qed.

(** The objects of a ring from slot [i] on. *)
Lemma purge_loop_spec n : forall i (m : rx_mem),
  (i + n = length (ring_ptr m))%nat ->
  NoDup (omap id (drop i (ring_ptr m))) ->
  (forall l, l ∈ omap id (drop i (ring_ptr m)) -> l ∈ slab m) ->
  purge_loop n i m
  = Some (mk_rx_mem (take i (ring_ptr m) ++ replicate n None)
                    (loss_count m) (loss_start m)
                    (slab m ∖ list_to_set (omap id (drop i (ring_ptr m))))).
Proof.
  induction n as [|n IH]; intros i m Hlen Hnd Hlive.
  - cbn [purge_loop]. destruct m as [r lc ls s]. cbn in *.
    rewrite drop_ge by lia. rewrite take_ge by lia. cbn.
    rewrite app_nil_r. do 2 f_equal. set_solver.
  - cbn [purge_loop].
    destruct (lookup_lt_is_Some_2 (ring_ptr m) i ltac:(lia)) as [p Hp].
    rewrite Hp. cbn [mbind option_bind].
    rewrite (drop_S _ _ _ Hp) in Hnd, Hlive |- *.
    destruct p as [l|].
    + cbn [omap id] in Hnd, Hlive |- *.
      change (omap id (drop (S i) (ring_ptr m)))
        with (omap id (drop (S i) (ring_ptr m))) in *.
      apply NoDup_cons in Hnd as [Hl Hnd].
      rewrite kmem_cache_free_live by (apply Hlive; set_solver).
      cbn [mbind option_bind].
      rewrite IH; cbn [ring_ptr loss_count loss_start slab set_ring set_slab].
      * rewrite drop_insert_lt by lia.
        rewrite (take_S_r _ _ None) by (apply list_lookup_insert_eq; lia).
        rewrite take_insert_ge by lia.
        rewrite <- app_assoc. cbn. do 2 f_equal. set_solver.
      * rewrite length_insert. lia.
      * rewrite drop_insert_lt by lia. exact Hnd.
      * rewrite drop_insert_lt by lia. intros k Hk.
        apply elem_of_difference. split; [apply Hlive; set_solver|].
        set_solver.
    + cbn [omap id] in Hnd, Hlive |- *. cbn [mbind option_bind].
      rewrite IH; [|lia|exact Hnd|exact Hlive].
      rewrite (take_S_r _ _ None) by exact Hp.
      rewrite <- app_assoc. reflexivity.
Qed.

(** X27: [tfrc_rx_hist_purge] on a ring whose objects are live and
    pairwise different frees exactly these objects and leaves [NULL] in
    every slot, whichever slots held [NULL] already; the index fields
    are kept.  Purging again changes nothing.  Purging a ring that
    holds the same object twice faults on the second free. *)
Theorem rx_hist_purge_frees_ring (m : rx_mem)
        (Hlen : length (ring_ptr m) = 4%nat)
        (Hnd : NoDup (ring_objects m))
        (Hlive : forall l, l ∈ ring_objects m -> l ∈ slab m) :
  let m' := mk_rx_mem [None; None; None; None] (loss_count m) (loss_start m)
                      (slab m ∖ list_to_set (ring_objects m)) in
  tfrc_rx_hist_purge m = Some m' /\
  tfrc_rx_hist_purge m' = Some m' /\
  (forall l s, l ∈ s ->
     tfrc_rx_hist_purge (mk_rx_mem [Some l; None; None; Some l] 0 0 s)
     = None).
Proof.
  intros m'. split; [|split].
  - unfold tfrc_rx_hist_purge.
    rewrite (purge_loop_spec 4 0 m) by (cbn; assumption || lia).
    reflexivity.
  - unfold tfrc_rx_hist_purge. subst m'. reduce_mem.
    reflexivity.
  - intros l s Hl. unfold tfrc_rx_hist_purge. reduce_mem.
    rewrite kmem_cache_free_live by exact Hl. reduce_mem.
    unfold kmem_cache_free. rewrite bool_decide_false by set_solver.
    reflexivity.
Qed.

(** X28: a history that was allocated and is then purged leaves the slab
    as it was before the allocation. *)
Theorem rx_hist_alloc_then_purge (ok : nat -> bool) (m : rx_mem)
        (Hlen : length (ring_ptr m) = 4%nat)
        (Hok : forall i, (i < 4)%nat -> ok i = true) :
  exists m1,
    tfrc_rx_hist_alloc ok m = Some (0, m1) /\
    tfrc_rx_hist_purge m1
    = Some (mk_rx_mem [None; None; None; None] 0 0 (slab m)).
Proof.
  destruct m as [r lc ls s].
  destruct r as [|p0 [|p1 [|p2 [|p3 [|? ?]]]]]; try discriminate Hlen.
  unfold tfrc_rx_hist_alloc. cbn [alloc_loop].
  rewrite !Hok by lia. reduce_mem.
  pose proof (is_fresh s) as F0.
  pose proof (is_fresh ({[fresh s]} ∪ s)) as F1.
  pose proof (is_fresh ({[fresh ({[fresh s]} ∪ s)]} ∪ ({[fresh s]} ∪ s)))
    as F2.
  pose proof (is_fresh ({[fresh ({[fresh ({[fresh s]} ∪ s)]}
                                   ∪ ({[fresh s]} ∪ s))]}
                          ∪ ({[fresh ({[fresh s]} ∪ s)]}
                             ∪ ({[fresh s]} ∪ s)))) as F3.
  eexists. split; [reflexivity|].
  unfold tfrc_rx_hist_purge. reduce_mem.
  repeat (rewrite kmem_cache_free_live by set_solver; reduce_mem).
  do 2 f_equal. set_solver.
Qed.

Lemma rx_mem_example_len : length (ring_ptr rx_mem_example) = 4%nat.
Proof. reflexivity. Qed.

Lemma rx_hist_alloc_success_witness :
  exists m1, tfrc_rx_hist_alloc ok_all rx_mem_example = Some (0, m1) /\
             loss_count m1 = 0 /\ loss_start m1 = 0.
Proof.
  destruct (rx_hist_alloc_success ok_all rx_mem_example rx_mem_example_len
              ltac:(reflexivity))
    as (l0 & l1 & l2 & l3 & Ha & _).
  eexists. split; [exact Ha|]. split; reflexivity.
Defined.

Lemma rx_hist_alloc_failure_frees_witness :
  tfrc_rx_hist_alloc ok_two rx_mem_example
  = Some (- ENOBUFS, mk_rx_mem [None; None; None; None] 2 1
                               {[ 1%positive; 2%positive ]}).
Proof.
  apply (rx_hist_alloc_failure_frees ok_two rx_mem_example 2
           rx_mem_example_len ltac:(lia) ltac:(reflexivity)).
  intros j Hj. unfold ok_two. apply Nat.ltb_lt. exact Hj.
Defined.

Lemma rx_hist_purge_frees_ring_witness :
  tfrc_rx_hist_purge
    (mk_rx_mem [Some 1%positive; None; Some 2%positive; None] 1 3
               {[ 1%positive; 2%positive; 3%positive ]})
  = Some (mk_rx_mem [None; None; None; None] 1 3
                    ({[ 1%positive; 2%positive; 3%positive ]}
                       ∖ list_to_set [1%positive; 2%positive])).
Proof.
  apply (rx_hist_purge_frees_ring
           (mk_rx_mem [Some 1%positive; None; Some 2%positive; None] 1 3
                      {[ 1%positive; 2%positive; 3%positive ]})
           ltac:(reflexivity)).
  - cbn. apply NoDup_cons_2; [set_solver|].
    apply NoDup_cons_2; [set_solver|]. apply NoDup_nil_2.
  - cbn. intros l Hl. set_solver.
Defined.

Lemma rx_hist_alloc_then_purge_witness :
  exists m1,
    tfrc_rx_hist_alloc ok_all rx_mem_example = Some (0, m1) /\
    tfrc_rx_hist_purge m1
    = Some (mk_rx_mem [None; None; None; None] 0 0 (slab rx_mem_example)).
Proof.
  exact (rx_hist_alloc_then_purge ok_all rx_mem_example rx_mem_example_len
           ltac:(reflexivity)).
Defined.

End RxAllocFacts.

(** ** Option values: what is written is what is read *)

Module OptionFacts.

Import Options ArithFacts.

Lemma to_u32_add_to_int a b : to_u32 (a + to_int b) = to_u32 (a + b).
Proof.
  unfold to_u32, to_unsigned.
  rewrite <- (Zplus_mod_idemp_r (to_int b)), <- (Zplus_mod_idemp_r b).
  f_equal. f_equal. exact (to_u32_to_int b).
Qed.

Lemma to_u8_small x : 0 <= x <= 255 -> to_u8 x = x.
Proof. intros Hx. unfold to_u8, to_unsigned. apply Z.mod_small. lia. Qed.

Lemma to_u8_byte x : to_u8 (x mod 256) = x mod 256.
Proof.
  apply to_u8_small. pose proof (Z.mod_pos_bound x 256 ltac:(lia)). lia.
Qed.

Lemma to_u8_idem x : to_u8 (to_u8 x) = to_u8 x.
Proof. unfold to_u8, to_unsigned. apply Z.mod_mod. lia. Qed.

Lemma byte_of (v m k : Z) :
  0 <= k -> Z.shiftr m k = 255 ->
  to_u8 (Z.shiftr (Z.land v m) k) = (v / 2 ^ k) mod 256.
Proof.
  intros Hk Hm. rewrite Z.shiftr_land, Hm.
  change 255 with (Z.ones 8). rewrite Z.land_ones by lia.
  rewrite Z.shiftr_div_pow2 by lia.
  unfold to_u8, to_unsigned. change (2 ^ 8) with 256.
  apply Z.mod_mod. lia.
Qed.

(** The bytes written, for a value and a length inside the parameter
    types. *)
Lemma encode_bytes v len :
  0 <= v < 2 ^ 32 -> 0 <= len < 2 ^ 32 ->
  dccp_encode_value_var v len =
  (if 3 <? len then [(v / 16777216) mod 256] else [])
  ++ (if 2 <? len then [(v / 65536) mod 256] else [])
  ++ (if 1 <? len then [(v / 256) mod 256] else [])
  ++ (if 0 <? len then [v mod 256] else []).
Proof.
  intros Hv Hlen. unfold dccp_encode_value_var. cbv zeta.
  rewrite (to_u32_small v), (to_u32_small len) by lia.
  rewrite (byte_of v _ 24), (byte_of v _ 16), (byte_of v _ 8)
    by (lia || reflexivity).
  replace (to_u8 (Z.land v 255)) with (v mod 256).
  2:{ change 255 with (Z.ones 8). rewrite Z.land_ones by lia.
      unfold to_u8, to_unsigned. change (2 ^ 8) with 256.
      symmetry. apply Z.mod_mod. lia. }
  reflexivity.
Qed.

Lemma decode_encode v len :
  0 <= v < 2 ^ 32 -> 0 <= len <= 255 ->
  dccp_decode_value_var (dccp_encode_value_var v len) len
  = Some (v mod 2 ^ (8 * Z.min len 4)).
Proof.
  intros Hv Hlen. rewrite encode_bytes by lia.
  unfold dccp_decode_value_var. cbv zeta. rewrite (to_u8_small len) by lia.
  destruct (Z.ltb_spec 3 len) as [H3|H3].
  { destruct (Z.ltb_spec 2 len); [|lia].
    destruct (Z.ltb_spec 1 len); [|lia].
    destruct (Z.ltb_spec 0 len); [|lia].
    cbn [app read_byte mbind option_bind]. rewrite !to_u8_byte.
    rewrite !to_u32_add_to_int, !Z.shiftl_mul_pow2 by lia.
    rewrite Z.min_r by lia. f_equal.
    unfold to_u32, to_unsigned.
    change (2 ^ (8 * 4)) with 4294967296. change (2 ^ 32) with 4294967296 in *.
    change (2 ^ 24) with 16777216. change (2 ^ 16) with 65536.
    change (2 ^ 8) with 256.
    Z.to_euclidean_division_equations. lia. }
  destruct (Z.ltb_spec 2 len) as [H2|H2].
  { assert (len = 3) by lia. subst len.
    cbn [Z.ltb Z.compare app read_byte mbind option_bind Pos.compare
         Pos.compare_cont]. rewrite !to_u8_byte.
    rewrite !to_u32_add_to_int, !Z.shiftl_mul_pow2 by lia. f_equal.
    unfold to_u32, to_unsigned.
    change (2 ^ (8 * Z.min 3 4)) with 16777216.
    change (2 ^ 32) with 4294967296 in *.
    change (2 ^ 16) with 65536. change (2 ^ 8) with 256.
    Z.to_euclidean_division_equations. lia. }
  destruct (Z.ltb_spec 1 len) as [H1|H1].
  { assert (len = 2) by lia. subst len.
    cbn [Z.ltb Z.compare app read_byte mbind option_bind Pos.compare
         Pos.compare_cont]. rewrite !to_u8_byte.
    rewrite !to_u32_add_to_int, !Z.shiftl_mul_pow2 by lia. f_equal.
    unfold to_u32, to_unsigned.
    change (2 ^ (8 * Z.min 2 4)) with 65536.
    change (2 ^ 32) with 4294967296 in *. change (2 ^ 8) with 256.
    Z.to_euclidean_division_equations. lia. }
  destruct (Z.ltb_spec 0 len) as [H0|H0].
  { assert (len = 1) by lia. subst len.
    cbn [Z.ltb Z.compare app read_byte mbind option_bind Pos.compare
         Pos.compare_cont]. rewrite !to_u8_byte.
    f_equal. unfold to_u32, to_unsigned.
    change (2 ^ (8 * Z.min 1 4)) with 256.
    change (2 ^ 32) with 4294967296 in *.
    Z.to_euclidean_division_equations. lia. }
  assert (len = 0) by lia. subst len.
  cbn [app mbind option_bind].
  change (2 ^ (8 * Z.min 0 4)) with 1. rewrite Z.mod_1_r. reflexivity.
Qed.

(** The length arrives as a [u8] in the reader and as an [unsigned int]
    in the writer. *)
Lemma decode_len_u8 bf len :
  dccp_decode_value_var bf len = dccp_decode_value_var bf (to_u8 len).
Proof. unfold dccp_decode_value_var. cbv zeta. by rewrite to_u8_idem. Qed.

Lemma encode_len_u32 v len :
  dccp_encode_value_var v len = dccp_encode_value_var v (to_u32 len).
Proof.
  unfold dccp_encode_value_var. cbv zeta.
  replace (to_u32 (to_u32 len)) with (to_u32 len); [reflexivity|].
  unfold to_u32, to_unsigned. symmetry. apply Z.mod_mod. lia.
Qed.

(** X29: for a [u32] value and a length from 0 to 255, which both
    parameter types hold, what [dccp_encode_value_var] writes
    [dccp_decode_value_var] reads back with the same length as the
    value's low [8 * len] bits, lengths above 4 acting as 4 and length 0
    writing nothing and reading 0.  The number of bytes written is the
    length, limited to 4, and each is a byte.  Outside that range the
    two functions see different lengths: the reader takes the length
    modulo 2^8, the writer modulo 2^32, so for a length whose low 8 bits
    are 0 the reader returns 0 from any buffer, while the writer writes
    four bytes when the length modulo 2^32 is at least 4. *)
Theorem encode_decode_round_trip (value len : Z)
        (Hv : 0 <= value < 2 ^ 32) (Hlen : 0 <= len <= 255) :
  dccp_decode_value_var (dccp_encode_value_var value len) len
  = Some (value mod 2 ^ (8 * Z.min len 4)) /\
  Z.of_nat (length (dccp_encode_value_var value len)) = Z.min len 4 /\
  (forall b, b ∈ dccp_encode_value_var value len -> 0 <= b <= 255) /\
  (4 <= len ->
   dccp_decode_value_var (dccp_encode_value_var value len) len = Some value) /\
  (forall bf n, n mod 2 ^ 8 = 0 -> dccp_decode_value_var bf n = Some 0) /\
  (forall n, 4 <= n mod 2 ^ 32 ->
             length (dccp_encode_value_var value n) = 4%nat).
Proof.
  split; [by apply decode_encode|]. split; [|split; [|split; [|split]]].
  - rewrite encode_bytes by lia.
    destruct (Z.ltb_spec 3 len), (Z.ltb_spec 2 len), (Z.ltb_spec 1 len),
      (Z.ltb_spec 0 len); cbn [app length]; lia.
  - intros b Hb. rewrite encode_bytes in Hb by lia.
    assert (Hm : forall z, 0 <= z mod 256 <= 255).
    { intros z. pose proof (Z.mod_pos_bound z 256 ltac:(lia)). lia. }
    repeat match goal with
           | H : _ ∈ _ ++ _ |- _ => apply elem_of_app in H; destruct H
           | H : _ ∈ (if ?c then _ else _) |- _ => destruct c
           | H : _ ∈ [_] |- _ => apply list_elem_of_singleton in H; subst
           | H : _ ∈ [] |- _ => apply elem_of_nil in H; contradiction
           end; apply Hm.
  - intros H4. rewrite decode_encode by lia.
    rewrite Z.min_r by lia. f_equal.
    change (2 ^ (8 * 4)) with (2 ^ 32). apply Z.mod_small. exact Hv.
  - intros bf n Hn. rewrite decode_len_u8.
    unfold to_u8, to_unsigned. rewrite Hn. reflexivity.
  - intros n Hn. rewrite encode_len_u32.
    pose proof (Z.mod_pos_bound n (2 ^ 32) ltac:(lia)) as Hb.
    fold (to_unsigned 32 n) in Hn, Hb. fold (to_u32 n) in Hn, Hb.
    rewrite encode_bytes by lia.
    destruct (Z.ltb_spec 3 (to_u32 n)); [|lia].
    destruct (Z.ltb_spec 2 (to_u32 n)); [|lia].
    destruct (Z.ltb_spec 1 (to_u32 n)); [|lia].
    destruct (Z.ltb_spec 0 (to_u32 n)); [|lia].
    reflexivity.
Qed.

(** X30: the lengths the senders choose.  For a positive NDP count
    [dccp_ndp_len] is 1, 2 or 3, so never above what the parser
    accepts, and is the least number of bytes that holds a count below
    2^24, which is read back unchanged; a larger count is read back cut
    to its low 24 bits.  [dccp_elapsed_time_len] gives a length with
    which every [u32] elapsed time is read back unchanged. *)
Theorem option_lengths_round_trip (ndp elapsed_time : Z)
        (Hndp : 0 < ndp < 2 ^ 31)
        (Het : 0 <= elapsed_time < 2 ^ 32) :
  1 <= dccp_ndp_len ndp <= 3 /\
  dccp_decode_value_var (dccp_encode_value_var ndp (dccp_ndp_len ndp))
                        (dccp_ndp_len ndp)
  = Some (ndp mod 2 ^ 24) /\
  (ndp < 2 ^ 24 ->
   ndp < 2 ^ (8 * dccp_ndp_len ndp) /\
   2 ^ (8 * (dccp_ndp_len ndp - 1)) <= ndp) /\
  dccp_decode_value_var
    (dccp_encode_value_var elapsed_time (dccp_elapsed_time_len elapsed_time))
    (dccp_elapsed_time_len elapsed_time)
  = Some elapsed_time.
Proof.
  assert (Hl : 1 <= dccp_ndp_len ndp <= 3).
  { unfold dccp_ndp_len.
    destruct (ndp <=? 255); [lia|]. destruct (ndp <=? 65535); lia. }
  assert (He : 0 <= dccp_elapsed_time_len elapsed_time <= 4).
  { unfold dccp_elapsed_time_len.
    destruct (elapsed_time =? 0); [lia|].
    destruct (elapsed_time <=? 65535); lia. }
  split; [exact Hl|]. split; [|split].
  - rewrite decode_encode by lia. f_equal. unfold dccp_ndp_len.
    destruct (Z.leb_spec ndp 255); [|destruct (Z.leb_spec ndp 65535)].
    + change (2 ^ (8 * Z.min 1 4)) with 256.
      rewrite !Z.mod_small; lia.
    + change (2 ^ (8 * Z.min 2 4)) with 65536.
      rewrite !Z.mod_small; lia.
    + reflexivity.
  - intros Hs. unfold dccp_ndp_len.
    destruct (Z.leb_spec ndp 255); [|destruct (Z.leb_spec ndp 65535)].
    + change (2 ^ (8 * 1)) with 256. change (2 ^ (8 * (1 - 1))) with 1. lia.
    + change (2 ^ (8 * 2)) with 65536. change (2 ^ (8 * (2 - 1))) with 256.
      lia.
    + change (2 ^ (8 * 3)) with 16777216.
      change (2 ^ (8 * (3 - 1))) with 65536. lia.
  - rewrite decode_encode by lia. f_equal. unfold dccp_elapsed_time_len.
    destruct (Z.eqb_spec elapsed_time 0) as [-> | Hne];
      [reflexivity|].
    destruct (Z.leb_spec elapsed_time 65535).
    + change (2 ^ (8 * Z.min 2 4)) with 65536.
      apply Z.mod_small. lia.
    + change (2 ^ (8 * Z.min 4 4)) with (2 ^ 32).
      apply Z.mod_small. lia.
Qed.

Lemma encode_decode_round_trip_witness :
  dccp_decode_value_var (dccp_encode_value_var 0x12345678 3) 3
  = Some 0x345678 /\
  dccp_decode_value_var (dccp_encode_value_var 0x12345678 256) 256 = Some 0 /\
  length (dccp_encode_value_var 0x12345678 256) = 4%nat.
Proof.
  destruct (encode_decode_round_trip 0x12345678 3 ltac:(lia) ltac:(lia))
    as (Hr & _ & _ & _ & Hz & Hw).
  split; [exact Hr|]. split.
  - apply Hz. reflexivity.
  - apply Hw. vm_compute. discriminate.
Defined.

Lemma option_lengths_round_trip_witness :
  dccp_ndp_len 300 = 2 /\
  dccp_decode_value_var (dccp_encode_value_var 300 (dccp_ndp_len 300))
                        (dccp_ndp_len 300) = Some 300.
Proof.
  split; [reflexivity|].
  exact (proj1 (proj2 (option_lengths_round_trip 300 0 ltac:(lia)
                         ltac:(lia)))).
Defined.

End OptionFacts.

(** ** The loss handler and the callback of the loss-interval database *)

Module SinkFacts.

Import RxHist LossSink ArithFacts RxFacts RxCountFacts Examples RxExamples.

(** C3: with the database update taken from the spec (one call of
    [first_interval_fn] per update), the loss handler invokes the
    callback exactly once, on the connection context it was given, when
    it is entered with two pending entries and the two-pending
    transition signals a loss.  The call is made on the history as that
    transition left it, three entries pending; the housekeeping
    transition runs on that history afterwards and leaves at most two
    pending.  In every other case, so whenever one entry is pending,
    the callback is not invoked, the database is as it was and the
    result is 0. *)
Theorem handle_loss_first_interval_fn_once
        (sock : Type) (h : tfrc_rx_hist) (lh : tfrc_loss_hist sock)
        (skb : sk_buff) (ndp : Z) (calc_first_li : sock -> Z) (sk : sock)
        (now : Z) :
  let '(r, h', lh', log) :=
    tfrc_rx_handle_loss (tfrc_loss_hist sock) sock tfrc_lh_interval_add
                        h lh skb ndp calc_first_li sk now in
  let '(signal, h2) := __two_after_loss h skb ndp now in
  if (loss_count h =? 2) && negb (signal =? 0) then
    first_interval_calls lh' = first_interval_calls lh ++ [(sk, h2)] /\
    length (first_interval_calls lh')
    = S (length (first_interval_calls lh)) /\
    li_lengths lh' = calc_first_li sk :: li_lengths lh /\
    loss_count h2 = 3 /\ h' = __three_after_loss h2 /\
    0 <= loss_count h' <= 2 /\
    sink_calls log = 1%nat /\ r = 1
  else
    first_interval_calls lh' = first_interval_calls lh /\ lh' = lh /\
    sink_calls log = 0%nat /\ r = 0.
Proof.
  pose proof (handle_loss_sink_once (tfrc_loss_hist sock) sock
                tfrc_lh_interval_add h lh skb ndp calc_first_li sk now)
    as Hgen.
  destruct (tfrc_rx_handle_loss (tfrc_loss_hist sock) sock
              tfrc_lh_interval_add h lh skb ndp calc_first_li sk now)
    as [[[r h'] lh'] log].
  destruct (__two_after_loss h skb ndp now) as [signal h2].
  destruct Hgen as [Hgen _].
  destruct ((loss_count h =? 2) && negb (signal =? 0)).
  - destruct Hgen as (Hlog & Hcalls & Hlc & Hh' & Hr & Hlh).
    subst lh' r h'. unfold tfrc_lh_interval_add, call_first_interval_fn.
    cbn [fst snd li_lengths first_interval_calls].
    split; [reflexivity|]. split.
    { rewrite length_app. cbn [length]. lia. }
    split; [reflexivity|]. split; [exact Hlc|]. split; [reflexivity|].
    split; [apply three_after_loss_count|]. split; [exact Hcalls|].
    reflexivity.
  - destruct Hgen as (Hcalls & Hr & Hlh). subst lh'. auto.
Qed.

(** Packet 104 arrives with anchor 100 and 103, 106 pending, on an empty
    database: one call of the callback is recorded. *)
Lemma handle_loss_first_interval_fn_once_witness :
  length (first_interval_calls
            (tfrc_rx_handle_loss (tfrc_loss_hist unit) unit
               tfrc_lh_interval_add h_100_103_106 (mk_lh [] [])
               (skb_seq 104) 0 calc0 tt 7).1.2) = 1%nat /\
  length (first_interval_calls
            (tfrc_rx_handle_loss (tfrc_loss_hist unit) unit
               tfrc_lh_interval_add h_100_103 (mk_lh [] [])
               (skb_seq 105) 0 calc0 tt 7).1.2) = 0%nat.
Proof.
  split.
  - pose proof (handle_loss_first_interval_fn_once unit h_100_103_106
                  (mk_lh [] []) (skb_seq 104) 0 calc0 tt 7) as W.
    vm_compute in W. vm_compute. exact (proj1 (proj2 W)).
  - pose proof (handle_loss_first_interval_fn_once unit h_100_103
                  (mk_lh [] []) (skb_seq 105) 0 calc0 tt 7) as W.
    vm_compute in W. vm_compute.
    exact (f_equal (@length _) (proj1 W)).
Defined.

End SinkFacts.
